(** * Damped-local-trend forecaster: the prediction routine of [orbit/dlt.py]

    A shallow embedding of [DLT._predict] and the properties its
    specification states about it.

    Conventions.
    - Scalars are the elements of an arbitrary [Scalar] structure: a carrier
      with the operations the routine applies to doubles and no algebraic
      law, so every result holds for IEEE arithmetic as well as for exact
      arithmetic.
    - A tensor of shape [(num_sample, T)] is the list of its [T] columns,
      each column a vector over the draw axis.  [x[:, i]], [x[:, :k]],
      [x[:, s:]] and [torch.cat(..., dim=1)] are then lookup, [take],
      [drop] and [++].
    - Dates are integers (time stamps); sets of dates are [gset Z].
    - numpy buffers and data frames live in a store addressed by position;
      the routine is a computation in a state-and-exception monad over it. *)

From Stdlib Require Import ZArith Lia Bool.
From stdpp Require Import base option list strings gmap sets.

Open Scope Z_scope.

(** ** Exceptions and outcomes *)

Inductive exn :=
  | IllegalArgument
  | PredictionException
  | KeyError
  | IndexError
  | TypeError
  | AttributeError
  | RuntimeError
  | ValueError.

Inductive outcome (A : Type) :=
  | Returns (a : A)
  | Raises (e : exn).
Arguments Returns {A} a.
Arguments Raises {A} e.

Definition obind {A B} (x : outcome A) (f : A -> outcome B) : outcome B :=
  match x with
  | Returns a => f a
  | Raises e => Raises e
  end.

(** [x.attr] or [x[...]] where [x] may be [None] *)
Definition unwrap {A} (e : exn) (x : option A) : outcome A :=
  match x with
  | Some a => Returns a
  | None => Raises e
  end.

(** ** Python slicing *)

(** A slice bound [k] on a sequence of [len] elements: negative bounds count
    from the end, and every bound is clamped to [0 .. len]. *)
Definition py_bound (len : nat) (k : Z) : nat :=
  if k <? 0 then Z.to_nat (Z.max 0 (Z.of_nat len + k))
  else Z.to_nat (Z.min k (Z.of_nat len)).

(** [l[:k]] *)
Definition slice_to {A} (k : Z) (l : list A) : list A :=
  take (py_bound (length l) k) l.

(** [l[k:]] *)
Definition slice_from {A} (k : Z) (l : list A) : list A :=
  drop (py_bound (length l) k) l.

(** [a or b] on integers *)
Definition py_or (a b : Z) : Z := if a =? 0 then b else a.

(** ** Dates and the horizon *)

Definition date := Z.

Record training_meta := {
  training_start : date;
  training_end : date;
  tm_df_length : nat;
  tm_date_array : list date
}.

Record prediction_meta := {
  pm_date_array : list date;
  pm_df_length : nat;
  prediction_start : date;
  prediction_end : date
}.

(** Modelled from the spec: [orbit.utils.utils.is_ordered_datetime] is not
    part of the sources.  The specification requires the prediction dates to
    be strictly increasing, with no repeats. *)
Fixpoint is_ordered_datetime (a : list date) : bool :=
  match a with
  | [] => true
  | x :: rest =>
      match rest with
      | [] => true
      | y :: _ => (x <? y) && is_ordered_datetime rest
      end
  end.

(** The result of [pd.Index(...).get_loc(key)]: a position when the key occurs
    once, and a slice or a boolean mask when it occurs several times. *)
Inductive locator :=
  | LInt (i : Z)
  | LSliceOrMask.

Fixpoint positions (key : date) (i : nat) (a : list date) : list nat :=
  match a with
  | [] => []
  | x :: rest =>
      if decide (x = key) then i :: positions key (S i) rest
      else positions key (S i) rest
  end.

Definition get_loc (a : list date) (key : date) : outcome locator :=
  match positions key 0 a with
  | [] => Raises KeyError
  | [i] => Returns (LInt (Z.of_nat i))
  | _ => Returns LSliceOrMask
  end.

Definition date_set (a : list date) : gset Z := list_to_set a.

(** Lines 285-291: the two checks on the prediction dates. *)
Definition validate (tm : training_meta) (pm : prediction_meta) : outcome unit :=
  if negb (is_ordered_datetime (pm_date_array pm)) then Raises IllegalArgument
  else if prediction_start pm <? training_start tm then Raises PredictionException
  else Returns tt.

Record horizon := {
  n_forecast_steps : Z;
  start : locator;
  full_len : Z
}.

(** Lines 293-316. *)
Definition resolve_horizon (tm : training_meta) (pm : prediction_meta)
  : outcome horizon :=
  let trained_len := tm_df_length tm in
  if training_end tm <? prediction_start pm then
    let forecast_dates := date_set (pm_date_array pm) in
    let n := Z.of_nat (size forecast_dates) in
    Returns {| n_forecast_steps := n;
               start := LInt (Z.of_nat trained_len);
               full_len := Z.of_nat trained_len + n |}
  else
    let forecast_dates :=
      date_set (pm_date_array pm) ∖ date_set (tm_date_array tm) in
    let n :=
      py_or (Z.of_nat (size forecast_dates))
            (- Z.of_nat (size (date_set (tm_date_array tm)
                                 ∖ date_set (pm_date_array pm)))) in
    obind (get_loc (tm_date_array tm) (prediction_start pm)) (fun st =>
    Returns {| n_forecast_steps := n;
               start := st;
               full_len := Z.of_nat trained_len + n |}).

(** ** Scalars, vectors and arrays *)

(** The operations the routine applies to doubles.  [fpos x] is [x > 0] and
    [ftruth x] is the truth value of a one-element tensor holding [x]. *)
Class Scalar (F : Type) := {
  fzero : F;
  fone : F;
  fadd : F -> F -> F;
  fsub : F -> F -> F;
  fmul : F -> F -> F;
  flog : F -> F;
  fexp : F -> F;
  of_int : Z -> F;
  fpos : F -> bool;
  ftruth : F -> bool
}.

(** A vector over the draw axis, shape [(n,)]. *)
Abbreviation vec F := (list F).

(** A numpy array or torch tensor of rank one or two; a rank-two array of
    shape [(n, T)] is kept as its [T] columns. *)
Inductive ndarray (F : Type) :=
  | A1 (v : vec F)
  | A2 (n : nat) (cols : list (vec F)).
Arguments A1 {F} v.
Arguments A2 {F} n cols.

(** The columns of the caller's frame that the routine reads: the date column
    and, row by row, the regressor columns in the order of [regressor_col]. *)
Record dataframe (F : Type) := {
  df_dates : list date;
  df_regressors : list (list F)
}.
Arguments df_dates {F} d.
Arguments df_regressors {F} d.

Section Vectors.
Context {F : Type} `{Scalar F}.

(** Arithmetic over the draw axis is element by element.  The posterior
    arrays share the length of their first axis (lines 212-215), so the
    operands have the same length. *)
Definition vadd (a b : vec F) : vec F := zip_with fadd a b.
Definition vsub (a b : vec F) : vec F := zip_with fsub a b.
Definition vmul (a b : vec F) : vec F := zip_with fmul a b.
(** [1 - a] *)
Definition one_minus (a : vec F) : vec F := fsub fone <$> a.
(** [a * k] for a Python integer [k] *)
Definition vscale (a : vec F) (k : Z) : vec F := (fun x => fmul x (of_int k)) <$> a.
(** [torch.log(1 + a)] *)
Definition vlog1p (a : vec F) : vec F := (fun x => flog (fadd fone x)) <$> a.

(** [torch.zeros((n, len))] *)
Definition zeros (n len : nat) : list (vec F) := replicate len (replicate n fzero).

Definition shape0 (a : ndarray F) : nat :=
  match a with
  | A1 v => length v
  | A2 n _ => n
  end.

Definition numel (a : ndarray F) : nat :=
  match a with
  | A1 v => length v
  | A2 n cols => (n * length cols)%nat
  end.

(** Row [i] of a rank-two array. *)
Definition row (i : nat) (cols : list (vec F)) : list F :=
  (fun c => default fzero (c !! i)) <$> cols.

(** [a.flatten()]: row-major order. *)
Definition flatten (a : ndarray F) : vec F :=
  match a with
  | A1 v => v
  | A2 n cols => concat ((fun i => row i cols) <$> seq 0 n)
  end.

(** [a.reshape(1, -1)] *)
Definition reshape_row (a : ndarray F) : ndarray F :=
  A2 1 ((fun x => [x]) <$> flatten a).

(** The rank-two reading of an array when it is broadcast against a
    rank-two one: a vector of length [L] counts as shape [(1, L)]. *)
Definition as2d (a : ndarray F) : nat * list (vec F) :=
  match a with
  | A1 v => (1%nat, (fun x => [x]) <$> v)
  | A2 n cols => (n, cols)
  end.

(** The common size of two axes under broadcasting. *)
Definition bsize (a b : nat) : outcome nat :=
  if decide (a = b) then Returns a
  else if decide (a = 1%nat) then Returns b
  else if decide (b = 1%nat) then Returns a
  else Raises RuntimeError.

(** Stretch an axis of size [a] (equal to [t] or to one) to size [t]. *)
Definition stretch {A} (t : nat) (l : list A) : list A :=
  if decide (length l = t) then l
  else match l with
       | x :: _ => replicate t x
       | [] => []
       end.

(** [a + b] on tensors of rank at most two, with broadcasting. *)
Definition badd (a b : ndarray F) : outcome (ndarray F) :=
  match a, b with
  | A1 u, A1 v =>
      obind (bsize (length u) (length v)) (fun t =>
      Returns (A1 (zip_with fadd (stretch t u) (stretch t v))))
  | _, _ =>
      let '(n1, c1) := as2d a in
      let '(n2, c2) := as2d b in
      obind (bsize n1 n2) (fun n =>
      obind (bsize (length c1) (length c2)) (fun t =>
      Returns (A2 n (zip_with (fun u v => zip_with fadd (stretch n u) (stretch n v))
                              (stretch t c1) (stretch t c2)))))
  end.

(** [torch.exp(a)] and the element-wise inverse scaling *)
Definition amap (f : F -> F) (a : ndarray F) : ndarray F :=
  match a with
  | A1 v => A1 (fmap (M := list) f v)
  | A2 n cols => A2 n (fmap (M := list) (fmap (M := list) f) cols)
  end.

(** The dot product of a row of the design matrix with the coefficient
    columns, one entry per draw; the sum runs from the left. *)
Definition lincomb (n : nat) (x : list F) (beta : list (vec F)) : vec F :=
  foldl vadd (replicate n fzero)
        (zip_with (fun xr b => fmul xr <$> b) x beta).

Definition dot (x b : list F) : F :=
  foldl fadd fzero (zip_with fmul x b).

(** [torch.matmul(X, beta.t()).t()] for the design matrix [X] of shape
    [(L, k)]: shape [(n, L)] for coefficients of shape [(n, k)], and shape
    [(L,)] for a coefficient vector of shape [(k,)]. *)
Definition matmul_t (X : list (list F)) (beta : ndarray F) : outcome (ndarray F) :=
  match beta with
  | A2 n cols =>
      if forallb (fun x => bool_decide (length x = length cols)) X
      then Returns (A2 n ((fun x => lincomb n x cols) <$> X))
      else Raises RuntimeError
  | A1 b =>
      if forallb (fun x => bool_decide (length x = length b)) X
      then Returns (A1 ((fun x => dot x b) <$> X))
      else Raises RuntimeError
  end.

(** [torch.cat((a, b), dim=1)] on rank-two tensors *)
Definition cat1 (a b : ndarray F) : outcome (ndarray F) :=
  match a, b with
  | A2 n1 c1, A2 n2 c2 =>
      if decide (n1 = n2) then Returns (A2 n1 (c1 ++ c2)) else Raises RuntimeError
  | _, _ => Raises RuntimeError
  end.

(** [t[:, idx] = v] and [t[:, idx]] *)
Definition set_col (idx : nat) (v : vec F) (t : list (vec F)) : outcome (list (vec F)) :=
  if decide (idx < length t)%nat then Returns (<[idx := v]> t) else Raises IndexError.

Definition get_col (idx : nat) (t : list (vec F)) : outcome (vec F) :=
  unwrap IndexError (t !! idx).

(** The columns of an entry that must have rank two ([x[:, ...]]). *)
Definition cols_of (x : option (ndarray F)) : outcome (nat * list (vec F)) :=
  match x with
  | None => Raises TypeError
  | Some (A1 _) => Raises IndexError
  | Some (A2 n cols) => Returns (n, cols)
  end.

(** An entry used as a factor without [flatten()]: the tensor as it is, of
    rank one or two. *)
Definition factor_of (x : option (ndarray F)) : outcome (ndarray F) :=
  match x with
  | None => Raises TypeError
  | Some a => Returns a
  end.

(** An operation of the loop on two operands, element by element.  Two
    operands of rank one have the length of the draw axis (lines 212-215).  An
    operand of rank two broadcasts against the other one as in [badd]: a
    factor of shape [(n, 1)] and a vector over [n] draws give a square. *)
Definition lop (f : F -> F -> F) (a b : ndarray F) : outcome (ndarray F) :=
  match a, b with
  | A1 u, A1 v => Returns (A1 (zip_with f u v))
  | _, _ =>
      let '(n1, c1) := as2d a in
      let '(n2, c2) := as2d b in
      obind (bsize n1 n2) (fun n =>
      obind (bsize (length c1) (length c2)) (fun t =>
      Returns (A2 n (zip_with (fun u v => zip_with f (stretch n u) (stretch n v))
                              (stretch t c1) (stretch t c2)))))
  end.

(** [t[:, idx] = v] for a value of rank one or two.  A vector is the new
    column.  A value of rank two is taken when it has one row, which then
    counts as a vector of the length of the column, or of length one, which
    fills the column; any other shape does not expand to a column. *)
Definition assign_col (idx : nat) (v : ndarray F) (t : list (vec F))
  : outcome (list (vec F)) :=
  match v with
  | A1 u => set_col idx u t
  | A2 k cols =>
      obind (get_col idx t) (fun old =>
      if decide (k = 1%nat) then
        if decide (length cols = length old) then set_col idx (row 0 cols) t
        else match row 0 cols with
             | [x] => set_col idx (replicate (length old) x) t
             | _ => Raises RuntimeError
             end
      else Raises RuntimeError)
  end.

(** The two parameters of the noise as the sampler takes them for
    [size = n].  Vectors are taken per draw.  Otherwise the sampler
    broadcasts the parameters (numpy raises [ValueError] when it cannot),
    drops the leading axes of length one and raises [ValueError] unless what
    is left is one value or one value for each of the [n] draws. *)
Definition noise_parameters (n : nat) (dof sigma : ndarray F)
  : outcome (vec F * vec F) :=
  match dof, sigma with
  | A1 d, A1 s => Returns (d, s)
  | _, _ =>
      let '(r1, c1) := as2d dof in
      let '(r2, c2) := as2d sigma in
      match bsize r1 r2, bsize (length c1) (length c2) with
      | Returns r, Returns c =>
          if decide (r = 1%nat /\ (c = 1%nat \/ c = n))
          then Returns (stretch c (row 0 c1), stretch c (row 0 c2))
          else Raises ValueError
      | _, _ => Raises ValueError
      end
  end.

(** [x.flatten()] for an entry that may be absent *)
Definition flatten_of (x : option (ndarray F)) : outcome (vec F) :=
  match x with
  | None => Raises AttributeError
  | Some a => Returns (flatten a)
  end.

(** [bool(t)] for a tensor *)
Definition truth (a : ndarray F) : outcome bool :=
  match flatten a with
  | [x] => if decide (numel a = 1%nat) then Returns (ftruth x) else Raises RuntimeError
  | _ => Raises RuntimeError
  end.
End Vectors.

(** ** The store, the collaborators and the monad *)

Definition loc := nat.

Inductive obj (F : Type) :=
  | ONd (a : ndarray F)
  | OFrame (d : dataframe F).
Arguments ONd {F} a.
Arguments OFrame {F} d.

(** What the routine takes from outside this file: the generator behind
    [scipy.stats.nct.rvs], the fitted response scaler, and the two frame
    transforms of the parent class, which act on the values of a frame and
    leave its dates alone. *)
Class Collaborators (F : Type) := {
  rng_state : Type;
  (** [nct.rvs(df=dof, nc=0, loc=0, scale=sigma, size=n)] *)
  nct_rvs : vec F -> vec F -> nat -> rng_state -> vec F * rng_state;
  (** [response_min_max_scaler.inverse_transform], entry by entry *)
  inverse_transform : F -> F;
  (** the values [_scale_df(df, do_fit=False)] gives a frame *)
  scale_values : list (list F) -> list (list F);
  (** the values [_log_transform_df(df, do_fit=False)] gives a frame *)
  log_values : list (list F) -> list (list F)
}.

Definition map_values {F} (f : list (list F) -> list (list F)) (d : dataframe F)
  : dataframe F :=
  {| df_dates := df_dates d; df_regressors := f (df_regressors d) |}.

Record world (F : Type) `{Collaborators F} := {
  heap : list (obj F);
  rng : rng_state
}.
Arguments heap {F _} w.
Arguments rng {F _} w.

(** The keys of the posterior mapping, as the members of the enumerations of
    [orbit.constants.dlt] that the routine names. *)
Inductive param :=
  | SEASONALITY_LEVELS
  | SEASONALITY_SMOOTHING_FACTOR
  | SLOPE_SMOOTHING_FACTOR
  | LEVEL_SMOOTHING_FACTOR
  | LOCAL_TREND_LEVELS
  | LOCAL_TREND_SLOPES
  | LOCAL_TREND
  | RESIDUAL_DEGREE_OF_FREEDOM
  | RESIDUAL_SIGMA
  | DAMPED_FACTOR
  | GLOBAL_TREND_LEVEL
  | GLOBAL_TREND_SLOPE
  | GLOBAL_TREND
  | POSITIVE_REGRESSOR_BETA
  | REGULAR_REGRESSOR_BETA.

#[global] Instance param_eq_dec : EqDecision param.
Proof. solve_decision. Defined.

(** [d.get(k)] on a dictionary kept in insertion order *)
Fixpoint dict_get {V} (k : param) (d : list (param * V)) : option V :=
  match d with
  | [] => None
  | (k', v) :: rest => if decide (k' = k) then Some v else dict_get k rest
  end.

(** The fields of the fitted model that the routine reads. *)
Record DLT (F : Type) := {
  damped_factor_fixed : F;
  seasonality : Z;
  use_log_global_trend : bool;
  is_multiplicative : bool;
  auto_scale : bool;
  regressor_col : option (list string);
  regular_regressor_col : list string;
  training_df_meta : training_meta;
  _posterior_state : list (param * loc)
}.
Arguments damped_factor_fixed {F} d.
Arguments seasonality {F} d.
Arguments use_log_global_trend {F} d.
Arguments is_multiplicative {F} d.
Arguments auto_scale {F} d.
Arguments regressor_col {F} d.
Arguments regular_regressor_col {F} d.
Arguments training_df_meta {F} d.
Arguments _posterior_state {F} d.

(** The value [_predict] returns: the prediction and, when a decomposition is
    asked for, the trend, seasonality and regression components. *)
Record output (F : Type) := {
  prediction : ndarray F;
  components : option (ndarray F * ndarray F * ndarray F)
}.
Arguments prediction {F} o.
Arguments components {F} o.

Section Monad.
Context {F : Type} `{Scalar F} `{Collaborators F}.

Definition M (A : Type) : Type := world F -> outcome A * world F.

Definition ret {A} (a : A) : M A := fun w => (Returns a, w).
Definition raise {A} (e : exn) : M A := fun w => (Raises e, w).
Definition lift {A} (o : outcome A) : M A := fun w => (o, w).
Definition bind {A B} (m : M A) (f : A -> M B) : M B :=
  fun w =>
    match m w with
    | (Returns a, w') => f a w'
    | (Raises e, w') => (Raises e, w')
    end.

(** A new object in the store. *)
Definition alloc (o : obj F) : M loc :=
  fun w => (Returns (length (heap w)), {| heap := heap w ++ [o]; rng := rng w |}).

(** The object behind a reference.  Every reference a Python value holds
    has its object, so the first case is only there for totality. *)
Definition load (l : loc) : M (obj F) :=
  fun w => (unwrap TypeError (heap w !! l), w).

(** [torch.from_numpy(v)]: the tensor shares the buffer of [v]. *)
Definition from_numpy (l : loc) : M (ndarray F) :=
  bind (load l) (fun o =>
  match o with
  | ONd a => ret a
  | OFrame _ => raise TypeError
  end).

(** The frame behind a reference ([df[...]], [df.copy()]). *)
Definition load_frame (l : loc) : M (dataframe F) :=
  bind (load l) (fun o =>
  match o with
  | OFrame d => ret d
  | ONd _ => raise TypeError
  end).

(** A column assignment that lands in the buffer behind a view. *)
Definition store_col (l : loc) (idx : nat) (v : vec F) : M unit :=
  fun w =>
    match heap w !! l with
    | Some (ONd (A2 n cols)) =>
        (Returns tt,
         {| heap := <[l := ONd (A2 n (<[idx := v]> cols))]> (heap w); rng := rng w |})
    | _ => (Returns tt, w)
    end.

(** A frame changed in place. *)
Definition update_frame (l : loc) (f : dataframe F -> dataframe F) : M unit :=
  fun w =>
    match heap w !! l with
    | Some (OFrame d) =>
        (Returns tt, {| heap := <[l := OFrame (f d)]> (heap w); rng := rng w |})
    | _ => (Returns tt, w)
    end.

(** One call of the noise generator. *)
Definition sample (dof sigma : vec F) (n : nat) : M (vec F) :=
  fun w =>
    let '(e, g) := nct_rvs dof sigma n (rng w) in
    (Returns e, {| heap := heap w; rng := g |}).

(** [for i in idxs: st = body(i, st)] *)
Fixpoint for_each {S} (idxs : list nat) (body : nat -> S -> M S) (st : S) : M S :=
  match idxs with
  | [] => ret st
  | i :: rest => bind (body i st) (for_each rest body)
  end.
End Monad.

Notation "x <- m ;; k" := (bind m (fun x => k))
  (at level 100, m at next level, right associativity).

(** ** The prediction routine *)

Section Predict.
Context {F : Type} `{Scalar F} `{Collaborators F}.

(** [deepcopy(self._posterior_state)]: every buffer the mapping refers to
    is copied into a new object.  (Sharing between entries is not kept:
    the routine writes through one entry only, and reads every entry
    before that.) *)
Fixpoint deepcopy (d : list (param * loc)) : M (list (param * loc)) :=
  match d with
  | [] => ret []
  | (k, l) :: rest =>
      o <- load l ;;
      l' <- alloc o ;;
      rest' <- deepcopy rest ;;
      ret ((k, l') :: rest')
  end.

(** Lines 209-210: each entry becomes a tensor over the copied buffer. *)
Fixpoint tensors (d : list (param * loc)) : M (list (param * ndarray F)) :=
  match d with
  | [] => ret []
  | (k, l) :: rest =>
      a <- from_numpy l ;;
      rest' <- tensors rest ;;
      ret ((k, a) :: rest')
  end.

(** The model attributes of lines 216-261. *)
Record attributes := {
  num_sample : nat;
  seasonality_levels : option (ndarray F);
  seasonality_smoothing_factor : option (ndarray F);
  slope_smoothing_factor : option (ndarray F);
  level_smoothing_factor : option (ndarray F);
  local_trend_levels : option (ndarray F);
  local_trend_slopes : option (ndarray F);
  local_trend : option (ndarray F);
  residual_degree_of_freedom : option (ndarray F);
  residual_sigma : option (ndarray F);
  damped_factor : option (ndarray F);
  global_trend_level : option (ndarray F);
  global_trend_slope : option (ndarray F);
  global_trend : option (ndarray F);
  regressor_beta : option (ndarray F)
}.

(** Lines 254-261. *)
Definition combine_beta (pr_beta rr_beta : option (ndarray F))
  : outcome (option (ndarray F)) :=
  match pr_beta, rr_beta with
  | Some pr, Some rr =>
      let pr := match pr with A2 _ _ => pr | A1 _ => reshape_row pr end in
      let rr := match rr with A2 _ _ => rr | A1 _ => reshape_row rr end in
      obind (cat1 pr rr) (fun b => Returns (Some b))
  | Some pr, None =>
      (* [pr_beta or rr_beta] takes the truth value of the tensor *)
      obind (truth pr) (fun t => Returns (if t then Some pr else None))
  | None, _ => Returns rr_beta
  end.

Definition model_attributes (self : DLT F) (model : list (param * ndarray F))
  : outcome attributes :=
  obind (unwrap IndexError (head model)) (fun first =>
  let n := shape0 first.2 in
  obind (combine_beta (dict_get POSITIVE_REGRESSOR_BETA model)
                      (dict_get REGULAR_REGRESSOR_BETA model)) (fun beta =>
  Returns {|
    num_sample := n;
    seasonality_levels := dict_get SEASONALITY_LEVELS model;
    seasonality_smoothing_factor := dict_get SEASONALITY_SMOOTHING_FACTOR model;
    slope_smoothing_factor := dict_get SLOPE_SMOOTHING_FACTOR model;
    level_smoothing_factor := dict_get LEVEL_SMOOTHING_FACTOR model;
    local_trend_levels := dict_get LOCAL_TREND_LEVELS model;
    local_trend_slopes := dict_get LOCAL_TREND_SLOPES model;
    local_trend := dict_get LOCAL_TREND model;
    residual_degree_of_freedom := dict_get RESIDUAL_DEGREE_OF_FREEDOM model;
    residual_sigma := dict_get RESIDUAL_SIGMA model;
    damped_factor :=
      if fpos (damped_factor_fixed self)
      then Some (A1 (replicate n (damped_factor_fixed self)))
      else dict_get DAMPED_FACTOR model;
    global_trend_level := dict_get GLOBAL_TREND_LEVEL model;
    global_trend_slope := dict_get GLOBAL_TREND_SLOPE model;
    global_trend := dict_get GLOBAL_TREND model;
    regressor_beta := beta
  |})).

(** Lines 268-275.  [_scale_df] and [_log_transform_df] belong to the parent
    class, which is not part of the sources.
    Modelled from the spec: each applies its forward transform to the
    frame it is given; it is taken to do so in place and to hand the same
    frame back, the case in which a missing copy would show. *)
Definition _scale_df (l : loc) : M loc :=
  _ <- update_frame l (map_values scale_values) ;; ret l.

Definition _log_transform_df (l : loc) : M loc :=
  _ <- update_frame l (map_values log_values) ;; ret l.

Definition working_frame (self : DLT F) (df : option loc) : M loc :=
  df <- lift (unwrap AttributeError df) ;;
  d <- load_frame df ;;
  df <- alloc (OFrame d) ;;
  df <- (if auto_scale self then _scale_df df else ret df) ;;
  if is_multiplicative self then _log_transform_df df else ret df.

(** Lines 278-283. *)
Definition prediction_df_meta (d : dataframe F) : outcome prediction_meta :=
  obind (unwrap IndexError (head (df_dates d))) (fun first =>
  obind (unwrap IndexError (last (df_dates d))) (fun final =>
  Returns {| pm_date_array := df_dates d;
             pm_df_length := length (df_dates d);
             prediction_start := first;
             prediction_end := final |})).

(** Lines 322-331. *)
Definition regression_component (self : DLT F) (at_ : attributes)
    (d : dataframe F) (output_len : nat) : outcome (ndarray F) :=
  if bool_decide (is_Some (regressor_col self))
     && bool_decide (0 < length (regular_regressor_col self))%nat
  then
    obind (unwrap AttributeError (regressor_beta at_)) (fun beta =>
    matmul_t (df_regressors d) beta)
  else Returns (A2 (num_sample at_) (zeros (num_sample at_) output_len)).

(** Lines 337-348.  The boolean tells whether the component is a view of
    the stored seasonality levels. *)
Definition seasonality_init (self : DLT F) (at_ : attributes) (full_len : Z)
  : outcome (bool * nat * list (vec F)) :=
  if 1 <? seasonality self then
    match seasonality_levels at_ with
    | None => Raises AttributeError
    | Some (A1 _) => Raises IndexError
    | Some (A2 n cols) =>
        if full_len <=? Z.of_nat (length cols)
        then Returns (true, n, slice_to full_len cols)
        else
          let seasonality_forecast_length :=
            Z.to_nat (full_len - Z.of_nat (length cols)) in
          obind (cat1 (A2 n cols)
                      (A2 (num_sample at_)
                          (zeros (num_sample at_) seasonality_forecast_length)))
                (fun c => Returns (false, (as2d c).1, (as2d c).2))
    end
  else
    if full_len <? 0 then Raises RuntimeError
    else Returns (false, num_sample at_, zeros (num_sample at_) (Z.to_nat full_len)).

(** The state the forecast loop works on.  The level and the slope are
    vectors over the draws as long as the factors are; a factor of rank two
    makes them tensors of rank two. *)
Record loop_state := {
  full_local_trend : list (vec F);
  full_global_trend : list (vec F);
  seasonality_component : list (vec F);
  last_local_trend_level : ndarray F;
  last_local_trend_slope : ndarray F
}.

(** Lines 378-383. *)
Definition global_trend_at (self : DLT F) (level slope : vec F) (idx : nat) : vec F :=
  if use_log_global_trend self
  then vadd level (vlog1p (vscale slope (Z.of_nat idx)))
  else vadd level (vscale slope (Z.of_nat idx - 1)).

(** Lines 401-403. *)
Definition level_update (lsf realized curr : vec F) : vec F :=
  vadd (vmul lsf realized) (vmul (one_minus lsf) curr).

(** Lines 404-406. *)
Definition slope_update (ssf damped new_level last_level last_slope : vec F) : vec F :=
  vadd (vmul ssf (vsub new_level last_level))
       (vmul (vmul (one_minus ssf) damped) last_slope).

(** Lines 409-414. *)
Definition seasonality_update (sea_sm realized seas new_level : vec F) : vec F :=
  vadd (vmul sea_sm (vsub (vadd realized seas) new_level))
       (vmul (one_minus sea_sm) seas).

(** The four formulas above are the ones of the loop for operands of rank
    one.  The loop itself applies them to tensors, operation by operation in
    the order of evaluation, so that a factor of rank two broadcasts. *)
Definition global_trend_tensor (self : DLT F) (level slope : ndarray F) (idx : nat)
  : outcome (ndarray F) :=
  if use_log_global_trend self
  then lop fadd level
           (amap (fun x => flog (fadd fone x))
                 (amap (fun x => fmul x (of_int (Z.of_nat idx))) slope))
  else lop fadd level (amap (fun x => fmul x (of_int (Z.of_nat idx - 1))) slope).

Definition level_update_tensor (lsf realized curr : ndarray F) : outcome (ndarray F) :=
  obind (lop fmul lsf realized) (fun a =>
  obind (lop fmul (amap (fsub fone) lsf) curr) (fun b =>
  lop fadd a b)).

Definition seasonality_update_tensor (sea_sm realized seas new_level : ndarray F)
  : outcome (ndarray F) :=
  obind (lop fadd realized seas) (fun rs =>
  obind (lop fsub rs new_level) (fun d =>
  obind (lop fmul sea_sm d) (fun a =>
  obind (lop fmul (amap (fsub fone) sea_sm) seas) (fun b =>
  lop fadd a b)))).

(** Lines 369-416: one pass of the loop.  [view] is the buffer behind the
    seasonality component when the component is a view. *)
Definition loop_body (self : DLT F) (at_ : attributes) (include_error : bool)
    (full_len : Z) (view : option loc) (idx : nat) (st : loop_state)
  : M loop_state :=
  damped <- lift (flatten_of (damped_factor at_)) ;;
  damped_slope <- lift (lop fmul (A1 damped) (last_local_trend_slope st)) ;;
  curr_local_trend <- lift (lop fadd (last_local_trend_level st) damped_slope) ;;
  flt <- lift (assign_col idx curr_local_trend (full_local_trend st)) ;;
  gl <- lift (factor_of (global_trend_level at_)) ;;
  gs <- lift (factor_of (global_trend_slope at_)) ;;
  g <- lift (global_trend_tensor self gl gs idx) ;;
  fgt <- lift (assign_col idx g (full_global_trend st)) ;;
  flt <- (if include_error then
            dof <- lift (factor_of (residual_degree_of_freedom at_)) ;;
            sigma <- lift (factor_of (residual_sigma at_)) ;;
            ps <- lift (noise_parameters (num_sample at_) dof sigma) ;;
            error_value <- sample ps.1 ps.2 (num_sample at_) ;;
            c <- lift (get_col idx flt) ;;
            lift (set_col idx (vadd c error_value) flt)
          else ret flt) ;;
  lsf <- lift (factor_of (level_smoothing_factor at_)) ;;
  realized <- lift (get_col idx flt) ;;
  new_local_trend_level <-
    lift (level_update_tensor lsf (A1 realized) curr_local_trend) ;;
  level_step <-
    lift (lop fsub new_local_trend_level (last_local_trend_level st)) ;;
  ssf <- lift (factor_of (slope_smoothing_factor at_)) ;;
  slope_a <- lift (lop fmul ssf level_step) ;;
  keep <- lift (lop fmul (amap (fsub fone) ssf) (A1 damped)) ;;
  slope_b <- lift (lop fmul keep (last_local_trend_slope st)) ;;
  new_slope <- lift (lop fadd slope_a slope_b) ;;
  seas <- (if (1 <? seasonality self)
              && (Z.of_nat idx + seasonality self <? full_len)
           then
             let target := Z.to_nat (Z.of_nat idx + seasonality self) in
             sea_sm <- lift (flatten_of (seasonality_smoothing_factor at_)) ;;
             s <- lift (get_col idx (seasonality_component st)) ;;
             v <- lift (seasonality_update_tensor (A1 sea_sm) (A1 realized) (A1 s)
                                                  new_local_trend_level) ;;
             seas <- lift (assign_col target v (seasonality_component st)) ;;
             written <- lift (get_col target seas) ;;
             _ <- match view with
                  | Some l => store_col l target written
                  | None => ret tt
                  end ;;
             ret seas
           else ret (seasonality_component st)) ;;
  ret {| full_local_trend := flt;
         full_global_trend := fgt;
         seasonality_component := seas;
         last_local_trend_level := new_local_trend_level;
         last_local_trend_slope := new_slope |}.

(** [range(trained_len, full_len)] *)
Definition forecast_range (trained_len : nat) (full_len : Z) : list nat :=
  seq trained_len (Z.to_nat (full_len - Z.of_nat trained_len)).

(** Lines 354-416. *)
Definition trend_component (self : DLT F) (at_ : attributes) (include_error : bool)
    (trained_len : nat) (full_len : Z) (view : option loc)
    (seas : list (vec F))
  : M (nat * nat * loop_state) :=
  if full_len <=? Z.of_nat trained_len then
    lt <- lift (cols_of (local_trend at_)) ;;
    gt <- lift (cols_of (global_trend at_)) ;;
    ret (lt.1, gt.1,
         {| full_local_trend := slice_to full_len lt.2;
            full_global_trend := slice_to full_len gt.2;
            seasonality_component := seas;
            last_local_trend_level := A1 [];
            last_local_trend_slope := A1 [] |})
  else
    let trend_forecast_length := Z.to_nat (full_len - Z.of_nat trained_len) in
    let trend_forecast_init :=
      A2 (num_sample at_) (zeros (num_sample at_) trend_forecast_length) in
    lt <- lift (cols_of (local_trend at_)) ;;
    flt <- lift (cat1 (A2 lt.1 (slice_to full_len lt.2)) trend_forecast_init) ;;
    gt <- lift (cols_of (global_trend at_)) ;;
    fgt <- lift (cat1 (A2 gt.1 (slice_to full_len gt.2)) trend_forecast_init) ;;
    levels <- lift (cols_of (local_trend_levels at_)) ;;
    level <- lift (unwrap IndexError (last levels.2)) ;;
    slopes <- lift (cols_of (local_trend_slopes at_)) ;;
    slope <- lift (unwrap IndexError (last slopes.2)) ;;
    st <- for_each (forecast_range trained_len full_len)
                   (loop_body self at_ include_error full_len view)
                   {| full_local_trend := (as2d flt).2;
                      full_global_trend := (as2d fgt).2;
                      seasonality_component := seas;
                      last_local_trend_level := A1 level;
                      last_local_trend_slope := A1 slope |} ;;
    ret ((as2d flt).1, (as2d fgt).1, st).

(** Lines 422-462. *)
Definition combine (self : DLT F) (decompose : bool) (st : locator)
    (nl ng ns : nat) (ls : loop_state) (regressor_component : ndarray F)
  : outcome (output F) :=
  match st with
  | LSliceOrMask => Raises TypeError
  | LInt start =>
      obind (badd (A2 ng (slice_from start (full_global_trend ls)))
                  (A2 nl (slice_from start (full_local_trend ls)))) (fun trend =>
      let seas := A2 ns (slice_from start (seasonality_component ls)) in
      obind (badd trend seas) (fun sum =>
      obind (badd sum regressor_component) (fun pred_array =>
      let back := if is_multiplicative self then amap fexp else (fun a => a) in
      let unscale := if auto_scale self then amap inverse_transform else (fun a => a) in
      Returns {| prediction := unscale (back pred_array);
                 components :=
                   if decompose
                   then Some (unscale (back trend), back seas, back regressor_component)
                   else None |})))
  end.

(** Lines 207-283: the model attributes and the prediction frame. *)
Record prepared := {
  bufs : list (param * loc);
  attrs : attributes;
  frame : dataframe F;
  prediction_df : prediction_meta
}.

(** Lines 207-261, "Model Attributes". *)
Definition posterior_attributes (self : DLT F) : M (list (param * loc) * attributes) :=
  bufs <- deepcopy (_posterior_state self) ;;
  model <- tensors bufs ;;
  at_ <- lift (model_attributes self model) ;;
  ret (bufs, at_).

(** Lines 268-283, the head of "Prediction Attributes". *)
Definition prediction_frame (self : DLT F) (df : option loc)
  : M (dataframe F * prediction_meta) :=
  df <- working_frame self df ;;
  d <- load_frame df ;;
  pm <- lift (prediction_df_meta d) ;;
  ret (d, pm).

Definition prepare (self : DLT F) (df : option loc) : M prepared :=
  ma <- posterior_attributes self ;;
  pf <- prediction_frame self df ;;
  ret {| bufs := ma.1; attrs := ma.2; frame := pf.1; prediction_df := pf.2 |}.

(** Lines 285-462. *)
Definition predict_from (self : DLT F) (include_error decompose : bool)
    (p : prepared) : M (output F) :=
  let at_ := attrs p in
  let pm := prediction_df p in
  let training_df_meta := training_df_meta self in
  _ <- lift (validate training_df_meta pm) ;;
  let trained_len := tm_df_length training_df_meta in
  let output_len := pm_df_length pm in
  hz <- lift (resolve_horizon training_df_meta pm) ;;
  regressor_component <- lift (regression_component self at_ (frame p) output_len) ;;
  seas <- lift (seasonality_init self at_ (full_len hz)) ;;
  let view := if seas.1.1 then dict_get SEASONALITY_LEVELS (bufs p) else None in
  tr <- trend_component self at_ include_error trained_len (full_len hz) view seas.2 ;;
  lift (combine self decompose (start hz) tr.1.1 tr.1.2 seas.1.2 tr.2
                regressor_component).

Definition _predict (self : DLT F) (df : option loc)
    (include_error decompose : bool) : M (output F) :=
  p <- prepare self df ;;
  predict_from self include_error decompose p.
End Predict.

(** ** A model to run the routine on: integer scalars *)

(** Exact integer arithmetic; the logarithm and the exponential are the
    integer ones to base two.  Used to evaluate the routine on small inputs. *)
#[global] Instance Z_scalar : Scalar Z := {|
  fzero := 0;
  fone := 1;
  fadd := Z.add;
  fsub := Z.sub;
  fmul := Z.mul;
  flog := Z.log2;
  fexp := Z.pow 2;
  of_int := fun k => k;
  fpos := fun x => 0 <? x;
  ftruth := fun x => negb (x =? 0)
|}.

(** A generator that counts its calls and returns the count as noise, an
    identity scaler, and frame transforms that leave a visible mark. *)
#[global] Instance Z_collaborators : Collaborators Z := {|
  rng_state := nat;
  nct_rvs := fun _ _ n g => (replicate n (Z.of_nat (S g)), S g);
  inverse_transform := fun x => x;
  scale_values := List.map (List.map (Z.add 100));
  log_values := List.map (List.map Z.log2)
|}.

Module Example.
(** Ten training dates, two draws, period three. *)
Definition tm10 : training_meta :=
  {| training_start := 0; training_end := 9; tm_df_length := 10;
     tm_date_array := Z.of_nat <$> seq 0 10 |}.

Definition hist (k : Z) (len : nat) : ndarray Z :=
  A2 2 ((fun i => [k + Z.of_nat i; k - Z.of_nat i]) <$> seq 0 len).

(** Frames: four dates after the training end, three dates inside the
    training window, and the first three training dates. *)
Definition future4 : dataframe Z :=
  {| df_dates := [10; 11; 12; 13]; df_regressors := [[]; []; []; []] |}.
Definition inside3 : dataframe Z :=
  {| df_dates := [3; 4; 5]; df_regressors := [[]; []; []] |}.
Definition head3 : dataframe Z :=
  {| df_dates := [0; 1; 2]; df_regressors := [[]; []; []] |}.

(** Dates out of order, and dates that start before the training start. *)
Definition unordered2 : dataframe Z :=
  {| df_dates := [11; 10]; df_regressors := [[]; []] |}.
Definition early2 : dataframe Z :=
  {| df_dates := [-1; 0]; df_regressors := [[]; []] |}.

Definition store : list (obj Z) :=
  [ ONd (hist 100 10);        (* 0: local trend *)
    ONd (hist 200 10);        (* 1: global trend *)
    ONd (hist 10 10);         (* 2: local trend levels *)
    ONd (hist 1 10);          (* 3: local trend slopes *)
    ONd (A1 [2; 3]);          (* 4: level smoothing *)
    ONd (A1 [5; 7]);          (* 5: slope smoothing *)
    ONd (A1 [1000; 2000]);    (* 6: global trend level *)
    ONd (A1 [11; 13]);        (* 7: global trend slope *)
    ONd (A1 [4; 4]);          (* 8: residual degrees of freedom *)
    ONd (A1 [1; 1]);          (* 9: residual sigma *)
    ONd (hist 50 13);         (* 10: seasonality levels *)
    ONd (A1 [2; 2]);          (* 11: seasonality smoothing *)
    OFrame future4;           (* 12 *)
    OFrame inside3;           (* 13 *)
    OFrame head3;             (* 14 *)
    OFrame unordered2;        (* 15 *)
    OFrame early2 ].          (* 16 *)

Definition posterior : list (param * loc) :=
  [ (LOCAL_TREND, 0%nat); (GLOBAL_TREND, 1%nat); (LOCAL_TREND_LEVELS, 2%nat);
    (LOCAL_TREND_SLOPES, 3%nat); (LEVEL_SMOOTHING_FACTOR, 4%nat);
    (SLOPE_SMOOTHING_FACTOR, 5%nat); (GLOBAL_TREND_LEVEL, 6%nat);
    (GLOBAL_TREND_SLOPE, 7%nat); (RESIDUAL_DEGREE_OF_FREEDOM, 8%nat);
    (RESIDUAL_SIGMA, 9%nat); (SEASONALITY_LEVELS, 10%nat);
    (SEASONALITY_SMOOTHING_FACTOR, 11%nat) ].

Definition dlt (period : Z) : DLT Z :=
  {| damped_factor_fixed := 2;
     seasonality := period;
     use_log_global_trend := false;
     is_multiplicative := false;
     auto_scale := false;
     regressor_col := None;
     regular_regressor_col := [];
     training_df_meta := tm10;
     _posterior_state := posterior |}.

Definition w0 : world Z := {| heap := store; rng := 0%nat |}.

(** The attributes the routine reads from this posterior, and the state the
    loop starts from for the frame [future4] (combined length fourteen). *)
Definition attrs3 : @attributes Z :=
  {| num_sample := 2;
     seasonality_levels := Some (hist 50 13);
     seasonality_smoothing_factor := Some (A1 [2; 2]);
     slope_smoothing_factor := Some (A1 [5; 7]);
     level_smoothing_factor := Some (A1 [2; 3]);
     local_trend_levels := Some (hist 10 10);
     local_trend_slopes := Some (hist 1 10);
     local_trend := Some (hist 100 10);
     residual_degree_of_freedom := Some (A1 [4; 4]);
     residual_sigma := Some (A1 [1; 1]);
     damped_factor := Some (A1 [2; 2]);
     global_trend_level := Some (A1 [1000; 2000]);
     global_trend_slope := Some (A1 [11; 13]);
     global_trend := Some (hist 200 10);
     regressor_beta := None |}.

Definition start14 : @loop_state Z :=
  {| full_local_trend := (as2d (hist 100 10)).2 ++ zeros 2 4;
     full_global_trend := (as2d (hist 200 10)).2 ++ zeros 2 4;
     seasonality_component := (as2d (hist 50 13)).2 ++ zeros 2 1;
     last_local_trend_level := A1 [19; 1];
     last_local_trend_slope := A1 [10; -8] |}.
End Example.

(** ** The forecast loop, pass by pass *)

Section LoopSpec.
Context {F : Type} `{Scalar F} `{Collaborators F}.

(** The per-draw factors a pass of the loop reads. *)
Record factors := {
  f_damped : vec F;
  f_global_level : vec F;
  f_global_slope : vec F;
  f_level_smoothing : vec F;
  f_slope_smoothing : vec F;
  f_seasonality_smoothing : vec F;
  f_dof : vec F;
  f_sigma : vec F
}.

(** The attributes hold the factors the configuration asks for, as vectors
    over the draws. *)
Definition has_factors (self : DLT F) (at_ : @attributes F) (include_error : bool)
    (fs : factors) : Prop :=
  flatten_of (damped_factor at_) = Returns (f_damped fs)
  /\ factor_of (global_trend_level at_) = Returns (A1 (f_global_level fs))
  /\ factor_of (global_trend_slope at_) = Returns (A1 (f_global_slope fs))
  /\ factor_of (level_smoothing_factor at_) = Returns (A1 (f_level_smoothing fs))
  /\ factor_of (slope_smoothing_factor at_) = Returns (A1 (f_slope_smoothing fs))
  /\ (include_error = true ->
      factor_of (residual_degree_of_freedom at_) = Returns (A1 (f_dof fs))
      /\ factor_of (residual_sigma at_) = Returns (A1 (f_sigma fs)))
  /\ (1 < seasonality self ->
      flatten_of (seasonality_smoothing_factor at_)
      = Returns (f_seasonality_smoothing fs)).

(** The three working tensors have [len] columns, and the level and the
    slope are vectors over the draws. *)
Definition wide (len : nat) (st : @loop_state F) : Prop :=
  length (full_local_trend st) = len
  /\ length (full_global_trend st) = len
  /\ length (seasonality_component st) = len
  /\ last_local_trend_level st = A1 (flatten (last_local_trend_level st))
  /\ last_local_trend_slope st = A1 (flatten (last_local_trend_slope st)).

(** The first [k] passes of the loop of lines 368-416. *)
Definition loop_prefix (self : DLT F) (at_ : @attributes F) (include_error : bool)
    (trained_len : nat) (full_len : Z) (view : option loc) (k : nat)
    (st : @loop_state F) : M (@loop_state F) :=
  for_each (seq trained_len k) (loop_body self at_ include_error full_len view) st.

(** The damped local value a pass starts from, and the value it leaves in the
    local trend, given the noise of the pass. *)
Definition damped_local (fs : factors) (st : @loop_state F) : vec F :=
  vadd (flatten (last_local_trend_level st))
       (vmul (f_damped fs) (flatten (last_local_trend_slope st))).

Definition realized_local (fs : factors) (include_error : bool) (st : @loop_state F)
    (noise : vec F) : vec F :=
  if include_error then vadd (damped_local fs st) noise else damped_local fs st.

(** The noise a pass draws from a generator state. *)
Definition noise_at (at_ : @attributes F) (fs : factors) (g : rng_state) : vec F :=
  (nct_rvs (f_dof fs) (f_sigma fs) (num_sample at_) g).1.

(** The state a pass at [idx] leaves. *)
Definition pass (self : DLT F) (fs : factors) (include_error : bool) (full_len : Z)
    (idx : nat) (st : @loop_state F) (noise : vec F) : @loop_state F :=
  let realized := realized_local fs include_error st noise in
  let new_level := level_update (f_level_smoothing fs) realized (damped_local fs st) in
  {| full_local_trend := <[idx := realized]> (full_local_trend st);
     full_global_trend :=
       <[idx := global_trend_at self (f_global_level fs) (f_global_slope fs) idx]>
         (full_global_trend st);
     seasonality_component :=
       if (1 <? seasonality self) && (Z.of_nat idx + seasonality self <? full_len)
       then <[Z.to_nat (Z.of_nat idx + seasonality self) :=
                seasonality_update (f_seasonality_smoothing fs) realized
                  (default [] (seasonality_component st !! idx)) new_level]>
              (seasonality_component st)
       else seasonality_component st;
     last_local_trend_level := A1 new_level;
     last_local_trend_slope :=
       A1 (slope_update (f_slope_smoothing fs) (f_damped fs) new_level
                        (flatten (last_local_trend_level st))
                        (flatten (last_local_trend_slope st))) |}.

(** The generator state a pass leaves. *)
Definition next_rng (at_ : @attributes F) (fs : factors) (include_error : bool)
    (g : rng_state) : rng_state :=
  if include_error then (nct_rvs (f_dof fs) (f_sigma fs) (num_sample at_) g).2 else g.

(** The passes at the indices [idxs], in order, from a state and a generator
    state. *)
Fixpoint passes (self : DLT F) (at_ : @attributes F) (fs : factors)
    (include_error : bool) (full_len : Z) (idxs : list nat) (st : @loop_state F)
    (g : rng_state) : @loop_state F * rng_state :=
  match idxs with
  | [] => (st, g)
  | idx :: rest =>
      passes self at_ fs include_error full_len rest
             (pass self fs include_error full_len idx st (noise_at at_ fs g))
             (next_rng at_ fs include_error g)
  end.
End LoopSpec.

(** The factors of the example posterior. *)
Definition factors3 : @factors Z :=
  {| f_damped := [2; 2];
     f_global_level := [1000; 2000];
     f_global_slope := [11; 13];
     f_level_smoothing := [2; 3];
     f_slope_smoothing := [5; 7];
     f_seasonality_smoothing := [2; 2];
     f_dof := [4; 4];
     f_sigma := [1; 1] |}.

(** ** Judgements about computations *)

Section Judgements.
Context {F : Type} `{Scalar F} `{Collaborators F}.

(** The two exceptions of the date checks. *)
Definition input_error (e : exn) : Prop :=
  e = IllegalArgument \/ e = PredictionException.

(** A computation that raises neither of them. *)
Definition quiet {A} (m : M A) : Prop :=
  forall w e, (m w).1 = Raises e -> ~ input_error e.

Definition quiet_outcome {A} (o : outcome A) : Prop :=
  forall e, o = Raises e -> ~ input_error e.

(** Where a reference of a run on the store [h ++ t] points in a run on the
    larger store [h ++ ext ++ t]: references into [h] stay, later ones move
    by the length of [ext]. *)
Definition shift (n0 k : nat) (l : loc) : loc :=
  if decide (l < n0)%nat then l else (l + k)%nat.

Definition orel {A} (R : A -> A -> Prop) (o1 o2 : outcome A) : Prop :=
  match o1, o2 with
  | Returns a, Returns b => R a b
  | Raises e1, Raises e2 => e1 = e2
  | _, _ => False
  end.

(** [sim h ext noise R m1 m2]: run on a store that starts with [h], [m1]
    leaves [h] as it is; [m2], run on the same store with [ext] put in after
    [h], does the same to the rest of the store and ends in the same way, with
    results related by [R]; and without [noise] the generator is not used. *)
Definition sim (h ext : list (obj F)) (noise : bool) {A}
    (R : A -> A -> Prop) (m1 m2 : M A) : Prop :=
  forall t g,
    let r1 := m1 {| heap := h ++ t; rng := g |} in
    let r2 := m2 {| heap := h ++ ext ++ t; rng := g |} in
    exists t',
      heap r1.2 = h ++ t'
      /\ heap r2.2 = h ++ ext ++ t'
      /\ rng r1.2 = rng r2.2
      /\ (noise = false -> rng r1.2 = g)
      /\ orel R r1.1 r2.1.

(** References related by the shift, the first one outside [h]. *)
Definition fresh_pair (h ext : list (obj F)) (l1 l2 : loc) : Prop :=
  (length h <= l1)%nat /\ l2 = (l1 + length ext)%nat.

(** Dictionaries of such references. *)
Definition fresh_dict (h ext : list (obj F)) (d1 d2 : list (param * loc)) : Prop :=
  Forall2 (fun x y => x.1 = y.1 /\ fresh_pair h ext x.2 y.2) d1 d2.

(** The buffers behind the seasonality view in the two runs. *)
Definition view_rel (h ext : list (obj F)) (v1 v2 : option loc) : Prop :=
  match v1, v2 with
  | None, None => True
  | Some l1, Some l2 => fresh_pair h ext l1 l2
  | _, _ => False
  end.

(** What [prepare] hands over in the two runs: the same attributes, frame and
    prediction meta, over buffers related by the shift. *)
Definition prepared_rel (h ext : list (obj F)) (p1 p2 : @prepared F) : Prop :=
  attrs p1 = attrs p2
  /\ frame p1 = frame p2
  /\ prediction_df p1 = prediction_df p2
  /\ fresh_dict h ext (bufs p1) (bufs p2).

(** The contents of the working frame for a caller's frame [d]. *)
Definition transformed (self : DLT F) (d : dataframe F) : dataframe F :=
  let d := if auto_scale self then map_values scale_values d else d in
  if is_multiplicative self then map_values log_values d else d.

(** Every reference the model and the caller hold points into the store. *)
Definition well_referenced (self : DLT F) (df : option loc) (w : world F) : Prop :=
  Forall (fun x => (x.2 < length (heap w))%nat) (_posterior_state self)
  /\ forall l, df = Some l -> (l < length (heap w))%nat.
End Judgements.

(** Five training dates and a window over the first two of them. *)
Definition tm5 : training_meta :=
  {| training_start := 0; training_end := 4; tm_df_length := 5;
     tm_date_array := [0; 1; 2; 3; 4] |}.

Definition pm2 : prediction_meta :=
  {| pm_date_array := [0; 1]; pm_df_length := 2;
     prediction_start := 0; prediction_end := 1 |}.

Definition hz52 : horizon :=
  {| n_forecast_steps := -3; start := LInt 0; full_len := 2 |}.

(** The sum of two tensors with [n] rows and the same number of columns, as
    [badd] computes it. *)
Definition tensor_add {F} `{Scalar F} (n : nat) (c1 c2 : list (vec F)) : list (vec F) :=
  zip_with (fun u v => zip_with fadd (stretch n u) (stretch n v)) c1 c2.

(** The example model with both transformations switched on, and a store
    with a caller's frame that has regressor values. *)
Definition dlt_transforming : DLT Z :=
  {| damped_factor_fixed := 2;
     seasonality := 3;
     use_log_global_trend := false;
     is_multiplicative := true;
     auto_scale := true;
     regressor_col := None;
     regular_regressor_col := [];
     training_df_meta := Example.tm10;
     _posterior_state := Example.posterior |}.

Definition future2_x : dataframe Z :=
  {| df_dates := [10; 11]; df_regressors := [[8; 16]; [32; 64]] |}.

Definition w_transforming : world Z :=
  {| heap := Example.store ++ [OFrame future2_x]; rng := 0%nat |}.

(** The example store with a level smoothing factor of shape [(2, 1)], and
    frames of one and of two dates after the training end. *)
Definition w_rank_two : world Z :=
  {| heap := <[4%nat := ONd (A2 2 [[2; 3]])]> Example.store
             ++ [OFrame {| df_dates := [10]; df_regressors := [[]] |};
                 OFrame {| df_dates := [10; 11]; df_regressors := [[]; []] |}];
     rng := 0%nat |}.

(** The example store with a frame of the second and the third training
    date. *)
Definition w_late2 : world Z :=
  {| heap := Example.store
             ++ [OFrame {| df_dates := [1; 2]; df_regressors := [[]; []] |}];
     rng := 0%nat |}.

(** A posterior of one draw with the coefficient of one regressor, and a frame
    of the first two training dates with the values of that regressor. *)
Definition hist1 (k : Z) (len : nat) : ndarray Z :=
  A2 1 ((fun i => [k + Z.of_nat i]) <$> seq 0 len).

Definition w_one_draw : world Z :=
  {| heap :=
       [ ONd (hist1 100 10);     (* 0: local trend *)
         ONd (hist1 200 10);     (* 1: global trend *)
         ONd (hist1 10 10);      (* 2: local trend levels *)
         ONd (hist1 1 10);       (* 3: local trend slopes *)
         ONd (A1 [2]);           (* 4: level smoothing *)
         ONd (A1 [5]);           (* 5: slope smoothing *)
         ONd (A1 [1000]);        (* 6: global trend level *)
         ONd (A1 [11]);          (* 7: global trend slope *)
         ONd (A1 [4]);           (* 8: residual degrees of freedom *)
         ONd (A1 [1]);           (* 9: residual sigma *)
         ONd (hist1 50 13);      (* 10: seasonality levels *)
         ONd (A1 [2]);           (* 11: seasonality smoothing *)
         ONd (A2 1 [[2]]);       (* 12: the coefficient *)
         OFrame {| df_dates := [0; 1]; df_regressors := [[3]; [5]] |} ];
     rng := 0%nat |}.

(** The regressor declared with a positive sign, and declared regular. *)
Definition dlt_positive1 : DLT Z :=
  {| damped_factor_fixed := 2;
     seasonality := 3;
     use_log_global_trend := false;
     is_multiplicative := false;
     auto_scale := false;
     regressor_col := Some ["x"%string];
     regular_regressor_col := [];
     training_df_meta := Example.tm10;
     _posterior_state := Example.posterior ++ [(POSITIVE_REGRESSOR_BETA, 12%nat)] |}.

Definition dlt_regular1 : DLT Z :=
  {| damped_factor_fixed := 2;
     seasonality := 3;
     use_log_global_trend := false;
     is_multiplicative := false;
     auto_scale := false;
     regressor_col := Some ["x"%string];
     regular_regressor_col := ["x"%string];
     training_df_meta := Example.tm10;
     _posterior_state := Example.posterior ++ [(REGULAR_REGRESSOR_BETA, 12%nat)] |}.

(** The example model without a posterior. *)
Definition dlt_unfitted : DLT Z :=
  {| damped_factor_fixed := 2;
     seasonality := 3;
     use_log_global_trend := false;
     is_multiplicative := false;
     auto_scale := false;
     regressor_col := None;
     regular_regressor_col := [];
     training_df_meta := Example.tm10;
     _posterior_state := [] |}.

(** ** The arrays behind a posterior *)

Section Posterior.
Context {F : Type}.

(** The arrays the entries of a posterior refer to in a store, when every
    entry refers to an array. *)
Fixpoint posterior_arrays (hp : list (obj F)) (d : list (param * loc))
  : option (list (param * ndarray F)) :=
  match d with
  | [] => Some []
  | (k, l) :: rest =>
      match hp !! l, posterior_arrays hp rest with
      | Some (ONd a), Some m => Some ((k, a) :: m)
      | _, _ => None
      end
  end.

(** A posterior that covers [trained_len] training dates: the local and the
    global trend have one column for each date and one row for each draw,
    and the levels and the slopes end in [level] and [slope]. *)
Definition covers (at_ : @attributes F) (trained_len : nat)
    (lt gt : list (vec F)) (level slope : vec F) : Prop :=
  local_trend at_ = Some (A2 (num_sample at_) lt)
  /\ length lt = trained_len
  /\ global_trend at_ = Some (A2 (num_sample at_) gt)
  /\ length gt = trained_len
  /\ (exists n levels,
        local_trend_levels at_ = Some (A2 n levels) /\ last levels = Some level)
  /\ (exists n slopes,
        local_trend_slopes at_ = Some (A2 n slopes) /\ last slopes = Some slope).

(** The keys of [model] with the references [n], [n + 1], ... *)
Fixpoint number {V} (n : nat) (model : list (param * V)) : list (param * loc) :=
  match model with
  | [] => []
  | (k, _) :: rest => (k, n) :: number (S n) rest
  end.
End Posterior.

(** The example model with one more posterior entry: coefficients of two
    regressors of positive sign, and no other coefficients. *)
Definition dlt_positive : DLT Z :=
  {| damped_factor_fixed := 2;
     seasonality := 3;
     use_log_global_trend := false;
     is_multiplicative := false;
     auto_scale := false;
     regressor_col := Some ["x1"%string; "x2"%string];
     regular_regressor_col := [];
     training_df_meta := Example.tm10;
     _posterior_state := Example.posterior ++ [(POSITIVE_REGRESSOR_BETA, 17%nat)] |}.

Definition w_positive : world Z :=
  {| heap := Example.store ++ [ONd (A2 2 [[1; 2]; [3; 4]])]; rng := 0%nat |}.

(** The same store with a frame of two future dates and the values of the
    two regressors. *)
Definition w_positive_x : world Z :=
  {| heap := Example.store ++ [ONd (A2 2 [[1; 2]; [3; 4]]); OFrame future2_x];
     rng := 0%nat |}.

Definition model_positive : list (param * ndarray Z) :=
  default [] (posterior_arrays (heap w_positive) (_posterior_state dlt_positive)).

(** What the routine has prepared on the example for the frame of the first
    three training dates, and for the frame of four future dates. *)
Definition prepared_head3 : @prepared Z :=
  {| bufs := [];
     attrs := Example.attrs3;
     frame := Example.head3;
     prediction_df := {| pm_date_array := [0; 1; 2]; pm_df_length := 3;
                         prediction_start := 0; prediction_end := 2 |} |}.

Definition prepared_inside3 : @prepared Z :=
  {| bufs := [];
     attrs := Example.attrs3;
     frame := Example.inside3;
     prediction_df := {| pm_date_array := [3; 4; 5]; pm_df_length := 3;
                         prediction_start := 3; prediction_end := 5 |} |}.

(** The example model with the fixed damped factor switched off, and the
    attributes it reads from the example posterior, which has no damped
    factor. *)
Definition dlt_undamped : DLT Z :=
  {| damped_factor_fixed := 0;
     seasonality := 3;
     use_log_global_trend := false;
     is_multiplicative := false;
     auto_scale := false;
     regressor_col := None;
     regular_regressor_col := [];
     training_df_meta := Example.tm10;
     _posterior_state := Example.posterior |}.

Definition attrs_undamped : @attributes Z :=
  {| num_sample := 2;
     seasonality_levels := Some (Example.hist 50 13);
     seasonality_smoothing_factor := Some (A1 [2; 2]);
     slope_smoothing_factor := Some (A1 [5; 7]);
     level_smoothing_factor := Some (A1 [2; 3]);
     local_trend_levels := Some (Example.hist 10 10);
     local_trend_slopes := Some (Example.hist 1 10);
     local_trend := Some (Example.hist 100 10);
     residual_degree_of_freedom := Some (A1 [4; 4]);
     residual_sigma := Some (A1 [1; 1]);
     damped_factor := None;
     global_trend_level := Some (A1 [1000; 2000]);
     global_trend_slope := Some (A1 [11; 13]);
     global_trend := Some (Example.hist 200 10);
     regressor_beta := None |}.


Definition prepared_future4 : @prepared Z :=
  {| bufs := [];
     attrs := Example.attrs3;
     frame := Example.future4;
     prediction_df := {| pm_date_array := [10; 11; 12; 13]; pm_df_length := 4;
                         prediction_start := 10; prediction_end := 13 |} |}.

Definition model3 : list (param * ndarray Z) :=
  default [] (posterior_arrays (heap Example.w0) (_posterior_state (Example.dlt 3))).

(** * Properties *)

(** ** The horizon *)

Lemma py_or_cases (a b : Z) :
  (a = 0 /\ py_or a b = b) \/ (a <> 0 /\ py_or a b = a).
Proof. unfold py_or. destruct (Z.eqb_spec a 0); auto. Qed.

Lemma resolve_full_len (tm : training_meta) (pm : prediction_meta) (hz : horizon) :
  resolve_horizon tm pm = Returns hz ->
  full_len hz = Z.of_nat (tm_df_length tm) + n_forecast_steps hz.
Proof.
  unfold resolve_horizon. destruct (training_end tm <? prediction_start pm).
  - intros [= <-]. reflexivity.
  - destruct (get_loc _ _); simpl; [intros [= <-]; reflexivity | discriminate].
Qed.

(** A negative horizon is the number of training dates outside the
    prediction window, and the window then lies within the training dates. *)
Lemma resolve_negative (tm : training_meta) (pm : prediction_meta) (hz : horizon) :
  resolve_horizon tm pm = Returns hz ->
  n_forecast_steps hz < 0 ->
  n_forecast_steps hz
    = - Z.of_nat (size (date_set (tm_date_array tm) ∖ date_set (pm_date_array pm)))
  /\ date_set (pm_date_array pm) ⊆ date_set (tm_date_array tm).
Proof.
  unfold resolve_horizon. destruct (training_end tm <? prediction_start pm).
  - intros [= <-]. simpl. lia.
  - destruct (get_loc _ _); simpl; [intros [= <-] | discriminate]. simpl.
    match goal with |- context [py_or ?a ?b] => destruct (py_or_cases a b) as [[Ha ->]|[Ha ->]] end.
    + intros _. split; [reflexivity|].
      apply empty_difference_subseteq, size_empty_iff. lia.
    + lia.
Qed.

(** Within the training dates, the combined length is the number of
    prediction dates. *)
Lemma inside_full_len (tm : training_meta) (pm : prediction_meta) (hz : horizon) :
  resolve_horizon tm pm = Returns hz ->
  n_forecast_steps hz < 0 ->
  NoDup (tm_date_array tm) ->
  length (tm_date_array tm) = tm_df_length tm ->
  NoDup (pm_date_array pm) ->
  full_len hz = Z.of_nat (length (pm_date_array pm)).
Proof.
  intros Hr Hn Ht Hl Hp.
  rewrite (resolve_full_len _ _ _ Hr).
  destruct (resolve_negative _ _ _ Hr Hn) as [-> Hsub].
  rewrite size_difference by exact Hsub.
  unfold date_set. rewrite !size_list_to_set by assumption.
  pose proof (subseteq_size _ _ Hsub) as Hle.
  unfold date_set in Hle. rewrite !size_list_to_set in Hle by assumption.
  unfold date in *. lia.
Qed.

(** C2, as the code has it.  The combined length is the training length plus
    the forecast horizon.  For a horizon that is not negative this is
    [training_length + max(forecast_horizon, 0)]; a negative horizon shortens
    the combined length by the number of training dates outside the
    prediction window, so that it is smaller than the training length. *)
Theorem combined_length_resolved (tm : training_meta) (pm : prediction_meta) (hz : horizon) :
  resolve_horizon tm pm = Returns hz ->
  full_len hz = Z.of_nat (tm_df_length tm) + n_forecast_steps hz
  /\ (0 <= n_forecast_steps hz ->
      full_len hz = Z.of_nat (tm_df_length tm) + Z.max (n_forecast_steps hz) 0)
  /\ (n_forecast_steps hz < 0 ->
      full_len hz
        = Z.of_nat (tm_df_length tm)
          - Z.of_nat (size (date_set (tm_date_array tm) ∖ date_set (pm_date_array pm)))
      /\ full_len hz < Z.of_nat (tm_df_length tm)).
Proof.
  intros Hr. pose proof (resolve_full_len _ _ _ Hr) as Hf.
  split; [exact Hf|]. split.
  - intros Hn. rewrite Hf. lia.
  - intros Hn. destruct (resolve_negative _ _ _ Hr Hn) as [Hs _]. lia.
Qed.

Lemma combined_length_resolved_witness :
  resolve_horizon tm5 pm2 = Returns hz52
  /\ full_len hz52 = Z.of_nat (tm_df_length tm5) + n_forecast_steps hz52
  /\ (0 <= n_forecast_steps hz52 ->
      full_len hz52 = Z.of_nat (tm_df_length tm5) + Z.max (n_forecast_steps hz52) 0)
  /\ (n_forecast_steps hz52 < 0 ->
      full_len hz52
        = Z.of_nat (tm_df_length tm5)
          - Z.of_nat (size (date_set (tm_date_array tm5) ∖ date_set (pm_date_array pm2)))
      /\ full_len hz52 < Z.of_nat (tm_df_length tm5)).
Proof.
  split; [vm_compute; reflexivity|].
  apply (combined_length_resolved tm5 pm2 hz52).
  vm_compute; reflexivity.
Defined.

(** C2, as stated, fails: for the first two of five training dates the call
    is valid, the horizon is [-3], and the combined length is [2], not the
    training length [5]. *)
Lemma combined_length_not_max :
  validate tm5 pm2 = Returns tt
  /\ exists hz, resolve_horizon tm5 pm2 = Returns hz
     /\ n_forecast_steps hz < 0
     /\ full_len hz <> Z.of_nat (tm_df_length tm5) + Z.max (n_forecast_steps hz) 0.
Proof.
  split; [reflexivity|].
  exists hz52.
  split; [vm_compute; reflexivity|]. simpl. split; lia.
Qed.

Lemma positions_spec (key : date) (a : list date) (s i : nat) :
  i ∈ positions key s a <-> (s <= i)%nat /\ a !! (i - s)%nat = Some key.
Proof.
  revert s. induction a as [|x rest IH]; intros s; simpl.
  - rewrite elem_of_nil. split; [tauto | intros [_ Hl]; discriminate].
  - destruct (decide (x = key)) as [->|Hne].
    + rewrite elem_of_cons, IH. split.
      * intros [->|[Hle Hl]].
        -- split; [lia|]. replace (s - s)%nat with 0%nat by lia. reflexivity.
        -- split; [lia|]. replace (i - s)%nat with (S (i - S s)) by lia. exact Hl.
      * intros [Hle Hl]. destruct (decide (i = s)) as [->|Hn]; [left; reflexivity|].
        right. split; [lia|].
        replace (i - s)%nat with (S (i - S s)) in Hl by lia. exact Hl.
    + rewrite IH. split.
      * intros [Hle Hl]. split; [lia|].
        replace (i - s)%nat with (S (i - S s)) by lia. exact Hl.
      * intros [Hle Hl]. destruct (decide (i = s)) as [->|Hn].
        -- replace (s - s)%nat with 0%nat in Hl by lia. simpl in Hl. congruence.
        -- split; [lia|]. replace (i - s)%nat with (S (i - S s)) in Hl by lia. exact Hl.
Qed.

(** An integer position that [get_loc] returns is a position of the key, and
    the only one. *)
Lemma get_loc_position (a : list date) (key : date) (i : Z) :
  get_loc a key = Returns (LInt i) ->
  0 <= i
  /\ a !! Z.to_nat i = Some key
  /\ forall j, a !! j = Some key -> j = Z.to_nat i.
Proof.
  unfold get_loc. destruct (positions key 0 a) as [|p [|q rest]] eqn:Hp; try discriminate.
  intros [= <-]. rewrite Nat2Z.id. split; [lia|].
  assert (Hin : forall j, j ∈ positions key 0 a <-> a !! j = Some key).
  { intros j. rewrite positions_spec. replace (j - 0)%nat with j by lia.
    split; [tauto | intros Hj; split; [lia | exact Hj]]. }
  rewrite Hp in Hin. split.
  - apply Hin, list_elem_of_singleton. reflexivity.
  - intros j Hj. apply Hin, list_elem_of_singleton in Hj. exact Hj.
Qed.

(** A key of the training index is found. *)
Lemma get_loc_found (a : list date) (key : date) :
  key ∈ a -> exists st, get_loc a key = Returns st.
Proof.
  intros Hin. apply list_elem_of_lookup in Hin as [j Hj].
  assert (Hp : j ∈ positions key 0 a).
  { apply positions_spec. split; [lia|]. replace (j - 0)%nat with j by lia. exact Hj. }
  unfold get_loc. destruct (positions key 0 a) as [|p [|q rest]]; eauto.
  apply elem_of_nil in Hp. contradiction.
Qed.

Lemma positions_absent (key : date) (s : nat) (a : list date) :
  key ∉ a -> positions key s a = [].
Proof.
  revert s. induction a as [|x rest IH]; intros s Hn; simpl; [reflexivity|].
  apply not_elem_of_cons in Hn as [Hne Hn].
  destruct (decide (x = key)) as [->|_]; [contradiction|]. apply IH, Hn.
Qed.



Lemma positions_NoDup (key : date) (s : nat) (a : list date) :
  NoDup (positions key s a).
Proof.
  revert s. induction a as [|x rest IH]; intros s; simpl; [constructor|].
  destruct (decide (x = key)); [|apply IH].
  apply NoDup_cons. split; [|apply IH].
  intros Hin. apply positions_spec in Hin as [Hle _]. lia.
Qed.

(** A key that occurs at one position only is found there. *)
Lemma get_loc_once (a : list date) (key : date) (i : nat) :
  a !! i = Some key ->
  (forall j, a !! j = Some key -> j = i) ->
  get_loc a key = Returns (LInt (Z.of_nat i)).
Proof.
  intros Hi Hone.
  assert (Hin : forall j, j ∈ positions key 0 a <-> j = i).
  { intros j. rewrite positions_spec. replace (j - 0)%nat with j by lia. split.
    - intros [_ Hj]. apply Hone, Hj.
    - intros ->. split; [lia | exact Hi]. }
  pose proof (positions_NoDup key 0 a) as Hnd.
  unfold get_loc. destruct (positions key 0 a) as [|p [|q rest]].
  - exfalso. eapply elem_of_nil, Hin. reflexivity.
  - assert (p = i) as -> by (apply Hin; left). reflexivity.
  - exfalso. assert (p = i) as -> by (apply Hin; left).
    assert (q = i) as -> by (apply Hin; right; left).
    apply NoDup_cons in Hnd as [Hn _]. apply Hn. left.
Qed.

(** A key that does not occur is not found. *)
Lemma get_loc_absent (a : list date) (key : date) :
  key ∉ a -> get_loc a key = Raises KeyError.
Proof. intros Hn. unfold get_loc. rewrite positions_absent by exact Hn. reflexivity. Qed.

(** Counting the dates of one list that are not in another. *)
Lemma size_new_dates (a b : list date) :
  NoDup a ->
  size (date_set a ∖ date_set b) = length (filter (fun d => d ∉ b) a).
Proof.
  intros Hnd.
  assert (He : date_set a ∖ date_set b = date_set (filter (fun d => d ∉ b) a)).
  { unfold date_set. apply set_eq. intros x.
    rewrite elem_of_difference, !elem_of_list_to_set, list_elem_of_filter. tauto. }
  rewrite He. unfold date_set. apply size_list_to_set, NoDup_filter, Hnd.
Qed.

(** C5.  A window that starts after the training end has as horizon the
    number of distinct prediction dates and starts at the training length.
    Otherwise the horizon is the number of prediction dates outside the
    training dates or, when there is none, minus the number of training dates
    outside the prediction dates, and the start is the position of the
    prediction start in the training index: the integer position when the
    prediction start occurs there once, and a [KeyError] when it does not
    occur.  For dates that do not repeat the numbers are counts over the
    lists of dates. *)
Theorem horizon_cases (tm : training_meta) (pm : prediction_meta) :
  (training_end tm < prediction_start pm ->
   resolve_horizon tm pm
   = Returns {| n_forecast_steps := Z.of_nat (size (date_set (pm_date_array pm)));
                start := LInt (Z.of_nat (tm_df_length tm));
                full_len := Z.of_nat (tm_df_length tm)
                            + Z.of_nat (size (date_set (pm_date_array pm))) |})
  /\ (prediction_start pm <= training_end tm ->
      forall hz, resolve_horizon tm pm = Returns hz ->
      let new := size (date_set (pm_date_array pm) ∖ date_set (tm_date_array tm)) in
      let missing := size (date_set (tm_date_array tm) ∖ date_set (pm_date_array pm)) in
      n_forecast_steps hz
        = (if decide (new = 0%nat) then - Z.of_nat missing else Z.of_nat new)
      /\ get_loc (tm_date_array tm) (prediction_start pm) = Returns (start hz)
      /\ forall i, start hz = LInt i ->
           0 <= i
           /\ tm_date_array tm !! Z.to_nat i = Some (prediction_start pm)
           /\ forall j, tm_date_array tm !! j = Some (prediction_start pm) ->
                        j = Z.to_nat i)
  /\ (prediction_start pm <= training_end tm ->
      prediction_start pm ∈ tm_date_array tm ->
      exists hz, resolve_horizon tm pm = Returns hz)
  /\ (prediction_start pm <= training_end tm ->
      forall i, tm_date_array tm !! i = Some (prediction_start pm) ->
      (forall j, tm_date_array tm !! j = Some (prediction_start pm) -> j = i) ->
      let new := size (date_set (pm_date_array pm) ∖ date_set (tm_date_array tm)) in
      let missing := size (date_set (tm_date_array tm) ∖ date_set (pm_date_array pm)) in
      let n := if decide (new = 0%nat) then - Z.of_nat missing else Z.of_nat new in
      resolve_horizon tm pm
      = Returns {| n_forecast_steps := n;
                   start := LInt (Z.of_nat i);
                   full_len := Z.of_nat (tm_df_length tm) + n |})
  /\ (prediction_start pm <= training_end tm ->
      prediction_start pm ∉ tm_date_array tm ->
      resolve_horizon tm pm = Raises KeyError)
  /\ (NoDup (pm_date_array pm) ->
      size (date_set (pm_date_array pm)) = length (pm_date_array pm)
      /\ size (date_set (pm_date_array pm) ∖ date_set (tm_date_array tm))
         = length (filter (fun d => d ∉ tm_date_array tm) (pm_date_array pm)))
  /\ (NoDup (tm_date_array tm) ->
      size (date_set (tm_date_array tm) ∖ date_set (pm_date_array pm))
      = length (filter (fun d => d ∉ pm_date_array pm) (tm_date_array tm))).
Proof.
  split; [|split; [|split; [|split; [|split; [|split]]]]].
  - unfold resolve_horizon. intros Hlt. apply Z.ltb_lt in Hlt. rewrite Hlt. reflexivity.
  - unfold resolve_horizon. intros Hle hz. apply Z.ltb_ge in Hle. rewrite Hle.
    destruct (get_loc _ _) as [st|e] eqn:Hg; simpl; [|discriminate].
    intros [= <-]. simpl. split; [|split].
    + unfold py_or. destruct (decide _) as [->|Hn]; simpl; [reflexivity|].
      destruct (Z.eqb_spec (Z.of_nat (size (date_set (pm_date_array pm)
                                            ∖ date_set (tm_date_array tm)))) 0);
        [lia | reflexivity].
    + reflexivity.
    + intros i ->. apply get_loc_position. exact Hg.
  - unfold resolve_horizon. intros Hle Hin. apply Z.ltb_ge in Hle. rewrite Hle.
    destruct (get_loc_found _ _ Hin) as [st ->]. simpl. eauto.
  - unfold resolve_horizon. intros Hle i Hi Hone. apply Z.ltb_ge in Hle. rewrite Hle.
    rewrite (get_loc_once _ _ i Hi Hone). cbv zeta. cbn [obind].
    unfold py_or. destruct (decide _) as [->|Hn]; simpl; [reflexivity|].
    destruct (Z.eqb_spec (Z.of_nat (size (date_set (pm_date_array pm)
                                          ∖ date_set (tm_date_array tm)))) 0);
      [lia | reflexivity].
  - unfold resolve_horizon. intros Hle Hn. apply Z.ltb_ge in Hle. rewrite Hle.
    rewrite (get_loc_absent _ _ Hn). reflexivity.
  - intros Hnd. split; [unfold date_set; apply size_list_to_set, Hnd|].
    apply size_new_dates, Hnd.
  - intros Hnd. apply size_new_dates, Hnd.
Qed.

(** On the example dates: the third training date is found at position two;
    among the training dates 0, 2 and 4 the date 3 is not found. *)
Example horizon_position :
  resolve_horizon tm5 {| pm_date_array := [2; 3]; pm_df_length := 2;
                         prediction_start := 2; prediction_end := 3 |}
  = Returns {| n_forecast_steps := -3; start := LInt 2; full_len := 2 |}
  /\ resolve_horizon {| training_start := 0; training_end := 4; tm_df_length := 3;
                        tm_date_array := [0; 2; 4] |}
                     {| pm_date_array := [3; 4]; pm_df_length := 2;
                        prediction_start := 3; prediction_end := 4 |}
     = Raises KeyError.
Proof. split; vm_compute; reflexivity. Qed.

Example horizon_future :
  resolve_horizon tm5 {| pm_date_array := [5; 6; 7]; pm_df_length := 3;
                         prediction_start := 5; prediction_end := 7 |}
  = Returns {| n_forecast_steps := 3; start := LInt 5; full_len := 8 |}.
Proof. vm_compute. reflexivity. Qed.

Example horizon_overlap :
  resolve_horizon tm5 {| pm_date_array := [3; 4; 5; 6]; pm_df_length := 4;
                         prediction_start := 3; prediction_end := 6 |}
  = Returns {| n_forecast_steps := 2; start := LInt 3; full_len := 7 |}.
Proof. vm_compute. reflexivity. Qed.

Example horizon_inside :
  resolve_horizon tm5 pm2 = Returns hz52.
Proof. vm_compute. reflexivity. Qed.

(** ** Computations and the store *)

Section Simulation.
Context {F : Type} `{Scalar F} `{Collaborators F}.
Variables h ext : list (obj F).

Lemma orel_eq_refl {A} (o : outcome A) : orel eq o o.
Proof. destruct o; simpl; reflexivity. Qed.

Lemma sim_ret noise {A} (R : A -> A -> Prop) (a b : A) :
  R a b -> sim h ext noise R (ret a) (ret b).
Proof. intros HR t g. exists t. simpl. auto. Qed.

Lemma sim_raise noise {A} (R : A -> A -> Prop) (e : exn) :
  sim h ext noise R (raise e) (raise e).
Proof. intros t g. exists t. simpl. auto. Qed.

Lemma sim_lift noise {A} (R : A -> A -> Prop) (o1 o2 : outcome A) :
  orel R o1 o2 -> sim h ext noise R (lift o1) (lift o2).
Proof. intros HR t g. exists t. simpl. auto. Qed.

Lemma sim_lift_eq noise {A} (o : outcome A) :
  sim h ext noise eq (lift o) (lift o).
Proof. apply sim_lift, orel_eq_refl. Qed.

Lemma sim_bind noise {A B} (R : A -> A -> Prop) (S : B -> B -> Prop)
    (m1 m2 : M A) (f1 f2 : A -> M B) :
  sim h ext noise R m1 m2 ->
  (forall a b, R a b -> sim h ext noise S (f1 a) (f2 b)) ->
  sim h ext noise S (bind m1 f1) (bind m2 f2).
Proof.
  intros Hm Hf t g. specialize (Hm t g). simpl in Hm.
  destruct Hm as (t' & E1 & E2 & Er & Hn & Ho).
  unfold bind.
  destruct (m1 _) as [o1 [h1 g1]], (m2 _) as [o2 [h2 g2]]. simpl in *. subst.
  destruct o1 as [a|e1], o2 as [b|e2]; simpl in Ho; try contradiction.
  - destruct (Hf a b Ho t' g2) as (t'' & E1 & E2 & Er & Hn' & Ho'). simpl in *.
    exists t''. repeat split; auto. intros Hf'. rewrite (Hn' Hf'). auto.
  - exists t'. simpl. repeat split; auto.
Qed.

Lemma sim_weaken noise {A} (R S : A -> A -> Prop) (m1 m2 : M A) :
  sim h ext noise R m1 m2 ->
  (forall a b, R a b -> S a b) ->
  sim h ext noise S m1 m2.
Proof.
  intros Hm HRS t g. destruct (Hm t g) as (t' & E1 & E2 & Er & Hn & Ho).
  exists t'. repeat split; auto.
  destruct (m1 _).1, (m2 _).1; simpl in *; auto.
Qed.

Lemma sim_noise {A} (R : A -> A -> Prop) (m1 m2 : M A) :
  sim h ext false R m1 m2 -> sim h ext true R m1 m2.
Proof.
  intros Hm t g. destruct (Hm t g) as (t' & E1 & E2 & Er & Hn & Ho).
  exists t'. repeat split; auto; discriminate.
Qed.

Lemma lookup_shift (t : list (obj F)) (l : loc) :
  (h ++ ext ++ t) !! shift (length h) (length ext) l = (h ++ t) !! l.
Proof.
  unfold shift. destruct (decide (l < length h)%nat).
  - rewrite !lookup_app_l by assumption. reflexivity.
  - rewrite !lookup_app_r by lia. f_equal. lia.
Qed.

Lemma shift_old (l : loc) : (l < length h)%nat -> shift (length h) (length ext) l = l.
Proof. intros Hl. unfold shift. destruct (decide _); [reflexivity | lia]. Qed.

Lemma shift_fresh (l1 l2 : loc) :
  fresh_pair h ext l1 l2 -> l2 = shift (length h) (length ext) l1.
Proof. intros [Hl ->]. unfold shift. destruct (decide _); [lia | reflexivity]. Qed.

Lemma sim_alloc noise (o : obj F) :
  sim h ext noise (fresh_pair h ext) (alloc o) (alloc o).
Proof.
  intros t g. exists (t ++ [o]). simpl. rewrite <- !app_assoc.
  repeat split; auto.
  - rewrite length_app. lia.
  - rewrite !length_app. lia.
Qed.

Lemma sim_load noise (l : loc) :
  sim h ext noise eq (load l) (load (shift (length h) (length ext) l)).
Proof.
  intros t g. exists t. unfold load. simpl. rewrite lookup_shift.
  repeat split; auto. apply orel_eq_refl.
Qed.

Lemma sim_from_numpy noise (l : loc) :
  sim h ext noise eq (from_numpy l) (from_numpy (shift (length h) (length ext) l)).
Proof.
  unfold from_numpy. eapply sim_bind; [apply sim_load|].
  intros a b <-. destruct a; [apply sim_ret | apply sim_raise]; reflexivity.
Qed.

Lemma sim_load_frame noise (l : loc) :
  sim h ext noise eq (load_frame l) (load_frame (shift (length h) (length ext) l)).
Proof.
  unfold load_frame. eapply sim_bind; [apply sim_load|].
  intros a b <-. destruct a; [apply sim_raise | apply sim_ret]; reflexivity.
Qed.

Lemma insert_fresh (t : list (obj F)) (l1 l2 : loc) (o : obj F) :
  fresh_pair h ext l1 l2 ->
  <[l1 := o]> (h ++ t) = h ++ <[(l1 - length h)%nat := o]> t
  /\ <[l2 := o]> (h ++ ext ++ t) = h ++ ext ++ <[(l1 - length h)%nat := o]> t.
Proof.
  intros [Hl ->]. split.
  - rewrite insert_app_r_alt by lia. reflexivity.
  - rewrite insert_app_r_alt by lia. rewrite insert_app_r_alt by lia.
    do 3 f_equal. lia.
Qed.

Lemma sim_store_col noise (l1 l2 : loc) (idx : nat) (v : vec F) :
  fresh_pair h ext l1 l2 ->
  sim h ext noise eq (store_col l1 idx v) (store_col l2 idx v).
Proof.
  intros Hf t g. unfold store_col. simpl.
  rewrite (shift_fresh _ _ Hf), lookup_shift.
  destruct ((h ++ t) !! l1) as [[[v'|n cols]|d]|]; try solve [exists t; simpl; repeat split; auto].
  rewrite <- (shift_fresh _ _ Hf).
  destruct (insert_fresh t l1 l2 (ONd (A2 n (<[idx := v]> cols))) Hf) as [-> ->].
  eexists. simpl. repeat split; reflexivity.
Qed.

Lemma sim_update_frame noise (l1 l2 : loc) (f : dataframe F -> dataframe F) :
  fresh_pair h ext l1 l2 ->
  sim h ext noise eq (update_frame l1 f) (update_frame l2 f).
Proof.
  intros Hf t g. unfold update_frame. simpl.
  rewrite (shift_fresh _ _ Hf), lookup_shift.
  destruct ((h ++ t) !! l1) as [[a|d]|]; try solve [exists t; simpl; repeat split; auto].
  rewrite <- (shift_fresh _ _ Hf).
  destruct (insert_fresh t l1 l2 (OFrame (f d)) Hf) as [-> ->].
  eexists. simpl. repeat split; reflexivity.
Qed.

Lemma sim_sample (dof sigma : vec F) (n : nat) :
  sim h ext true eq (sample dof sigma n) (sample dof sigma n).
Proof.
  intros t g. exists t. unfold sample. simpl.
  destruct (nct_rvs dof sigma n g) as [e g']. simpl.
  repeat split; auto; discriminate.
Qed.

Lemma sim_for_each noise {S} (idxs : list nat) (body1 body2 : nat -> S -> M S) :
  (forall i st, sim h ext noise eq (body1 i st) (body2 i st)) ->
  forall st, sim h ext noise eq (for_each idxs body1 st) (for_each idxs body2 st).
Proof.
  intros Hb. induction idxs as [|i rest IH]; intros st; simpl.
  - apply sim_ret. reflexivity.
  - eapply sim_bind; [apply Hb|]. intros a b <-. apply IH.
Qed.

Lemma sim_load_old noise (l : loc) :
  (l < length h)%nat -> sim h ext noise eq (load l) (load l).
Proof. intros Hl. rewrite <- (shift_old l Hl) at 2. apply sim_load. Qed.

Lemma sim_load_frame_old noise (l : loc) :
  (l < length h)%nat -> sim h ext noise eq (load_frame l) (load_frame l).
Proof. intros Hl. rewrite <- (shift_old l Hl) at 2. apply sim_load_frame. Qed.

Lemma sim_deepcopy noise (d : list (param * loc)) :
  Forall (fun x => (x.2 < length h)%nat) d ->
  sim h ext noise (fresh_dict h ext) (deepcopy d) (deepcopy d).
Proof.
  induction 1 as [|[k l] rest Hl Hrest IH]; simpl.
  - apply sim_ret. constructor.
  - eapply sim_bind; [apply sim_load_old; exact Hl|]. intros o ? <-.
    eapply sim_bind; [apply sim_alloc|]. intros l1 l2 Hf.
    eapply sim_bind; [apply IH|]. intros d1 d2 Hd.
    apply sim_ret. constructor; [split; [reflexivity | exact Hf] | exact Hd].
Qed.

Lemma sim_tensors noise (d1 d2 : list (param * loc)) :
  fresh_dict h ext d1 d2 ->
  sim h ext noise eq (tensors d1) (tensors d2).
Proof.
  induction 1 as [|[k1 l1] [k2 l2] r1 r2 [Hk Hf] Hr IH]; simpl in *.
  - apply sim_ret. reflexivity.
  - subst k2. rewrite (shift_fresh _ _ Hf).
    eapply sim_bind; [apply sim_from_numpy|]. intros a ? <-.
    eapply sim_bind; [apply IH|]. intros m ? <-.
    apply sim_ret. reflexivity.
Qed.

Lemma fresh_dict_get (k : param) (d1 d2 : list (param * loc)) :
  fresh_dict h ext d1 d2 ->
  view_rel h ext (dict_get k d1) (dict_get k d2).
Proof.
  induction 1 as [|[k1 l1] [k2 l2] r1 r2 [Hk Hf] Hr IH]; simpl in *.
  - exact I.
  - subst k2. destruct (decide (k1 = k)); [exact Hf | exact IH].
Qed.

Lemma sim_lift_val noise {A} (o : outcome A) :
  sim h ext noise (fun a b => a = b /\ o = Returns a) (lift o) (lift o).
Proof. apply sim_lift. destruct o; simpl; auto. Qed.

Lemma sim_scale_df noise (l1 l2 : loc) :
  fresh_pair h ext l1 l2 ->
  sim h ext noise (fresh_pair h ext) (_scale_df l1) (_scale_df l2).
Proof.
  intros Hf. unfold _scale_df.
  eapply sim_bind; [apply sim_update_frame; exact Hf|]. intros _ _ _.
  apply sim_ret. exact Hf.
Qed.

Lemma sim_log_transform_df noise (l1 l2 : loc) :
  fresh_pair h ext l1 l2 ->
  sim h ext noise (fresh_pair h ext) (_log_transform_df l1) (_log_transform_df l2).
Proof.
  intros Hf. unfold _log_transform_df.
  eapply sim_bind; [apply sim_update_frame; exact Hf|]. intros _ _ _.
  apply sim_ret. exact Hf.
Qed.

Lemma sim_working_frame noise (self : DLT F) (df : option loc) :
  (forall l, df = Some l -> (l < length h)%nat) ->
  sim h ext noise (fresh_pair h ext) (working_frame self df) (working_frame self df).
Proof.
  intros Hdf. unfold working_frame.
  eapply sim_bind; [apply sim_lift_val|]. intros l ? [<- Hl].
  destruct df as [l'|]; simpl in Hl; [injection Hl as ->|discriminate].
  eapply sim_bind; [apply sim_load_frame_old; auto|]. intros d ? <-.
  eapply sim_bind; [apply sim_alloc|]. intros l1 l2 Hf.
  eapply sim_bind.
  { instantiate (1 := fresh_pair h ext).
    destruct (auto_scale self); [apply sim_scale_df | apply sim_ret]; exact Hf. }
  intros l3 l4 Hf'.
  destruct (is_multiplicative self); [apply sim_log_transform_df | apply sim_ret]; exact Hf'.
Qed.

Lemma sim_posterior_attributes noise (self : DLT F) :
  Forall (fun x => (x.2 < length h)%nat) (_posterior_state self) ->
  sim h ext noise (fun x y => fresh_dict h ext x.1 y.1 /\ x.2 = y.2)
      (posterior_attributes self) (posterior_attributes self).
Proof.
  intros Hpost. unfold posterior_attributes.
  eapply sim_bind; [apply sim_deepcopy; exact Hpost|]. intros d1 d2 Hd.
  eapply sim_bind; [apply sim_tensors; exact Hd|]. intros model ? <-.
  eapply sim_bind; [apply sim_lift_eq|]. intros at_ ? <-.
  apply sim_ret. split; [exact Hd | reflexivity].
Qed.

Lemma sim_prediction_frame noise (self : DLT F) (df : option loc) :
  (forall l, df = Some l -> (l < length h)%nat) ->
  sim h ext noise eq (prediction_frame self df) (prediction_frame self df).
Proof.
  intros Hdf. unfold prediction_frame.
  eapply sim_bind; [apply sim_working_frame; exact Hdf|]. intros l1 l2 Hf.
  rewrite (shift_fresh _ _ Hf).
  eapply sim_bind; [apply sim_load_frame|]. intros d ? <-.
  eapply sim_bind; [apply sim_lift_eq|]. intros pm ? <-.
  apply sim_ret. reflexivity.
Qed.

Lemma sim_prepare noise (self : DLT F) (df : option loc) :
  Forall (fun x => (x.2 < length h)%nat) (_posterior_state self) ->
  (forall l, df = Some l -> (l < length h)%nat) ->
  sim h ext noise (prepared_rel h ext) (prepare self df) (prepare self df).
Proof.
  intros Hpost Hdf. unfold prepare.
  eapply sim_bind; [apply sim_posterior_attributes; exact Hpost|].
  intros [d1 a1] [d2 a2] [Hd Ha]. simpl in *. subst a2.
  eapply sim_bind; [apply sim_prediction_frame; exact Hdf|]. intros pf ? <-.
  apply sim_ret. repeat split; auto.
Qed.

Ltac sim_lifts :=
  repeat (eapply sim_bind; [apply sim_lift_eq | intros ? ? <-]).

Lemma sim_loop_body (self : DLT F) (at_ : attributes) (include_error : bool)
    (full_len : Z) (v1 v2 : option loc) (idx : nat) (st : loop_state) :
  view_rel h ext v1 v2 ->
  sim h ext include_error eq
      (loop_body self at_ include_error full_len v1 idx st)
      (loop_body self at_ include_error full_len v2 idx st).
Proof.
  intros Hv. unfold loop_body. sim_lifts.
  eapply sim_bind.
  { instantiate (1 := eq). destruct include_error.
    - sim_lifts. eapply sim_bind; [apply sim_sample|]. intros ? ? <-.
      sim_lifts. apply sim_lift_eq.
    - apply sim_ret. reflexivity. }
  intros ? ? <-. sim_lifts.
  eapply sim_bind.
  { instantiate (1 := eq). destruct (_ && _).
    - sim_lifts. eapply sim_bind.
      + instantiate (1 := eq).
        destruct v1 as [l1|], v2 as [l2|]; simpl in Hv; try contradiction.
        * apply sim_store_col. exact Hv.
        * apply sim_ret. reflexivity.
      + intros ? ? _. apply sim_ret. reflexivity.
    - apply sim_ret. reflexivity. }
  intros ? ? <-. apply sim_ret. reflexivity.
Qed.

Lemma sim_trend_component (self : DLT F) (at_ : attributes) (include_error : bool)
    (trained_len : nat) (full_len : Z) (v1 v2 : option loc) (seas : list (vec F)) :
  view_rel h ext v1 v2 ->
  sim h ext include_error eq
      (trend_component self at_ include_error trained_len full_len v1 seas)
      (trend_component self at_ include_error trained_len full_len v2 seas).
Proof.
  intros Hv. unfold trend_component. destruct (_ <=? _).
  - sim_lifts. apply sim_ret. reflexivity.
  - sim_lifts. eapply sim_bind.
    + apply sim_for_each. intros i st. apply sim_loop_body. exact Hv.
    + intros ? ? <-. apply sim_ret. reflexivity.
Qed.

Lemma sim_predict_from (self : DLT F) (include_error decompose : bool)
    (p1 p2 : prepared) :
  prepared_rel h ext p1 p2 ->
  sim h ext include_error eq
      (predict_from self include_error decompose p1)
      (predict_from self include_error decompose p2).
Proof.
  intros (Ha & Hfr & Hpm & Hb). unfold predict_from. rewrite <- Ha, <- Hfr, <- Hpm.
  sim_lifts. eapply sim_bind.
  - apply sim_trend_component.
    destruct (_.1.1); [apply fresh_dict_get; exact Hb | exact I].
  - intros ? ? <-. apply sim_lift_eq.
Qed.

Lemma sim_predict (self : DLT F) (df : option loc) (include_error decompose : bool) :
  Forall (fun x => (x.2 < length h)%nat) (_posterior_state self) ->
  (forall l, df = Some l -> (l < length h)%nat) ->
  sim h ext include_error eq
      (_predict self df include_error decompose)
      (_predict self df include_error decompose).
Proof.
  intros Hpost Hdf. unfold _predict.
  eapply sim_bind; [apply sim_prepare; eassumption|].
  intros p1 p2 Hp. apply sim_predict_from. exact Hp.
Qed.
End Simulation.

(** ** The copy of the posterior, object by object *)

Section CopyRun.
Context {F : Type} `{Scalar F} `{Collaborators F}.

Lemma deepcopy_run (d : list (param * loc)) (hp extra : list (obj F))
    (model : list (param * ndarray F)) (g : rng_state) :
  posterior_arrays hp d = Some model ->
  deepcopy d {| heap := hp ++ extra; rng := g |}
  = (Returns (number (length (hp ++ extra)) model),
     {| heap := hp ++ extra ++ (ONd <$> model.*2); rng := g |}).
Proof.
  revert extra model. induction d as [|[k l] rest IH]; intros extra model Hm; simpl in *.
  - injection Hm as <-. simpl. rewrite app_nil_r. reflexivity.
  - destruct (hp !! l) as [[a|fr]|] eqn:Hl; try discriminate.
    destruct (posterior_arrays hp rest) as [m|] eqn:Hrest; try discriminate.
    injection Hm as <-.
    unfold bind at 1. unfold load at 1. simpl.
    rewrite (lookup_app_l_Some _ _ _ _ Hl). simpl.
    unfold bind at 1. unfold alloc at 1. simpl.
    unfold bind at 1.
    rewrite <- (app_assoc hp extra [ONd a]).
    rewrite (IH (extra ++ [ONd a]) m eq_refl).
    unfold ret. simpl. f_equal.
    + f_equal. f_equal. f_equal. rewrite !length_app. simpl. lia.
    + f_equal. rewrite <- !app_assoc. reflexivity.
Qed.

Lemma tensors_run (model : list (param * ndarray F)) (pre post : list (obj F))
    (g : rng_state) :
  tensors (number (length pre) model)
          {| heap := pre ++ (ONd <$> model.*2) ++ post; rng := g |}
  = (Returns model, {| heap := pre ++ (ONd <$> model.*2) ++ post; rng := g |}).
Proof.
  revert pre. induction model as [|[k a] rest IH]; intros pre; simpl.
  - reflexivity.
  - unfold bind at 1. unfold from_numpy, bind at 1. unfold load at 1. simpl.
    rewrite list_lookup_middle by reflexivity. simpl.
    unfold bind at 1.
    specialize (IH (pre ++ [ONd a])).
    rewrite length_app in IH. simpl in IH. rewrite Nat.add_1_r in IH.
    rewrite <- app_assoc in IH. simpl in IH. unfold fmap in IH. rewrite IH. reflexivity.
Qed.

Lemma posterior_attributes_run (self : DLT F) (w : world F)
    (model : list (param * ndarray F)) :
  posterior_arrays (heap w) (_posterior_state self) = Some model ->
  let bufs := number (length (heap w)) model in
  let r := posterior_attributes self w in
  r.1 = obind (model_attributes self model) (fun at_ => Returns (bufs, at_))
  /\ heap r.2 = heap w ++ (ONd <$> model.*2)
  /\ rng r.2 = rng w.
Proof.
  intros Hm bufs r.
  assert (Hr : r = (obind (model_attributes self model) (fun at_ => Returns (bufs, at_)),
                    {| heap := heap w ++ (ONd <$> model.*2); rng := rng w |})).
  { subst r bufs. unfold posterior_attributes.
    destruct w as [hp g]. simpl in *.
    unfold bind at 1.
    pose proof (deepcopy_run _ hp [] model g Hm) as Hd.
    rewrite app_nil_r in Hd. simpl in Hd. rewrite Hd.
    unfold bind at 1.
    pose proof (tensors_run model hp [] g) as Ht.
    rewrite app_nil_r in Ht. rewrite Ht.
    unfold bind, lift, ret.
    destruct (model_attributes self model); reflexivity. }
  rewrite Hr. repeat split; reflexivity.
Qed.
End CopyRun.

(** ** Calls of the routine *)

Section Calls.
Context {F : Type} `{Scalar F} `{Collaborators F}.

Lemma world_eta (w : world F) : w = {| heap := heap w; rng := rng w |}.
Proof. destruct w; reflexivity. Qed.

Lemma orel_eq {A} (o1 o2 : outcome A) : orel eq o1 o2 -> o1 = o2.
Proof. destruct o1, o2; simpl; intros; subst; auto; contradiction. Qed.

(** A computation that simulates itself leaves the objects of the store it
    starts from as they are, and puts its own after them. *)
Lemma sim_run {A} (m : M A) (noise : bool) (R : A -> A -> Prop) (w : world F) :
  sim (heap w) [] noise R m m ->
  exists t', heap (m w).2 = heap w ++ t'
             /\ (noise = false -> rng (m w).2 = rng w)
             /\ orel R (m w).1 (m w).1.
Proof.
  intros Hs. destruct (Hs [] (rng w)) as (t' & E1 & _ & _ & Hn & Ho).
  simpl in *. rewrite app_nil_r, <- world_eta in *. eauto.
Qed.

(** Run again on the store it leaves, a computation that simulates itself
    and draws no noise ends as it did. *)
Lemma sim_rerun {A} (m : M A) (w : world F) :
  (forall ext, sim (heap w) ext false eq m m) ->
  (m (m w).2).1 = (m w).1.
Proof.
  intros Hs. destruct (sim_run m false eq w (Hs [])) as (t' & E1 & Hn & _).
  destruct (Hs t' [] (rng w)) as (t'' & _ & _ & _ & _ & Ho). simpl in Ho.
  rewrite !app_nil_r, <- world_eta in Ho.
  rewrite <- E1, <- (Hn eq_refl), <- world_eta in Ho.
  symmetry. apply orel_eq. exact Ho.
Qed.

Lemma transformed_dates (self : DLT F) (d : dataframe F) :
  df_dates (transformed self d) = df_dates d.
Proof.
  unfold transformed. destruct (auto_scale self), (is_multiplicative self); reflexivity.
Qed.

Lemma prediction_frame_run (self : DLT F) (l : loc) (w : world F) (d : dataframe F) :
  heap w !! l = Some (OFrame d) ->
  prediction_frame self (Some l) w
  = (obind (prediction_df_meta (transformed self d))
           (fun pm => Returns (transformed self d, pm)),
     {| heap := heap w ++ [OFrame (transformed self d)]; rng := rng w |}).
Proof.
  intros Hl. unfold prediction_frame, working_frame, transformed,
    _scale_df, _log_transform_df, update_frame, load_frame, load, alloc, bind, lift, ret.
  simpl. rewrite Hl. simpl.
  destruct (auto_scale self), (is_multiplicative self); simpl;
    repeat (rewrite ?list_lookup_middle, ?length_insert, ?length_app by reflexivity; simpl);
    rewrite ?(insert_app_r_alt (heap w)) by lia;
    rewrite ?Nat.sub_diag; simpl.
  all: try (rewrite list_lookup_middle by reflexivity; simpl).
  all: try (rewrite (insert_app_r_alt (heap w)) by lia; rewrite ?Nat.sub_diag; simpl).
  all: try (rewrite list_lookup_middle by reflexivity; simpl).
  all: destruct (prediction_df_meta _); reflexivity.
Qed.

Lemma Forall2_same {A} (R : A -> A -> Prop) (l : list A) :
  Forall2 R l l -> Forall (fun x => R x x) l.
Proof.
  induction l as [|x l IH]; intros Hl; [constructor|].
  inversion Hl; subst. constructor; auto.
Qed.

(** What [prepare] hands over, in terms of the caller's frame. *)
Lemma prepare_frame (self : DLT F) (l : loc) (w w1 : world F)
    (d : dataframe F) (p : prepared) :
  well_referenced self (Some l) w ->
  heap w !! l = Some (OFrame d) ->
  prepare self (Some l) w = (Returns p, w1) ->
  frame p = transformed self d
  /\ prediction_df_meta (transformed self d) = Returns (prediction_df p).
Proof.
  intros [Hpost _] Hl. unfold prepare, bind at 1.
  destruct (sim_run (posterior_attributes self) false _ w
              (sim_posterior_attributes (heap w) [] false self Hpost))
    as (t' & E1 & _ & _).
  destruct (posterior_attributes self w) as [[ma|e] wa]; [|discriminate].
  simpl in E1. unfold bind.
  rewrite (prediction_frame_run self l wa d)
    by (rewrite E1; apply lookup_app_l_Some; exact Hl).
  destruct (prediction_df_meta (transformed self d)) as [pm|e]; simpl; [|discriminate].
  intros [= <- _]. simpl. auto.
Qed.

Lemma number_lookup {V} (n i : nat) (model : list (param * V)) (k : param) (v : V) :
  model !! i = Some (k, v) -> number n model !! i = Some (k, (n + i)%nat).
Proof.
  revert n i. induction model as [|[k' v'] rest IH]; intros n i Hi; [discriminate|].
  destruct i as [|i]; simpl in *.
  - injection Hi as -> _. rewrite Nat.add_0_r. reflexivity.
  - etransitivity; [exact (IH (S n) i Hi)|]. f_equal. f_equal. lia.
Qed.

(** The working frame is put after the copy of the posterior. *)
Lemma working_frame_appends (self : DLT F) (df : option loc) (w w1 : world F) (l' : loc) :
  working_frame self df w = (Returns l', w1) ->
  exists o, heap w1 = heap w ++ [o].
Proof.
  unfold working_frame. destruct df as [l|]; [|discriminate].
  unfold bind at 1. unfold lift at 1. cbn [unwrap].
  unfold bind at 1. unfold load_frame, bind at 1. unfold load at 1.
  destruct (heap w !! l) as [[a|d]|]; try discriminate. cbn [unwrap].
  unfold ret at 1. unfold bind at 1. unfold alloc at 1. cbn [heap rng].
  unfold _scale_df, _log_transform_df, update_frame, bind, ret.
  destruct (auto_scale self), (is_multiplicative self); simpl;
    repeat (rewrite ?list_lookup_middle, ?length_insert, ?length_app by reflexivity; simpl);
    rewrite ?(insert_app_r_alt (heap w)) by lia;
    rewrite ?Nat.sub_diag; simpl.
  all: try (rewrite list_lookup_middle by reflexivity; simpl).
  all: try (rewrite (insert_app_r_alt (heap w)) by lia; rewrite ?Nat.sub_diag; simpl).
  all: intros [= _ <-]; simpl; eexists; reflexivity.
Qed.

(** What [prepare] hands over, in terms of the arrays of the posterior. *)
Lemma prepare_copy (self : DLT F) (df : option loc) (w w1 : world F)
    (model : list (param * ndarray F)) (p : prepared) :
  posterior_arrays (heap w) (_posterior_state self) = Some model ->
  prepare self df w = (Returns p, w1) ->
  bufs p = number (length (heap w)) model
  /\ model_attributes self model = Returns (attrs p)
  /\ forall i k a, model !! i = Some (k, a) ->
       heap w1 !! (length (heap w) + i)%nat = Some (ONd a).
Proof.
  intros Hm. unfold prepare. unfold bind at 1.
  destruct (posterior_attributes_run self w model Hm) as (Ho & Hh & _).
  destruct (posterior_attributes self w) as [[ma|e] wa]; [|discriminate].
  cbn [fst snd] in Ho, Hh.
  destruct (model_attributes self model) as [at_|e]; [|discriminate].
  cbn [obind] in Ho. injection Ho as ->.
  unfold bind at 1. unfold prediction_frame. unfold bind at 1.
  destruct (working_frame self df wa) as [[l'|e] wb] eqn:Hwf; [|discriminate].
  destruct (working_frame_appends self df wa wb l' Hwf) as (o & Hwb).
  unfold bind at 1. unfold load_frame, bind at 1. unfold load at 1.
  destruct (heap wb !! l') as [[a|d]|]; try discriminate. cbn [unwrap].
  unfold ret at 1. unfold bind, lift, ret.
  destruct (prediction_df_meta d) as [pm|e]; [|discriminate].
  intros [= <- <-]. cbn [bufs attrs fst snd].
  split; [reflexivity|]. split; [reflexivity|].
  intros i k a Hi. rewrite Hwb, Hh.
  rewrite lookup_app_l
    by (rewrite length_app, !length_fmap; apply lookup_lt_Some in Hi; lia).
  rewrite lookup_app_r by lia.
  replace (length (heap w) + i - length (heap w))%nat with i by lia.
  rewrite !list_lookup_fmap, Hi. reflexivity.
Qed.

(** C10.  A call leaves the caller's frame as it was, whatever the flags:
    the frame the routine scales, log-transforms and reads is a new object,
    holding the transformed contents of the caller's frame. *)
Theorem caller_frame_unchanged (self : DLT F) (l : loc) (include_error decompose : bool)
    (w : world F) (d : dataframe F) :
  well_referenced self (Some l) w ->
  heap w !! l = Some (OFrame d) ->
  heap (_predict self (Some l) include_error decompose w).2 !! l = Some (OFrame d)
  /\ forall p w1, prepare self (Some l) w = (Returns p, w1) ->
       frame p = transformed self d
       /\ heap w1 !! l = Some (OFrame d).
Proof.
  intros Hw Hl. pose proof Hw as [Hpost Hdf]. split.
  - destruct (sim_run _ include_error eq w
                (sim_predict (heap w) [] self (Some l) include_error decompose Hpost Hdf))
      as (t' & -> & _).
    apply lookup_app_l_Some. exact Hl.
  - intros p w1 Hp. split; [eapply prepare_frame; eauto|].
    destruct (sim_run _ false _ w (sim_prepare (heap w) [] false self (Some l) Hpost Hdf))
      as (t' & E & _).
    rewrite Hp in E. simpl in E. rewrite E. apply lookup_app_l_Some. exact Hl.
Qed.

(** C8.  Without noise, a second call on the store the first one leaves
    returns what the first returned, and the generator is not used.  With or
    without noise, no object that was in the store before a call is changed by
    it, the stored posterior draws among them, and the buffers the call works
    on are new ones: a copy of the posterior, with its keys in their order and
    behind each key a new buffer that holds the array of the posterior, from
    which the attributes of the call are read. *)
Theorem predict_idempotent (self : DLT F) (df : option loc) (decompose : bool)
    (w : world F) :
  well_referenced self df w ->
  let r := _predict self df false decompose w in
  (_predict self df false decompose r.2).1 = r.1
  /\ rng r.2 = rng w
  /\ (forall include_error l, (l < length (heap w))%nat ->
        heap (_predict self df include_error decompose w).2 !! l = heap w !! l)
  /\ (forall p w1, prepare self df w = (Returns p, w1) ->
        Forall (fun x => (length (heap w) <= x.2)%nat) (bufs p))
  /\ (forall model p w1,
        posterior_arrays (heap w) (_posterior_state self) = Some model ->
        prepare self df w = (Returns p, w1) ->
        bufs p = number (length (heap w)) model
        /\ model_attributes self model = Returns (attrs p)
        /\ forall i k a, model !! i = Some (k, a) ->
              bufs p !! i = Some (k, (length (heap w) + i)%nat)
              /\ heap w1 !! (length (heap w) + i)%nat = Some (ONd a)).
Proof.
  intros [Hpost Hdf]. simpl. split; [|split; [|split; [|split]]].
  - apply sim_rerun. intros ext. apply sim_predict; assumption.
  - destruct (sim_run _ false eq w
                (sim_predict (heap w) [] self df false decompose Hpost Hdf))
      as (t' & _ & Hn & _). auto.
  - intros include_error l Hl.
    destruct (sim_run _ include_error eq w
                (sim_predict (heap w) [] self df include_error decompose Hpost Hdf))
      as (t' & -> & _).
    apply lookup_app_l. exact Hl.
  - intros p w1 Hp.
    destruct (sim_run _ false _ w (sim_prepare (heap w) [] false self df Hpost Hdf))
      as (t' & _ & _ & Ho).
    rewrite Hp in Ho. simpl in Ho. destruct Ho as (_ & _ & _ & Hb).
    apply Forall2_same in Hb.
    eapply Forall_impl; [exact Hb|]. intros x [_ [Hx _]]. exact Hx.
  - intros model p w1 Hm Hp.
    destruct (prepare_copy self df w w1 model p Hm Hp) as (Hb & Ha & Hh).
    split; [exact Hb|]. split; [exact Ha|].
    intros i k a Hi. split.
    + rewrite Hb. eapply number_lookup. exact Hi.
    + eapply Hh. exact Hi.
Qed.
End Calls.

(** ** Which exceptions the routine raises after the date checks *)

Section Quiet.
Context {F : Type} `{Scalar F} `{Collaborators F}.

Lemma quiet_outcome_returns {A} (a : A) : quiet_outcome (Returns a).
Proof. intros e He. discriminate. Qed.

Lemma quiet_outcome_raises {A} (e : exn) :
  e <> IllegalArgument -> e <> PredictionException -> quiet_outcome (@Raises A e).
Proof. intros H1 H2 e' [= <-] [?|?]; contradiction. Qed.

Lemma quiet_outcome_obind {A B} (o : outcome A) (f : A -> outcome B) :
  quiet_outcome o -> (forall a, quiet_outcome (f a)) -> quiet_outcome (obind o f).
Proof.
  intros Ho Hf. destruct o as [a|e]; simpl; [apply Hf|].
  intros e' [= <-]. apply (Ho e). reflexivity.
Qed.

Lemma quiet_outcome_unwrap {A} (e : exn) (x : option A) :
  e <> IllegalArgument -> e <> PredictionException -> quiet_outcome (unwrap e x).
Proof.
  intros H1 H2. destruct x; [apply quiet_outcome_returns | apply quiet_outcome_raises; auto].
Qed.

Ltac quiet_cases :=
  intros e He;
  repeat match type of He with
         | context [match ?x with _ => _ end] => destruct x; simpl in He
         | context [if ?x then _ else _] => destruct x; simpl in He
         end;
  try discriminate;
  injection He as <-; intros [?|?]; discriminate.

Lemma quiet_bsize (a b : nat) : quiet_outcome (bsize a b).
Proof. unfold bsize. quiet_cases. Qed.

Lemma quiet_badd (a b : ndarray F) : quiet_outcome (badd a b).
Proof.
  unfold badd. destruct a, b; simpl;
    repeat (apply quiet_outcome_obind; [apply quiet_bsize | intros ?]);
    apply quiet_outcome_returns.
Qed.

Lemma quiet_cat1 (a b : ndarray F) : quiet_outcome (cat1 a b).
Proof. unfold cat1. quiet_cases. Qed.

Lemma quiet_matmul_t (X : list (list F)) (beta : ndarray F) :
  quiet_outcome (matmul_t X beta).
Proof. unfold matmul_t. quiet_cases. Qed.

Lemma quiet_set_col (idx : nat) (v : vec F) (t : list (vec F)) :
  quiet_outcome (set_col idx v t).
Proof. unfold set_col. quiet_cases. Qed.

Lemma quiet_get_col (idx : nat) (t : list (vec F)) : quiet_outcome (get_col idx t).
Proof. unfold get_col, unwrap. quiet_cases. Qed.

Lemma quiet_cols_of (x : option (ndarray F)) : quiet_outcome (cols_of x).
Proof. unfold cols_of. quiet_cases. Qed.

Lemma quiet_factor_of (x : option (ndarray F)) : quiet_outcome (factor_of x).
Proof. unfold factor_of. quiet_cases. Qed.

Lemma quiet_lop (f : F -> F -> F) (a b : ndarray F) : quiet_outcome (lop f a b).
Proof.
  unfold lop. destruct a, b; simpl;
    repeat (apply quiet_outcome_obind; [apply quiet_bsize | intros ?]);
    apply quiet_outcome_returns.
Qed.

Lemma quiet_assign_col (idx : nat) (v : ndarray F) (t : list (vec F)) :
  quiet_outcome (assign_col idx v t).
Proof.
  unfold assign_col. destruct v as [u|k cols]; [apply quiet_set_col|].
  apply quiet_outcome_obind; [apply quiet_get_col | intros old].
  destruct (decide (k = 1%nat)); [|apply quiet_outcome_raises; discriminate].
  destruct (decide (length cols = length old)); [apply quiet_set_col|].
  destruct (row 0 cols) as [|x [|y r]];
    first [apply quiet_set_col | apply quiet_outcome_raises; discriminate].
Qed.

Lemma quiet_global_trend_tensor (self : DLT F) (level slope : ndarray F) (idx : nat) :
  quiet_outcome (global_trend_tensor self level slope idx).
Proof. unfold global_trend_tensor. destruct (use_log_global_trend self); apply quiet_lop. Qed.

Lemma quiet_level_update_tensor (lsf realized curr : ndarray F) :
  quiet_outcome (level_update_tensor lsf realized curr).
Proof.
  unfold level_update_tensor.
  repeat (apply quiet_outcome_obind; [apply quiet_lop | intros ?]). apply quiet_lop.
Qed.

Lemma quiet_seasonality_update_tensor (sea_sm realized seas new_level : ndarray F) :
  quiet_outcome (seasonality_update_tensor sea_sm realized seas new_level).
Proof.
  unfold seasonality_update_tensor.
  repeat (apply quiet_outcome_obind; [apply quiet_lop | intros ?]). apply quiet_lop.
Qed.

Lemma quiet_noise_parameters (n : nat) (dof sigma : ndarray F) :
  quiet_outcome (noise_parameters n dof sigma).
Proof.
  unfold noise_parameters.
  destruct dof, sigma; simpl; try apply quiet_outcome_returns;
    repeat match goal with
           | |- context [bsize ?a ?b] => destruct (bsize a b)
           | |- context [decide ?P] => destruct (decide P)
           end;
    first [apply quiet_outcome_returns | apply quiet_outcome_raises; discriminate].
Qed.

Lemma quiet_flatten_of (x : option (ndarray F)) : quiet_outcome (flatten_of x).
Proof. unfold flatten_of. quiet_cases. Qed.

Lemma quiet_get_loc (a : list date) (key : date) : quiet_outcome (get_loc a key).
Proof. unfold get_loc. quiet_cases. Qed.

Lemma quiet_resolve_horizon (tm : training_meta) (pm : prediction_meta) :
  quiet_outcome (resolve_horizon tm pm).
Proof.
  unfold resolve_horizon. destruct (_ <? _); [apply quiet_outcome_returns|].
  apply quiet_outcome_obind; [apply quiet_get_loc | intros; apply quiet_outcome_returns].
Qed.

Lemma quiet_regression_component (self : DLT F) (at_ : attributes)
    (d : dataframe F) (output_len : nat) :
  quiet_outcome (regression_component self at_ d output_len).
Proof.
  unfold regression_component. destruct (_ && _); [|apply quiet_outcome_returns].
  apply quiet_outcome_obind; [apply quiet_outcome_unwrap; discriminate|].
  intros; apply quiet_matmul_t.
Qed.

Lemma quiet_seasonality_init (self : DLT F) (at_ : attributes) (full_len : Z) :
  quiet_outcome (seasonality_init self at_ full_len).
Proof.
  unfold seasonality_init. destruct (1 <? _).
  - destruct (seasonality_levels at_) as [[v|n cols]|];
      try (apply quiet_outcome_raises; discriminate).
    destruct (_ <=? _); [apply quiet_outcome_returns|].
    apply quiet_outcome_obind; [apply quiet_cat1 | intros; apply quiet_outcome_returns].
  - destruct (_ <? _); [apply quiet_outcome_raises; discriminate | apply quiet_outcome_returns].
Qed.

Lemma quiet_combine (self : DLT F) (decompose : bool) (st : locator)
    (nl ng ns : nat) (ls : loop_state) (regressor_component : ndarray F) :
  quiet_outcome (combine self decompose st nl ng ns ls regressor_component).
Proof.
  unfold combine. destruct st; [|apply quiet_outcome_raises; discriminate].
  repeat (apply quiet_outcome_obind; [apply quiet_badd | intros ?]).
  apply quiet_outcome_returns.
Qed.

Lemma quiet_ret {A} (a : A) : quiet (ret a).
Proof. intros w e He. discriminate. Qed.

Lemma quiet_lift {A} (o : outcome A) : quiet_outcome o -> quiet (lift o).
Proof. intros Ho w e He. apply (Ho e). exact He. Qed.

Lemma quiet_bind {A B} (m : M A) (f : A -> M B) :
  quiet m -> (forall a, quiet (f a)) -> quiet (bind m f).
Proof.
  intros Hm Hf w e. unfold bind. specialize (Hm w).
  destruct (m w) as [[a|e'] w']; simpl in *.
  - apply Hf.
  - intros [= <-]. apply Hm. reflexivity.
Qed.

Lemma quiet_sample (dof sigma : vec F) (n : nat) : quiet (sample dof sigma n).
Proof. intros w e. unfold sample. destruct (nct_rvs _ _ _ _). discriminate. Qed.

Lemma quiet_store_col (l : loc) (idx : nat) (v : vec F) : quiet (store_col l idx v).
Proof.
  intros w e. unfold store_col.
  destruct (heap w !! l) as [[[?|? ?]|?]|]; discriminate.
Qed.

Lemma quiet_for_each {S} (idxs : list nat) (body : nat -> S -> M S) :
  (forall i st, quiet (body i st)) -> forall st, quiet (for_each idxs body st).
Proof.
  intros Hb. induction idxs as [|i rest IH]; intros st; simpl.
  - apply quiet_ret.
  - apply quiet_bind; [apply Hb | apply IH].
Qed.

Create HintDb quiet.
#[local] Hint Resolve quiet_ret quiet_sample quiet_store_col quiet_set_col
  quiet_lop quiet_assign_col quiet_global_trend_tensor quiet_level_update_tensor
  quiet_seasonality_update_tensor quiet_noise_parameters
  quiet_get_col quiet_cols_of quiet_factor_of quiet_flatten_of quiet_cat1
  quiet_resolve_horizon quiet_regression_component quiet_seasonality_init
  quiet_combine quiet_outcome_unwrap : quiet.

Ltac quiet_steps :=
  repeat first
    [ apply quiet_ret
    | apply quiet_lift; auto with quiet
    | apply quiet_bind; [|intros ?] ].

Lemma quiet_loop_body (self : DLT F) (at_ : attributes) (include_error : bool)
    (full_len : Z) (view : option loc) (idx : nat) (st : loop_state) :
  quiet (loop_body self at_ include_error full_len view idx st).
Proof.
  unfold loop_body. quiet_steps.
  - destruct include_error; quiet_steps. apply quiet_sample.
  - destruct (_ && _); quiet_steps. destruct view; auto with quiet.
Qed.

Lemma quiet_trend_component (self : DLT F) (at_ : attributes) (include_error : bool)
    (trained_len : nat) (full_len : Z) (view : option loc) (seas : list (vec F)) :
  quiet (trend_component self at_ include_error trained_len full_len view seas).
Proof.
  unfold trend_component. destruct (_ <=? _); quiet_steps.
  all: first [ apply quiet_outcome_unwrap; discriminate
             | apply quiet_for_each; intros; apply quiet_loop_body ].
Qed.
End Quiet.

Section DateChecks.
Context {F : Type} `{Scalar F} `{Collaborators F}.

Lemma predict_from_checked (self : DLT F) (include_error decompose : bool)
    (p : prepared) (w : world F) (e : exn) :
  validate (training_df_meta self) (prediction_df p) = Returns tt ->
  (predict_from self include_error decompose p w).1 = Raises e ->
  ~ input_error e.
Proof.
  intros Hv. unfold predict_from. cbv zeta.
  unfold bind at 1. unfold lift at 1. rewrite Hv.
  revert w e.
  match goal with |- forall w e, (?m w).1 = _ -> _ => change (quiet m) end.
  apply quiet_bind; [apply quiet_lift, quiet_resolve_horizon | intros hz].
  apply quiet_bind; [apply quiet_lift, quiet_regression_component | intros rc].
  apply quiet_bind; [apply quiet_lift, quiet_seasonality_init | intros seas].
  apply quiet_bind; [apply quiet_trend_component | intros tr].
  apply quiet_lift, quiet_combine.
Qed.

Lemma predict_from_unchecked (self : DLT F) (include_error decompose : bool)
    (p : prepared) (w : world F) (e : exn) :
  validate (training_df_meta self) (prediction_df p) = Raises e ->
  (predict_from self include_error decompose p w).1 = Raises e.
Proof.
  intros Hv. unfold predict_from. cbv zeta.
  unfold bind at 1. unfold lift at 1. rewrite Hv. reflexivity.
Qed.

(** C9.  For a call that reaches the date checks, [IllegalArgument] is raised
    exactly when the dates of the caller's frame are not strictly increasing,
    whatever the prediction start is; and for strictly increasing dates
    [PredictionException] is raised exactly when the first of them is before
    the training start. *)
Theorem date_checks (self : DLT F) (l : loc) (include_error decompose : bool)
    (w w1 : world F) (d : dataframe F) (p : prepared) :
  well_referenced self (Some l) w ->
  heap w !! l = Some (OFrame d) ->
  prepare self (Some l) w = (Returns p, w1) ->
  let r := (_predict self (Some l) include_error decompose w).1 in
  (r = Raises IllegalArgument <-> is_ordered_datetime (df_dates d) = false)
  /\ (is_ordered_datetime (df_dates d) = true ->
      (r = Raises PredictionException
       <-> exists first, head (df_dates d) = Some first
                         /\ first < training_start (training_df_meta self))).
Proof.
  intros Hw Hl Hp.
  destruct (prepare_frame self l w w1 d p Hw Hl Hp) as [_ Hpm].
  unfold prediction_df_meta in Hpm. rewrite transformed_dates in Hpm.
  destruct (head (df_dates d)) as [first|] eqn:Hhead; simpl in Hpm; [|discriminate].
  destruct (last (df_dates d)) as [final|]; simpl in Hpm; [|discriminate].
  injection Hpm as Hpm.
  assert (Hr : (_predict self (Some l) include_error decompose w).1
               = (predict_from self include_error decompose p w1).1).
  { unfold _predict, bind. rewrite Hp. reflexivity. }
  simpl. rewrite Hr. clear Hr.
  pose proof (predict_from_checked self include_error decompose p w1) as Hok.
  pose proof (predict_from_unchecked self include_error decompose p w1) as Hko.
  unfold validate in Hok, Hko. rewrite <- Hpm in Hok, Hko. simpl in Hok, Hko.
  destruct (is_ordered_datetime (df_dates d)); simpl in Hok, Hko.
  - destruct (Z.ltb_spec first (training_start (training_df_meta self))) as [Hlt|Hge].
    + rewrite (Hko _ eq_refl). split; [split; discriminate|].
      intros _. split; [eauto | reflexivity].
    + split.
      * split; [|discriminate]. intros Hr.
        exfalso. apply (Hok _ eq_refl Hr). left; reflexivity.
      * intros _. split.
        -- intros Hr. exfalso. apply (Hok _ eq_refl Hr). right; reflexivity.
        -- intros (f & [= <-] & Hlt). lia.
  - rewrite (Hko _ eq_refl). split; [split; reflexivity | discriminate].
Qed.
End DateChecks.

(** ** The three properties on the example *)

Lemma example_well_referenced (period : Z) (l : loc) :
  (l < 17)%nat -> well_referenced (Example.dlt period) (Some l) Example.w0.
Proof.
  intros Hl. split.
  - simpl. repeat constructor; simpl; lia.
  - intros l' [= <-]. simpl. lia.
Qed.

Lemma caller_frame_unchanged_witness :
  well_referenced dlt_transforming (Some 17%nat) w_transforming
  /\ heap w_transforming !! 17%nat = Some (OFrame future2_x)
  /\ auto_scale dlt_transforming = true
  /\ is_multiplicative dlt_transforming = true
  /\ transformed dlt_transforming future2_x
     = {| df_dates := [10; 11]; df_regressors := [[6; 6]; [7; 7]] |}
  /\ (exists p w1, prepare dlt_transforming (Some 17%nat) w_transforming = (Returns p, w1)
                   /\ heap w1 !! 30%nat
                      = Some (OFrame (transformed dlt_transforming future2_x)))
  /\ heap (_predict dlt_transforming (Some 17%nat) true false w_transforming).2 !! 17%nat
     = Some (OFrame future2_x)
  /\ forall p w1, prepare dlt_transforming (Some 17%nat) w_transforming = (Returns p, w1) ->
       frame p = transformed dlt_transforming future2_x
       /\ heap w1 !! 17%nat = Some (OFrame future2_x).
Proof.
  assert (Hw : well_referenced dlt_transforming (Some 17%nat) w_transforming).
  { split.
    - simpl. repeat constructor; simpl; lia.
    - intros l' [= <-]. simpl. lia. }
  split; [exact Hw|]. split; [reflexivity|]. split; [reflexivity|].
  split; [reflexivity|]. split; [reflexivity|].
  split; [do 2 eexists; split; vm_compute; reflexivity|].
  apply (caller_frame_unchanged dlt_transforming 17%nat true false w_transforming
           future2_x Hw).
  reflexivity.
Defined.

Lemma predict_idempotent_witness :
  well_referenced (Example.dlt 3) (Some 12%nat) Example.w0
  /\ posterior_arrays (heap Example.w0) (_posterior_state (Example.dlt 3)) = Some model3
  /\ (exists o, (_predict (Example.dlt 3) (Some 12%nat) false true Example.w0).1 = Returns o)
  /\ (exists p w1, prepare (Example.dlt 3) (Some 12%nat) Example.w0 = (Returns p, w1))
  /\ (let r := _predict (Example.dlt 3) (Some 12%nat) false true Example.w0 in
      (_predict (Example.dlt 3) (Some 12%nat) false true r.2).1 = r.1
      /\ rng r.2 = rng Example.w0
      /\ (forall include_error l, (l < length (heap Example.w0))%nat ->
            heap (_predict (Example.dlt 3) (Some 12%nat) include_error true
                           Example.w0).2 !! l
            = heap Example.w0 !! l)
      /\ (forall p w1,
            prepare (Example.dlt 3) (Some 12%nat) Example.w0 = (Returns p, w1) ->
            Forall (fun x => (length (heap Example.w0) <= x.2)%nat) (bufs p))
      /\ (forall model p w1,
            posterior_arrays (heap Example.w0) (_posterior_state (Example.dlt 3))
            = Some model ->
            prepare (Example.dlt 3) (Some 12%nat) Example.w0 = (Returns p, w1) ->
            bufs p = number (length (heap Example.w0)) model
            /\ model_attributes (Example.dlt 3) model = Returns (attrs p)
            /\ forall i k a, model !! i = Some (k, a) ->
                 bufs p !! i = Some (k, (length (heap Example.w0) + i)%nat)
                 /\ heap w1 !! (length (heap Example.w0) + i)%nat = Some (ONd a))).
Proof.
  assert (Hw : well_referenced (Example.dlt 3) (Some 12%nat) Example.w0)
    by (apply example_well_referenced; lia).
  split; [exact Hw|]. split; [reflexivity|].
  split; [eexists; vm_compute; reflexivity|].
  split; [do 2 eexists; vm_compute; reflexivity|].
  apply (predict_idempotent (Example.dlt 3) (Some 12%nat) true Example.w0 Hw).
Defined.

Lemma date_checks_witness :
  (well_referenced (Example.dlt 3) (Some 15%nat) Example.w0
   /\ heap Example.w0 !! 15%nat = Some (OFrame Example.unordered2)
   /\ (exists p w1, prepare (Example.dlt 3) (Some 15%nat) Example.w0 = (Returns p, w1))
   /\ is_ordered_datetime (df_dates Example.unordered2) = false
   /\ (let r := (_predict (Example.dlt 3) (Some 15%nat) false false Example.w0).1 in
       (r = Raises IllegalArgument
        <-> is_ordered_datetime (df_dates Example.unordered2) = false)
       /\ (is_ordered_datetime (df_dates Example.unordered2) = true ->
           (r = Raises PredictionException
            <-> exists first, head (df_dates Example.unordered2) = Some first
                              /\ first < training_start (training_df_meta (Example.dlt 3))))))
  /\ (well_referenced (Example.dlt 3) (Some 16%nat) Example.w0
      /\ heap Example.w0 !! 16%nat = Some (OFrame Example.early2)
      /\ (exists p w1, prepare (Example.dlt 3) (Some 16%nat) Example.w0 = (Returns p, w1))
      /\ is_ordered_datetime (df_dates Example.early2) = true
      /\ (exists first, head (df_dates Example.early2) = Some first
                        /\ first < training_start (training_df_meta (Example.dlt 3)))
      /\ (let r := (_predict (Example.dlt 3) (Some 16%nat) false false Example.w0).1 in
          (r = Raises IllegalArgument
           <-> is_ordered_datetime (df_dates Example.early2) = false)
          /\ (is_ordered_datetime (df_dates Example.early2) = true ->
              (r = Raises PredictionException
               <-> exists first, head (df_dates Example.early2) = Some first
                                 /\ first < training_start
                                              (training_df_meta (Example.dlt 3)))))).
Proof.
  split.
  - assert (Hw : well_referenced (Example.dlt 3) (Some 15%nat) Example.w0)
      by (apply example_well_referenced; lia).
    assert (Hp : exists p w1,
               prepare (Example.dlt 3) (Some 15%nat) Example.w0 = (Returns p, w1))
      by (do 2 eexists; vm_compute; reflexivity).
    split; [exact Hw|]. split; [reflexivity|]. split; [exact Hp|].
    split; [reflexivity|].
    destruct Hp as (p & w1 & Hp).
    exact (date_checks (Example.dlt 3) 15%nat false false Example.w0 w1
             Example.unordered2 p Hw eq_refl Hp).
  - assert (Hw : well_referenced (Example.dlt 3) (Some 16%nat) Example.w0)
      by (apply example_well_referenced; lia).
    assert (Hp : exists p w1,
               prepare (Example.dlt 3) (Some 16%nat) Example.w0 = (Returns p, w1))
      by (do 2 eexists; vm_compute; reflexivity).
    split; [exact Hw|]. split; [reflexivity|]. split; [exact Hp|].
    split; [reflexivity|].
    split; [exists (-1); split; [reflexivity | vm_compute; reflexivity]|].
    destruct Hp as (p & w1 & Hp).
    exact (date_checks (Example.dlt 3) 16%nat false false Example.w0 w1
             Example.early2 p Hw eq_refl Hp).
Defined.

(** C9, as stated, fails: the posterior is read before the dates are checked.
    A model whose posterior has coefficients of positive sign only raises
    [RuntimeError] at line 261, for a frame whose dates are out of order too,
    so that [IllegalArgument] is not raised although the dates are not
    strictly increasing. *)
Lemma date_checks_not_first :
  heap w_positive !! 15%nat = Some (OFrame Example.unordered2)
  /\ is_ordered_datetime (df_dates Example.unordered2) = false
  /\ (_predict dlt_positive (Some 15%nat) false false w_positive).1 = Raises RuntimeError
  /\ ~ ((_predict dlt_positive (Some 15%nat) false false w_positive).1
        = Raises IllegalArgument
        <-> is_ordered_datetime (df_dates Example.unordered2) = false).
Proof.
  assert (Hr : (_predict dlt_positive (Some 15%nat) false false w_positive).1
               = Raises RuntimeError) by (vm_compute; reflexivity).
  split; [reflexivity|]. split; [reflexivity|]. split; [exact Hr|].
  rewrite Hr. intros [_ Himp]. specialize (Himp eq_refl). discriminate.
Qed.

Example unordered_raises :
  (_predict (Example.dlt 3) (Some 15%nat) false false Example.w0).1
  = Raises IllegalArgument.
Proof. vm_compute. reflexivity. Qed.

Example early_raises :
  (_predict (Example.dlt 3) (Some 16%nat) false false Example.w0).1
  = Raises PredictionException.
Proof. vm_compute. reflexivity. Qed.

(** ** The forecast loop *)

Section Loop.
Context {F : Type} `{Scalar F} `{Collaborators F}.
Variables (self : DLT F) (at_ : @attributes F) (include_error : bool)
  (full_len : Z) (view : option loc) (fs : @factors F).
Hypothesis Hfs : has_factors self at_ include_error fs.

Lemma set_col_lt (idx : nat) (v : vec F) (t : list (vec F)) :
  (idx < length t)%nat -> set_col idx v t = Returns (<[idx := v]> t).
Proof. intros Hl. unfold set_col. destruct (decide _); [reflexivity | lia]. Qed.

Lemma get_col_insert (idx : nat) (v : vec F) (t : list (vec F)) :
  (idx < length t)%nat -> get_col idx (<[idx := v]> t) = Returns v.
Proof. intros Hl. unfold get_col. rewrite list_lookup_insert_eq by exact Hl. reflexivity. Qed.

(** The tensor formulas on vectors. *)
Lemma global_trend_tensor_vec (gl gs : vec F) (idx : nat) :
  global_trend_tensor self (A1 gl) (A1 gs) idx
  = Returns (A1 (global_trend_at self gl gs idx)).
Proof.
  unfold global_trend_tensor, global_trend_at.
  destruct (use_log_global_trend self); reflexivity.
Qed.

Lemma level_update_tensor_vec (lsf realized curr : vec F) :
  level_update_tensor (A1 lsf) (A1 realized) (A1 curr)
  = Returns (A1 (level_update lsf realized curr)).
Proof. reflexivity. Qed.

Lemma seasonality_update_tensor_vec (sea_sm realized seas new_level : vec F) :
  seasonality_update_tensor (A1 sea_sm) (A1 realized) (A1 seas) (A1 new_level)
  = Returns (A1 (seasonality_update sea_sm realized seas new_level)).
Proof. reflexivity. Qed.

(** The first half of a pass: the local trend column and the noise. *)
Lemma local_column_run (idx : nat) (flt0 : list (vec F)) (local : vec F) (w : world F) :
  (idx < length flt0)%nat ->
  exists w1,
    (if include_error
     then
       dof <- lift (factor_of (residual_degree_of_freedom at_)) ;;
       sigma <- lift (factor_of (residual_sigma at_)) ;;
       ps <- lift (noise_parameters (num_sample at_) dof sigma) ;;
       error_value <- sample ps.1 ps.2 (num_sample at_) ;;
       c <- lift (get_col idx (<[idx := local]> flt0)) ;;
       lift (set_col idx (vadd c error_value) (<[idx := local]> flt0))
     else ret (<[idx := local]> flt0)) w
    = (Returns (<[idx := if include_error
                         then vadd local (noise_at at_ fs (rng w))
                         else local]> flt0), w1)
    /\ rng w1 = next_rng at_ fs include_error (rng w)
    /\ heap w1 = heap w.
Proof.
  intros Hidx.
  destruct Hfs as (_ & _ & _ & _ & _ & Hn & _).
  unfold next_rng, noise_at.
  destruct include_error.
  - destruct (Hn eq_refl) as (Hdof & Hsig).
    unfold bind at 1. unfold lift at 1. rewrite Hdof.
    unfold bind at 1. unfold lift at 1. rewrite Hsig.
    unfold bind at 1. unfold lift at 1. cbn [noise_parameters fst snd].
    unfold bind at 1. unfold sample at 1.
    destruct (nct_rvs (f_dof fs) (f_sigma fs) (num_sample at_) (rng w)) as [e g] eqn:He.
    unfold bind at 1. unfold lift at 1. rewrite get_col_insert by lia.
    unfold lift. rewrite set_col_lt by (rewrite length_insert; lia).
    rewrite list_insert_insert_eq. eexists. simpl. repeat split; reflexivity.
  - exists w. unfold ret. repeat split; reflexivity.
Qed.

Lemma loop_body_run (idx : nat) (st : loop_state) (w : world F) :
  wide (Z.to_nat full_len) st ->
  (idx < Z.to_nat full_len)%nat ->
  exists w',
    loop_body self at_ include_error full_len view idx st w
    = (Returns (pass self fs include_error full_len idx st (noise_at at_ fs (rng w))), w')
    /\ rng w' = next_rng at_ fs include_error (rng w).
Proof.
  intros (Wl & Wg & Ws & Hlv & Hsl) Hidx.
  destruct st as [flt0 fgt0 seas0 lvl slp]. cbn [full_local_trend full_global_trend
    seasonality_component last_local_trend_level last_local_trend_slope] in *.
  destruct lvl as [lv|]; [|discriminate]. destruct slp as [sl|]; [|discriminate].
  clear Hlv Hsl.
  destruct (local_column_run idx flt0
              (zip_with fadd lv (zip_with fmul (f_damped fs) sl)) w)
    as (w1 & Hrun & Hrng & Hheap); [lia|].
  destruct Hfs as (Hd & Hgl & Hgs & Hlsf & Hssf & Hn & Hsea).
  unfold loop_body. cbn [full_local_trend full_global_trend
    seasonality_component last_local_trend_level last_local_trend_slope].
  unfold bind at 1. unfold lift at 1. rewrite Hd.
  unfold bind at 1. unfold lift at 1. cbn [lop].
  unfold bind at 1. unfold lift at 1. cbn [lop].
  unfold bind at 1. unfold lift at 1. cbn [assign_col]. rewrite set_col_lt by lia.
  unfold bind at 1. unfold lift at 1. rewrite Hgl.
  unfold bind at 1. unfold lift at 1. rewrite Hgs.
  unfold bind at 1. unfold lift at 1. rewrite global_trend_tensor_vec.
  unfold bind at 1. unfold lift at 1. cbn [assign_col]. rewrite set_col_lt by lia.
  unfold bind at 1. rewrite Hrun.
  unfold bind at 1. unfold lift at 1. rewrite Hlsf.
  unfold bind at 1. unfold lift at 1. rewrite get_col_insert by lia.
  unfold bind at 1. unfold lift at 1. rewrite level_update_tensor_vec.
  unfold bind at 1. unfold lift at 1. cbn [lop].
  unfold bind at 1. unfold lift at 1. rewrite Hssf.
  unfold bind at 1. unfold lift at 1. cbn [lop].
  unfold bind at 1. unfold lift at 1. cbn [lop amap].
  unfold bind at 1. unfold lift at 1. cbn [lop].
  unfold bind at 1. unfold lift at 1. cbn [lop].
  unfold pass, realized_local, damped_local. cbn [full_local_trend full_global_trend
    seasonality_component last_local_trend_level last_local_trend_slope flatten].
  destruct ((1 <? seasonality self) && (Z.of_nat idx + seasonality self <? full_len)) eqn:Hc.
  - apply andb_prop in Hc as [Hp Ht]. apply Z.ltb_lt in Hp, Ht.
    rewrite (Hsea Hp).
    destruct (seas0 !! idx) as [s|] eqn:Hs.
    2: { apply lookup_ge_None in Hs. lia. }
    unfold bind at 1. unfold bind at 1. unfold lift at 1.
    unfold bind at 1. unfold lift at 1. unfold get_col at 1. rewrite Hs. cbn [unwrap].
    unfold bind at 1. unfold lift at 1. rewrite seasonality_update_tensor_vec.
    unfold bind at 1. unfold lift at 1. cbn [assign_col]. rewrite set_col_lt by lia.
    unfold bind at 1. unfold lift at 1. rewrite get_col_insert by lia.
    unfold bind at 1. cbn [default].
    destruct view as [l|].
    + unfold store_col.
      destruct (heap w1 !! l) as [[[v|n cols]|d]|]; simpl; unfold ret;
        eexists; (split; [reflexivity | simpl; exact Hrng]).
    + unfold ret. simpl. eexists; split; [reflexivity | exact Hrng].
  - unfold bind, ret. eexists; split; [reflexivity | exact Hrng].
Qed.

Lemma wide_pass (len idx : nat) (st : loop_state) (noise : vec F) :
  wide len st -> wide len (pass self fs include_error full_len idx st noise).
Proof.
  intros (Wl & Wg & Ws & _ & _). unfold wide, pass. simpl.
  rewrite !length_insert. repeat split; auto.
  destruct (_ && _); [rewrite length_insert|]; exact Ws.
Qed.

Lemma for_each_passes (idxs : list nat) (st : loop_state) (w : world F) :
  wide (Z.to_nat full_len) st ->
  Forall (fun idx => (idx < Z.to_nat full_len)%nat) idxs ->
  exists w',
    for_each idxs (loop_body self at_ include_error full_len view) st w
    = (Returns (passes self at_ fs include_error full_len idxs st (rng w)).1, w')
    /\ rng w' = (passes self at_ fs include_error full_len idxs st (rng w)).2.
Proof.
  revert st w. induction idxs as [|idx rest IH]; intros st w Hw Hall.
  - exists w. split; reflexivity.
  - apply Forall_cons in Hall as [Hidx Hrest].
    destruct (loop_body_run idx st w Hw Hidx) as (w1 & Hrun & Hrng).
    destruct (IH _ w1 (wide_pass _ idx st (noise_at at_ fs (rng w)) Hw) Hrest)
      as (w2 & Hrun2 & Hrng2).
    exists w2. simpl. unfold bind. rewrite Hrun, Hrun2, Hrng2, Hrng. split; reflexivity.
Qed.

Abbreviation run_passes := (passes self at_ fs include_error full_len).

Lemma passes_app (idxs1 idxs2 : list nat) (st : loop_state) (g : rng_state) :
  run_passes (idxs1 ++ idxs2) st g
  = run_passes idxs2 (run_passes idxs1 st g).1 (run_passes idxs1 st g).2.
Proof. revert st g. induction idxs1 as [|i r IH]; intros; simpl; [reflexivity | apply IH]. Qed.




Lemma pass_keeps (idx i : nat) (st : loop_state) (noise : vec F) :
  ((i < idx)%nat ->
     full_local_trend (pass self fs include_error full_len idx st noise) !! i
     = full_local_trend st !! i
     /\ full_global_trend (pass self fs include_error full_len idx st noise) !! i
        = full_global_trend st !! i)
  /\ (Z.of_nat i < Z.of_nat idx + seasonality self ->
      seasonality_component (pass self fs include_error full_len idx st noise) !! i
      = seasonality_component st !! i).
Proof.
  unfold pass; simpl. split.
  - intros Hi. rewrite !list_lookup_insert_ne by lia. split; reflexivity.
  - intros Hi. destruct (_ && _); [|reflexivity].
    apply list_lookup_insert_ne. lia.
Qed.

Lemma passes_keeps (idxs : list nat) (a i : nat) (st : loop_state) (g : rng_state) :
  Forall (fun idx => (a <= idx)%nat) idxs ->
  ((i < a)%nat ->
     full_local_trend (run_passes idxs st g).1 !! i = full_local_trend st !! i
     /\ full_global_trend (run_passes idxs st g).1 !! i = full_global_trend st !! i)
  /\ (Z.of_nat i < Z.of_nat a + seasonality self ->
      seasonality_component (run_passes idxs st g).1 !! i
      = seasonality_component st !! i).
Proof.
  revert st g. induction idxs as [|idx r IH]; intros st g Hall; simpl.
  - split; intros; [split|]; reflexivity.
  - apply Forall_cons in Hall as [Hidx Hr].
    destruct (IH (pass self fs include_error full_len idx st (noise_at at_ fs g))
                 (next_rng at_ fs include_error g) Hr) as [IH1 IH2].
    destruct (pass_keeps idx i st (noise_at at_ fs g)) as [P1 P2].
    split.
    + intros Hi. destruct (IH1 Hi) as [-> ->]. apply P1. lia.
    + intros Hi. rewrite (IH2 Hi). apply P2. lia.
Qed.

Lemma loop_prefix_run (trained_len k : nat) (st0 : loop_state) (w : world F) :
  wide (Z.to_nat full_len) st0 ->
  (trained_len + k <= Z.to_nat full_len)%nat ->
  exists w',
    loop_prefix self at_ include_error trained_len full_len view k st0 w
    = (Returns (run_passes (seq trained_len k) st0 (rng w)).1, w')
    /\ rng w' = (run_passes (seq trained_len k) st0 (rng w)).2.
Proof.
  intros Hw Hk. apply for_each_passes; [exact Hw|].
  apply Forall_forall. intros i Hi. apply elem_of_seq in Hi. lia.
Qed.








(** X4 (lines 368-416).  What the passes so far have written stays: a later
    pass changes no column of the local or of the global trend before its own
    index, and no seasonality column less than a period ahead of it.  From the
    start of the loop: the columns of the history are never changed. *)
Theorem written_columns_stay (trained_len k j : nat) (st0 st stf : loop_state)
    (w w1 wf : world F) :
  wide (Z.to_nat full_len) st0 ->
  (trained_len + k + j <= Z.to_nat full_len)%nat ->
  loop_prefix self at_ include_error trained_len full_len view k st0 w = (Returns st, w1) ->
  loop_prefix self at_ include_error trained_len full_len view (k + j) st0 w
  = (Returns stf, wf) ->
  forall i,
    ((i < trained_len + k)%nat ->
       full_local_trend stf !! i = full_local_trend st !! i
       /\ full_global_trend stf !! i = full_global_trend st !! i)
    /\ (Z.of_nat i < Z.of_nat (trained_len + k) + seasonality self ->
        seasonality_component stf !! i = seasonality_component st !! i).
Proof.
  intros Hw Hk Hst Hstf i.
  destruct (loop_prefix_run trained_len k st0 w Hw) as (w1' & Hrun & _); [lia|].
  destruct (loop_prefix_run trained_len (k + j) st0 w Hw) as (wf' & Hrunf & _); [lia|].
  rewrite Hrun in Hst. rewrite Hrunf in Hstf.
  injection Hst as <- _. injection Hstf as <- _.
  rewrite seq_app, passes_app.
  apply passes_keeps.
  apply Forall_forall. intros x Hx. apply elem_of_seq in Hx. lia.
Qed.

End Loop.

(** ** The loop on the example *)

Lemma example_factors (include_error : bool) :
  has_factors (Example.dlt 3) Example.attrs3 include_error factors3.
Proof. repeat split; reflexivity. Qed.

Lemma example_wide : wide (Z.to_nat 14) Example.start14.
Proof. repeat split. Qed.




Lemma written_columns_stay_witness :
  wide (Z.to_nat 14) Example.start14
  /\ (10 + 0 + 4 <= Z.to_nat 14)%nat
  /\ forall stf wf,
       loop_prefix (Example.dlt 3) Example.attrs3 true 10 14 None (0 + 4) Example.start14
                   Example.w0 = (Returns stf, wf) ->
       forall i,
         ((i < 10 + 0)%nat ->
            full_local_trend stf !! i = full_local_trend Example.start14 !! i
            /\ full_global_trend stf !! i = full_global_trend Example.start14 !! i)
         /\ (Z.of_nat i < Z.of_nat (10 + 0) + seasonality (Example.dlt 3) ->
             seasonality_component stf !! i
             = seasonality_component Example.start14 !! i).
Proof.
  split; [exact example_wide|]. split; [vm_compute; lia|].
  intros stf wf Hstf.
  apply (written_columns_stay (Example.dlt 3) Example.attrs3 true 14 None factors3
           (example_factors true) 10 0 4 Example.start14 Example.start14 stf
           Example.w0 Example.w0 wf example_wide).
  - vm_compute; lia.
  - reflexivity.
  - exact Hstf.
Defined.


(** The routine on the example frame of four future dates starts its loop from
    [start14] with the attributes [attrs3]. *)
Example example_attributes :
  exists bufs,
    (posterior_attributes (Example.dlt 3) Example.w0).1 = Returns (bufs, Example.attrs3).
Proof. eexists. vm_compute. reflexivity. Qed.

Example example_loop_start :
  trend_component (Example.dlt 3) Example.attrs3 false 10 14 None
                  (seasonality_component Example.start14) Example.w0
  = (st <- for_each (forecast_range 10 14)
                    (loop_body (Example.dlt 3) Example.attrs3 false 14 None)
                    Example.start14 ;;
     ret (2%nat, 2%nat, st)) Example.w0.
Proof. reflexivity. Qed.

(** ** Calls that cannot succeed *)

Section Edge.
Context {F : Type} `{Scalar F} `{Collaborators F}.

(** X6 (lines 200, 270).  Called without a frame, which is the default of
    the parameter, the routine never returns a forecast: it raises what the
    reading of the posterior raises, or else [AttributeError] at [df.copy()]. *)
Theorem missing_frame_raises (self : DLT F) (include_error decompose : bool)
    (w : world F) :
  (exists e, (posterior_attributes self w).1 = Raises e
             /\ (_predict self None include_error decompose w).1 = Raises e)
  \/ (_predict self None include_error decompose w).1 = Raises AttributeError.
Proof.
  destruct (posterior_attributes self w) as [[ma|e] w1] eqn:Hpa;
    unfold _predict, prepare, bind; rewrite Hpa.
  - right. reflexivity.
  - left. exists e. split; reflexivity.
Qed.

(** X7 (lines 207-217).  With an empty posterior the routine raises
    [IndexError] at [list(model.values())[0]], before it looks at the frame,
    and leaves the store as it found it. *)
Theorem empty_posterior_raises (self : DLT F) (df : option loc)
    (include_error decompose : bool) (w : world F) :
  _posterior_state self = [] ->
  _predict self df include_error decompose w = (Raises IndexError, w).
Proof.
  intros Hp. unfold _predict, prepare, posterior_attributes. rewrite Hp. reflexivity.
Qed.
End Edge.

Lemma empty_posterior_raises_witness :
  _posterior_state dlt_unfitted = []
  /\ _predict dlt_unfitted (Some 12%nat) true false Example.w0
     = (Raises IndexError, Example.w0).
Proof.
  split; [reflexivity|].
  apply (empty_posterior_raises dlt_unfitted (Some 12%nat) true false Example.w0).
  reflexivity.
Defined.

(** ** The copy of the posterior *)

Section Copy.
Context {F : Type} `{Scalar F} `{Collaborators F}.

(** X8 (lines 207-210).  The routine works on a copy of the posterior: for
    each entry it puts a new buffer with the same array at the end of the
    store, changes no object that was there and draws no noise, and it reads
    its attributes from exactly the arrays the posterior holds. *)
Theorem posterior_copied (self : DLT F) (w : world F)
    (model : list (param * ndarray F)) :
  posterior_arrays (heap w) (_posterior_state self) = Some model ->
  let bufs := number (length (heap w)) model in
  let r := posterior_attributes self w in
  r.1 = obind (model_attributes self model) (fun at_ => Returns (bufs, at_))
  /\ heap r.2 = heap w ++ (ONd <$> model.*2)
  /\ rng r.2 = rng w.
Proof. exact (posterior_attributes_run self w model). Qed.
End Copy.

Lemma posterior_copied_witness :
  posterior_arrays (heap Example.w0) (_posterior_state (Example.dlt 3)) = Some model3
  /\ (let bufs := number (length (heap Example.w0)) model3 in
      let r := posterior_attributes (Example.dlt 3) Example.w0 in
      r.1 = obind (model_attributes (Example.dlt 3) model3)
                  (fun at_ => Returns (bufs, at_))
      /\ heap r.2 = heap Example.w0 ++ (ONd <$> model3.*2)
      /\ rng r.2 = rng Example.w0).
Proof.
  split; [reflexivity|].
  apply (posterior_copied (Example.dlt 3) Example.w0 model3). reflexivity.
Defined.

(** ** Coefficients of positive sign only *)

Section PositiveOnly.
Context {F : Type} `{Scalar F} `{Collaborators F}.

Lemma truth_many (a : ndarray F) : numel a <> 1%nat -> truth a = Raises RuntimeError.
Proof.
  intros Hn. unfold truth. destruct (flatten a) as [|x [|y r]]; try reflexivity.
  destruct (decide _); [contradiction | reflexivity].
Qed.

(** X9 (lines 254-261).  A posterior with coefficients of positive sign and
    none of the other kind makes every call fail: [pr_beta or rr_beta] asks
    the coefficient tensor for its truth value, which raises [RuntimeError]
    unless the tensor has exactly one element. *)
Theorem positive_only_raises (self : DLT F) (df : option loc)
    (include_error decompose : bool) (w : world F)
    (model : list (param * ndarray F)) (pr : ndarray F) :
  posterior_arrays (heap w) (_posterior_state self) = Some model ->
  dict_get POSITIVE_REGRESSOR_BETA model = Some pr ->
  dict_get REGULAR_REGRESSOR_BETA model = None ->
  numel pr <> 1%nat ->
  (_predict self df include_error decompose w).1 = Raises RuntimeError.
Proof.
  intros Hm Hpr Hrr Hn.
  destruct (posterior_attributes_run self w model Hm) as (Hr & _).
  assert (Hma : model_attributes self model = Raises RuntimeError).
  { unfold model_attributes.
    destruct (head model) as [first|] eqn:Hh; [|destruct model; discriminate].
    cbn [unwrap obind]. rewrite Hpr, Hrr. unfold combine_beta.
    rewrite (truth_many pr Hn). reflexivity. }
  rewrite Hma in Hr. simpl in Hr.
  unfold _predict, prepare, bind.
  destruct (posterior_attributes self w) as [[x|e] w1]; simpl in Hr; [discriminate|].
  simpl. injection Hr as ->. reflexivity.
Qed.
End PositiveOnly.

Lemma positive_only_raises_witness :
  posterior_arrays (heap w_positive) (_posterior_state dlt_positive) = Some model_positive
  /\ dict_get POSITIVE_REGRESSOR_BETA model_positive = Some (A2 2 [[1; 2]; [3; 4]])
  /\ dict_get REGULAR_REGRESSOR_BETA model_positive = None
  /\ numel (A2 2 [[1; 2]; [3; 4]] : ndarray Z) <> 1%nat
  /\ (_predict dlt_positive (Some 12%nat) false false w_positive).1 = Raises RuntimeError.
Proof.
  split; [reflexivity|]. split; [reflexivity|]. split; [reflexivity|].
  split; [vm_compute; lia|].
  apply (positive_only_raises dlt_positive (Some 12%nat) false false w_positive
           model_positive (A2 2 [[1; 2]; [3; 4]])); try reflexivity.
  vm_compute; lia.
Defined.

(** ** Windows inside the training dates *)

Lemma inside_not_longer (tm : training_meta) (pm : prediction_meta) (hz : horizon) :
  resolve_horizon tm pm = Returns hz ->
  prediction_start pm <= training_end tm ->
  date_set (pm_date_array pm) ⊆ date_set (tm_date_array tm) ->
  full_len hz <= Z.of_nat (tm_df_length tm).
Proof.
  intros Hr Hs Hsub. unfold resolve_horizon in Hr.
  destruct (training_end tm <? prediction_start pm) eqn:Hlt.
  - apply Z.ltb_lt in Hlt. lia.
  - destruct (get_loc _ _); simpl in Hr; [|discriminate].
    injection Hr as <-. simpl.
    assert (He : date_set (pm_date_array pm) ∖ date_set (tm_date_array tm) = ∅).
    { apply set_eq. intros x. rewrite elem_of_difference, elem_of_empty.
      split; [intros [Hx Hn]; apply Hn, Hsub, Hx | tauto]. }
    rewrite He, size_empty. unfold py_or. simpl. lia.
Qed.

Section InSample.
Context {F : Type} `{Scalar F} `{Collaborators F}.

(** X10 (lines 296-358).  For prediction dates that are all training dates
    the forecast loop is not run: the outcome with errors included is the
    outcome without them, no noise is drawn and the store is left as it is. *)
Theorem in_sample_ignores_error (self : DLT F) (decompose : bool) (p : prepared)
    (w : world F) :
  prediction_start (prediction_df p) <= training_end (training_df_meta self) ->
  date_set (pm_date_array (prediction_df p))
    ⊆ date_set (tm_date_array (training_df_meta self)) ->
  predict_from self true decompose p w = predict_from self false decompose p w
  /\ (predict_from self true decompose p w).2 = w.
Proof.
  intros Hs Hsub.
  assert (Hany : forall include_error,
            predict_from self include_error decompose p w
            = ((predict_from self false decompose p w).1, w)).
  { intros include_error. unfold predict_from, bind, lift.
    destruct (validate _ _) as [[]|e]; [|reflexivity].
    destruct (resolve_horizon _ _) as [hz|e] eqn:Hhz; [|reflexivity].
    destruct (regression_component _ _ _ _) as [reg|e]; [|reflexivity].
    destruct (seasonality_init _ _ _) as [[[v n] cols]|e]; [|reflexivity].
    pose proof (inside_not_longer _ _ _ Hhz Hs Hsub) as Hle.
    unfold trend_component. rewrite (proj2 (Z.leb_le _ _) Hle).
    unfold bind, lift, ret.
    destruct (cols_of (local_trend _)) as [lt|e]; [|reflexivity].
    destruct (cols_of (global_trend _)) as [gt|e]; reflexivity. }
  split.
  - rewrite (Hany true), (Hany false). reflexivity.
  - rewrite (Hany true). reflexivity.
Qed.

Lemma slice_to_length {A} (k : Z) (l : list A) :
  0 <= k -> length (slice_to k l) = Nat.min (Z.to_nat k) (length l).
Proof.
  intros Hk. unfold slice_to, py_bound.
  destruct (k <? 0) eqn:Hneg; [apply Z.ltb_lt in Hneg; lia|].
  rewrite length_take. lia.
Qed.

Lemma slice_from_length {A} (k : Z) (l : list A) :
  0 <= k -> length (slice_from k l) = (length l - Z.to_nat k)%nat.
Proof.
  intros Hk. unfold slice_from, py_bound.
  destruct (k <? 0) eqn:Hneg; [apply Z.ltb_lt in Hneg; lia|].
  rewrite length_drop. lia.
Qed.

Lemma zeros_length (n len : nat) : length (zeros (F := F) n len) = len.
Proof. unfold zeros. apply length_replicate. Qed.

(** X11 (lines 337-348).  Whenever the seasonality component is built for a
    combined length that is not negative, it has one column for each index
    below the combined length: the first columns of the stored levels, as a
    view, when they are enough; the stored levels followed by zero columns
    when they are not; and zero columns only when the period is at most one. *)
Theorem seasonality_init_width (self : DLT F) (at_ : attributes) (full_len : Z)
    (v : bool) (n : nat) (cols : list (vec F)) :
  0 <= full_len ->
  seasonality_init self at_ full_len = Returns (v, n, cols) ->
  length cols = Z.to_nat full_len
  /\ (1 < seasonality self ->
      exists stored,
        seasonality_levels at_ = Some (A2 n stored)
        /\ (v = true -> full_len <= Z.of_nat (length stored)
                        /\ cols = take (Z.to_nat full_len) stored)
        /\ (v = false -> Z.of_nat (length stored) < full_len
                         /\ n = num_sample at_
                         /\ cols = stored
                                   ++ zeros n (Z.to_nat full_len - length stored)))
  /\ (seasonality self <= 1 ->
      v = false /\ n = num_sample at_ /\ cols = zeros n (Z.to_nat full_len)).
Proof.
  intros Hf. unfold seasonality_init.
  destruct (1 <? seasonality self) eqn:Hp.
  - apply Z.ltb_lt in Hp.
    destruct (seasonality_levels at_) as [[u|n0 stored]|]; try discriminate.
    destruct (full_len <=? Z.of_nat (length stored)) eqn:Hle.
    + apply Z.leb_le in Hle. intros [= <- <- <-].
      split; [rewrite slice_to_length by lia; lia|].
      split; [|lia]. intros _. exists stored. split; [reflexivity|].
      split; [|discriminate]. intros _. split; [lia|].
      unfold slice_to, py_bound.
      destruct (full_len <? 0) eqn:Hneg; [apply Z.ltb_lt in Hneg; lia|].
      f_equal. lia.
    + apply Z.leb_gt in Hle. unfold cat1.
      destruct (decide (n0 = num_sample at_)) as [->|Hne]; [|discriminate].
      simpl. intros [= <- <- <-].
      split; [rewrite length_app, zeros_length; lia|].
      split; [|lia]. intros _. exists stored. split; [reflexivity|].
      split; [discriminate|]. intros _. split; [lia|]. split; [reflexivity|].
      f_equal. f_equal. lia.
  - apply Z.ltb_ge in Hp.
    destruct (full_len <? 0) eqn:Hneg; [discriminate|].
    intros [= <- <- <-].
    split; [apply zeros_length|]. split; [lia|]. intros _. repeat split.
Qed.
End InSample.

Lemma in_sample_ignores_error_witness :
  prediction_start (prediction_df prepared_head3)
    <= training_end (training_df_meta (Example.dlt 3))
  /\ date_set (pm_date_array (prediction_df prepared_head3))
       ⊆ date_set (tm_date_array (training_df_meta (Example.dlt 3)))
  /\ predict_from (Example.dlt 3) true true prepared_head3 Example.w0
     = predict_from (Example.dlt 3) false true prepared_head3 Example.w0
  /\ (predict_from (Example.dlt 3) true true prepared_head3 Example.w0).2 = Example.w0.
Proof.
  assert (Hsub : date_set (pm_date_array (prediction_df prepared_head3))
                   ⊆ date_set (tm_date_array (training_df_meta (Example.dlt 3)))).
  { apply (bool_decide_unpack _). vm_compute. exact I. }
  split; [vm_compute; discriminate|]. split; [exact Hsub|].
  apply (in_sample_ignores_error (Example.dlt 3) true prepared_head3 Example.w0);
    [vm_compute; discriminate | exact Hsub].
Defined.

Lemma seasonality_init_width_witness :
  0 <= 14
  /\ seasonality_init (Example.dlt 3) Example.attrs3 14
     = Returns (false, 2%nat, seasonality_component Example.start14)
  /\ length (seasonality_component Example.start14) = Z.to_nat 14
  /\ (1 < seasonality (Example.dlt 3) ->
      exists stored,
        seasonality_levels Example.attrs3 = Some (A2 2 stored)
        /\ (false = true -> 14 <= Z.of_nat (length stored)
                            /\ seasonality_component Example.start14
                               = take (Z.to_nat 14) stored)
        /\ (false = false -> Z.of_nat (length stored) < 14
                             /\ 2%nat = num_sample Example.attrs3
                             /\ seasonality_component Example.start14
                                = stored ++ zeros 2 (Z.to_nat 14 - length stored)))
  /\ (seasonality (Example.dlt 3) <= 1 ->
      false = false /\ 2%nat = num_sample Example.attrs3
      /\ seasonality_component Example.start14 = zeros 2 (Z.to_nat 14)).
Proof.
  split; [lia|]. split; [reflexivity|].
  apply (seasonality_init_width (Example.dlt 3) Example.attrs3 14 false 2
           (seasonality_component Example.start14)); [lia | reflexivity].
Defined.

(** ** Forecasts beyond the training dates *)

Section Beyond.
Context {F : Type} `{Scalar F} `{Collaborators F}.

Lemma cat1_same (n : nat) (a b : list (vec F)) :
  cat1 (A2 n a) (A2 n b) = Returns (A2 n (a ++ b)).
Proof. unfold cat1. destruct (decide (n = n)); [reflexivity | contradiction]. Qed.

Lemma slice_to_all {A} (k : Z) (l : list A) :
  Z.of_nat (length l) <= k -> slice_to k l = l.
Proof.
  intros Hk. unfold slice_to, py_bound.
  destruct (k <? 0) eqn:Hneg; [apply Z.ltb_lt in Hneg; lia|].
  apply take_ge. lia.
Qed.


End Beyond.

Lemma example_covers :
  covers Example.attrs3 10 (as2d (Example.hist 100 10)).2 (as2d (Example.hist 200 10)).2
         [19; 1] [10; -8].
Proof.
  repeat split; try reflexivity.
  - exists 2%nat, (as2d (Example.hist 10 10)).2. split; reflexivity.
  - exists 2%nat, (as2d (Example.hist 1 10)).2. split; reflexivity.
Qed.


(** ** The shape of a forecast *)

Section Shape.
Context {F : Type} `{Scalar F} `{Collaborators F}.


Lemma seasonality_init_returns (self : DLT F) (at_ : attributes) (full_len : Z) :
  0 <= full_len ->
  (1 < seasonality self ->
   exists stored, seasonality_levels at_ = Some (A2 (num_sample at_) stored)) ->
  exists v seas,
    seasonality_init self at_ full_len = Returns (v, num_sample at_, seas)
    /\ length seas = Z.to_nat full_len.
Proof.
  intros Hf Hlev. unfold seasonality_init.
  destruct (1 <? seasonality self) eqn:Hp.
  - apply Z.ltb_lt in Hp. destruct (Hlev Hp) as (stored & ->).
    destruct (full_len <=? Z.of_nat (length stored)) eqn:Hle.
    + apply Z.leb_le in Hle. do 2 eexists. split; [reflexivity|].
      rewrite slice_to_length by lia. lia.
    + apply Z.leb_gt in Hle. rewrite cat1_same. simpl.
      do 2 eexists. split; [reflexivity|].
      rewrite length_app, zeros_length. lia.
  - rewrite (proj2 (Z.ltb_ge _ _) Hf).
    do 2 eexists. split; [reflexivity|]. apply zeros_length.
Qed.

Lemma bsize_same (a : nat) : bsize a a = Returns a.
Proof. unfold bsize. destruct (decide (a = a)); [reflexivity | contradiction]. Qed.

Lemma stretch_same {A} (l : list A) : stretch (length l) l = l.
Proof. unfold stretch. destruct (decide _); [reflexivity | contradiction]. Qed.

(** The sum of two tensors of the same shape. *)
Lemma badd_same_shape (n t : nat) (c1 c2 : list (vec F)) :
  length c1 = t -> length c2 = t ->
  exists c, badd (A2 n c1) (A2 n c2) = Returns (A2 n c) /\ length c = t.
Proof.
  intros H1 H2. unfold badd. cbn [as2d]. rewrite bsize_same. cbn [obind].
  rewrite H1, H2, bsize_same. cbn [obind].
  eexists. split; [reflexivity|].
  rewrite <- H1 at 1. rewrite stretch_same. rewrite <- H2 at 1. rewrite stretch_same.
  rewrite length_zip_with. lia.
Qed.

Lemma amap_shape (f : F -> F) (n : nat) (c : list (vec F)) :
  exists c', amap f (A2 n c) = A2 n c' /\ length c' = length c.
Proof. eexists. split; [reflexivity|]. apply length_fmap. Qed.


End Shape.



(** ** Windows inside the training dates that start late *)

Section Inside.
Context {F : Type} `{Scalar F} `{Collaborators F}.

Lemma inside_len (tm : training_meta) (pm : prediction_meta) (hz : horizon) :
  resolve_horizon tm pm = Returns hz ->
  prediction_start pm <= training_end tm ->
  date_set (pm_date_array pm) ⊆ date_set (tm_date_array tm) ->
  NoDup (tm_date_array tm) ->
  length (tm_date_array tm) = tm_df_length tm ->
  NoDup (pm_date_array pm) ->
  full_len hz = Z.of_nat (length (pm_date_array pm))
  /\ (length (pm_date_array pm) <= tm_df_length tm)%nat.
Proof.
  intros Hr Hs Hsub Ht Hl Hp.
  pose proof (subseteq_size _ _ Hsub) as Hle.
  unfold date_set in Hle. rewrite !size_list_to_set in Hle by assumption.
  split; [|unfold date in *; lia].
  unfold resolve_horizon in Hr.
  rewrite (proj2 (Z.ltb_ge _ _) Hs) in Hr.
  destruct (get_loc _ _); simpl in Hr; [|discriminate].
  injection Hr as <-. simpl.
  assert (He : date_set (pm_date_array pm) ∖ date_set (tm_date_array tm) = ∅).
  { apply set_eq. intros x. rewrite elem_of_difference, elem_of_empty.
    split; [intros [Hx Hn]; apply Hn, Hsub, Hx | tauto]. }
  rewrite He, size_empty. unfold py_or. simpl.
  rewrite size_difference by exact Hsub.
  unfold date_set. rewrite !size_list_to_set by assumption.
  unfold date in *. lia.
Qed.

Lemma badd_mismatch (n a b : nat) (c1 c2 : list (vec F)) :
  length c1 = a -> length c2 = b ->
  a <> b -> a <> 1%nat -> b <> 1%nat ->
  badd (A2 n c1) (A2 n c2) = Raises RuntimeError.
Proof.
  intros H1 H2 Hab Ha Hb. unfold badd. cbn [as2d]. rewrite bsize_same. cbn [obind].
  rewrite H1, H2. unfold bsize.
  destruct (decide (a = b)); [contradiction|].
  destruct (decide (a = 1%nat)); [contradiction|].
  destruct (decide (b = 1%nat)); [contradiction|]. reflexivity.
Qed.

(** X14 (lines 296-316, 356-358, 422-427).  A window of training dates that
    does not start at the first training date cannot be predicted: the
    tensors are cut to the number of prediction dates before the columns from
    the start position on are taken, so what is left does not have the shape
    of the regression component, and their sum raises [RuntimeError] (unless
    one of the two lengths is one, when the sum broadcasts). *)
Theorem late_window_fails (self : DLT F) (include_error decompose : bool) (p : prepared)
    (hz : horizon) (s : Z) (lt gt : list (vec F)) (level slope : vec F) (w : world F) :
  covers (attrs p) (tm_df_length (training_df_meta self)) lt gt level slope ->
  (1 < seasonality self ->
   exists stored, seasonality_levels (attrs p) = Some (A2 (num_sample (attrs p)) stored)) ->
  regressor_col self = None \/ regular_regressor_col self = [] ->
  prediction_df_meta (frame p) = Returns (prediction_df p) ->
  validate (training_df_meta self) (prediction_df p) = Returns tt ->
  NoDup (df_dates (frame p)) ->
  NoDup (tm_date_array (training_df_meta self)) ->
  length (tm_date_array (training_df_meta self)) = tm_df_length (training_df_meta self) ->
  prediction_start (prediction_df p) <= training_end (training_df_meta self) ->
  date_set (df_dates (frame p)) ⊆ date_set (tm_date_array (training_df_meta self)) ->
  resolve_horizon (training_df_meta self) (prediction_df p) = Returns hz ->
  start hz = LInt s ->
  0 < s ->
  length (df_dates (frame p)) <> 1%nat ->
  Z.of_nat (length (df_dates (frame p))) <> s + 1 ->
  predict_from self include_error decompose p w = (Raises RuntimeError, w).
Proof.
  intros Hcov Hlev Hreg Hpm Hval Hnd Hndt Hlt Hs Hsub Hhz Hst Hpos Hm1 Hms.
  set (tm := training_df_meta self) in *.
  set (m := length (df_dates (frame p))) in *.
  assert (Hmeta : pm_date_array (prediction_df p) = df_dates (frame p)
                  /\ pm_df_length (prediction_df p) = m
                  /\ (0 < m)%nat).
  { unfold prediction_df_meta in Hpm.
    destruct (head (df_dates (frame p))) as [first|] eqn:Hh; [|discriminate].
    destruct (last (df_dates (frame p))) as [final|]; [|discriminate].
    simpl in Hpm. injection Hpm as <-. simpl. repeat split.
    subst m. destruct (df_dates (frame p)); [discriminate | simpl; lia]. }
  destruct Hmeta as (Hdates & Hlen & Hm).
  destruct (inside_len tm (prediction_df p) hz Hhz Hs) as (Hfull & Hle);
    try assumption; try (rewrite Hdates; assumption).
  rewrite Hdates in Hfull, Hle. fold m in Hfull, Hle.
  destruct (seasonality_init_returns self (attrs p) (full_len hz)) as (v & seas & Hsi & Hsl);
    [lia | exact Hlev |].
  destruct Hcov as (Hl & Hll & Hg & Hgl & _).
  unfold predict_from. fold tm.
  unfold bind at 1. unfold lift at 1. rewrite Hval.
  unfold bind at 1. unfold lift at 1. rewrite Hhz.
  unfold bind at 1. unfold lift at 1.
  assert (Hrc : regression_component self (attrs p) (frame p)
                  (pm_df_length (prediction_df p))
                = Returns (A2 (num_sample (attrs p))
                              (zeros (num_sample (attrs p))
                                     (pm_df_length (prediction_df p))))).
  { unfold regression_component. destruct Hreg as [-> | ->]; simpl.
    - reflexivity.
    - rewrite andb_false_r. reflexivity. }
  rewrite Hrc.
  unfold bind at 1. unfold lift at 1. rewrite Hsi. cbn [fst snd].
  unfold trend_component.
  rewrite (proj2 (Z.leb_le (full_len hz) (Z.of_nat (tm_df_length tm))))
    by lia.
  rewrite Hl, Hg. cbn [cols_of]. unfold bind, lift, ret. cbn [fst snd].
  rewrite Hst. unfold combine. cbn [full_global_trend full_local_trend seasonality_component].
  destruct (badd_same_shape (num_sample (attrs p)) (m - Z.to_nat s)
              (slice_from s (slice_to (full_len hz) gt))
              (slice_from s (slice_to (full_len hz) lt))) as (c1 & -> & L1);
    [rewrite slice_from_length, slice_to_length by lia; lia
    | rewrite slice_from_length, slice_to_length by lia; lia |].
  cbn [obind].
  destruct (badd_same_shape (num_sample (attrs p)) (m - Z.to_nat s) c1 (slice_from s seas))
    as (c2 & -> & L2); [exact L1 | rewrite slice_from_length by lia; lia |].
  cbn [obind].
  rewrite (badd_mismatch (num_sample (attrs p)) (m - Z.to_nat s) m c2);
    [reflexivity | exact L2 | rewrite zeros_length; exact Hlen | lia | lia | exact Hm1].
Qed.
End Inside.

Lemma late_window_fails_witness :
  (1 < seasonality (Example.dlt 3) ->
   exists stored,
     seasonality_levels (attrs prepared_inside3)
     = Some (A2 (num_sample (attrs prepared_inside3)) stored))
  /\ (regressor_col (Example.dlt 3) = None \/ regular_regressor_col (Example.dlt 3) = [])
  /\ prediction_df_meta (frame prepared_inside3) = Returns (prediction_df prepared_inside3)
  /\ validate (training_df_meta (Example.dlt 3)) (prediction_df prepared_inside3)
     = Returns tt
  /\ NoDup (df_dates (frame prepared_inside3))
  /\ NoDup (tm_date_array (training_df_meta (Example.dlt 3)))
  /\ date_set (df_dates (frame prepared_inside3))
       ⊆ date_set (tm_date_array (training_df_meta (Example.dlt 3)))
  /\ resolve_horizon (training_df_meta (Example.dlt 3)) (prediction_df prepared_inside3)
     = Returns {| n_forecast_steps := -7; start := LInt 3; full_len := 3 |}
  /\ predict_from (Example.dlt 3) false false prepared_inside3 Example.w0
     = (Raises RuntimeError, Example.w0).
Proof.
  assert (Hlev : 1 < seasonality (Example.dlt 3) ->
                 exists stored,
                   seasonality_levels (attrs prepared_inside3)
                   = Some (A2 (num_sample (attrs prepared_inside3)) stored))
    by (intros _; eexists; reflexivity).
  assert (Hnd : NoDup (df_dates (frame prepared_inside3)))
    by (apply (bool_decide_unpack _); vm_compute; exact I).
  assert (Hndt : NoDup (tm_date_array (training_df_meta (Example.dlt 3))))
    by (apply (bool_decide_unpack _); vm_compute; exact I).
  assert (Hsub : date_set (df_dates (frame prepared_inside3))
                   ⊆ date_set (tm_date_array (training_df_meta (Example.dlt 3))))
    by (apply (bool_decide_unpack _); vm_compute; exact I).
  assert (Hhz : resolve_horizon (training_df_meta (Example.dlt 3))
                                (prediction_df prepared_inside3)
                = Returns {| n_forecast_steps := -7; start := LInt 3; full_len := 3 |})
    by (vm_compute; reflexivity).
  split; [exact Hlev|]. split; [left; reflexivity|]. split; [reflexivity|].
  split; [reflexivity|]. split; [exact Hnd|]. split; [exact Hndt|].
  split; [exact Hsub|]. split; [exact Hhz|].
  apply (late_window_fails (Example.dlt 3) false false prepared_inside3
           {| n_forecast_steps := -7; start := LInt 3; full_len := 3 |} 3
           (as2d (Example.hist 100 10)).2 (as2d (Example.hist 200 10)).2
           [19; 1] [10; -8] Example.w0 example_covers Hlev (or_introl eq_refl)
           eq_refl eq_refl Hnd Hndt eq_refl);
    [vm_compute; discriminate | exact Hsub | exact Hhz | reflexivity | lia
     | simpl; lia | simpl; lia].
Defined.

(** The frames of the example as the routine prepares them. *)
Example example_prepared :
  (exists bufs w1, prepare (Example.dlt 3) (Some 12%nat) Example.w0
                   = (Returns {| bufs := bufs; attrs := attrs prepared_future4;
                                 frame := frame prepared_future4;
                                 prediction_df := prediction_df prepared_future4 |}, w1))
  /\ (exists bufs w1, prepare (Example.dlt 3) (Some 13%nat) Example.w0
                      = (Returns {| bufs := bufs; attrs := attrs prepared_inside3;
                                    frame := frame prepared_inside3;
                                    prediction_df := prediction_df prepared_inside3 |}, w1))
  /\ (exists bufs w1, prepare (Example.dlt 3) (Some 14%nat) Example.w0
                      = (Returns {| bufs := bufs; attrs := attrs prepared_head3;
                                    frame := frame prepared_head3;
                                    prediction_df := prediction_df prepared_head3 |}, w1)).
Proof. repeat split; do 2 eexists; vm_compute; reflexivity. Qed.

(** ** Windows that start in the training dates and go beyond them *)

Section Overlap.
Context {F : Type} `{Scalar F} `{Collaborators F}.


End Overlap.


(** ** Windows at the start of the training dates *)

Section Reconstruction.
Context {F : Type} `{Scalar F} `{Collaborators F}.

Lemma badd_same (n : nat) (c1 c2 : list (vec F)) :
  length c1 = length c2 ->
  badd (A2 n c1) (A2 n c2) = Returns (A2 n (tensor_add n c1 c2)).
Proof.
  intros Hl. unfold badd. cbn [as2d]. rewrite bsize_same. cbn [obind].
  rewrite <- Hl, bsize_same. cbn [obind].
  rewrite stretch_same. rewrite Hl, stretch_same. reflexivity.
Qed.

Lemma tensor_add_length (n : nat) (c1 c2 : list (vec F)) :
  length c1 = length c2 -> length (tensor_add n c1 c2) = length c1.
Proof. intros Hl. unfold tensor_add. rewrite length_zip_with. lia. Qed.

Lemma slice_from_0 {A} (l : list A) : slice_from 0 l = l.
Proof. unfold slice_from, py_bound. simpl. rewrite Z.min_l by lia. reflexivity. Qed.

Lemma slice_to_take {A} (k : nat) (l : list A) :
  (k <= length l)%nat -> slice_to (Z.of_nat k) l = take k l.
Proof.
  intros Hk. unfold slice_to, py_bound.
  destruct (Z.of_nat k <? 0) eqn:Hneg; [apply Z.ltb_lt in Hneg; lia|].
  f_equal. lia.
Qed.

(** X16 (lines 296-316, 337-358, 422-462).  For a window of training dates
    that starts at the first training date, the routine returns the stored
    history: the prediction is the sum of the first columns of the stored
    global trend, of the stored local trend and of the seasonality component,
    and of a zero regression, one column for each prediction date, put
    through the inverse transforms of the model; no pass of the loop is run
    and the store is left as it is. *)
Theorem in_sample_reconstruction (self : DLT F) (include_error decompose : bool)
    (p : prepared) (hz : horizon) (lt gt : list (vec F)) (level slope : vec F)
    (w : world F) :
  covers (attrs p) (tm_df_length (training_df_meta self)) lt gt level slope ->
  (1 < seasonality self ->
   exists stored, seasonality_levels (attrs p) = Some (A2 (num_sample (attrs p)) stored)) ->
  regressor_col self = None \/ regular_regressor_col self = [] ->
  prediction_df_meta (frame p) = Returns (prediction_df p) ->
  validate (training_df_meta self) (prediction_df p) = Returns tt ->
  NoDup (df_dates (frame p)) ->
  NoDup (tm_date_array (training_df_meta self)) ->
  length (tm_date_array (training_df_meta self)) = tm_df_length (training_df_meta self) ->
  prediction_start (prediction_df p) <= training_end (training_df_meta self) ->
  date_set (df_dates (frame p)) ⊆ date_set (tm_date_array (training_df_meta self)) ->
  resolve_horizon (training_df_meta self) (prediction_df p) = Returns hz ->
  start hz = LInt 0 ->
  let m := length (df_dates (frame p)) in
  let n := num_sample (attrs p) in
  exists o v seas,
    predict_from self include_error decompose p w = (Returns o, w)
    /\ seasonality_init self (attrs p) (Z.of_nat m) = Returns (v, n, seas)
    /\ prediction o
       = (if auto_scale self then amap inverse_transform else fun a => a)
           ((if is_multiplicative self then amap fexp else fun a => a)
              (A2 n (tensor_add n
                       (tensor_add n (tensor_add n (take m gt) (take m lt)) seas)
                       (zeros n m)))).
Proof.
  intros Hcov Hlev Hreg Hpm Hval Hnd Hndt Hlt Hs Hsub Hhz Hst m n.
  set (tm := training_df_meta self) in *.
  assert (Hmeta : pm_date_array (prediction_df p) = df_dates (frame p)
                  /\ pm_df_length (prediction_df p) = m).
  { unfold prediction_df_meta in Hpm.
    destruct (head (df_dates (frame p))) as [first|] eqn:Hh; [|discriminate].
    destruct (last (df_dates (frame p))) as [final|]; [|discriminate].
    simpl in Hpm. injection Hpm as <-. simpl. split; reflexivity. }
  destruct Hmeta as (Hdates & Hlen).
  destruct (inside_len tm (prediction_df p) hz Hhz Hs) as (Hfull & Hle);
    try assumption; try (rewrite Hdates; assumption).
  rewrite Hdates in Hfull, Hle. fold m in Hfull, Hle.
  destruct (seasonality_init_returns self (attrs p) (full_len hz)) as (v & seas & Hsi & Hsl);
    [lia | exact Hlev |].
  destruct Hcov as (Hl & Hll & Hg & Hgl & _).
  assert (Hrc : regression_component self (attrs p) (frame p)
                  (pm_df_length (prediction_df p))
                = Returns (A2 n (zeros n m))).
  { unfold regression_component. rewrite Hlen. destruct Hreg as [-> | ->]; simpl.
    - reflexivity.
    - rewrite andb_false_r. reflexivity. }
  assert (Hsum : exists o,
            combine self decompose (LInt 0) n n n
                    {| full_local_trend := slice_to (full_len hz) lt;
                       full_global_trend := slice_to (full_len hz) gt;
                       seasonality_component := seas;
                       last_local_trend_level := A1 [];
                       last_local_trend_slope := A1 [] |}
                    (A2 n (zeros n m)) = Returns o
            /\ prediction o
               = (if auto_scale self then amap inverse_transform else fun a => a)
                   ((if is_multiplicative self then amap fexp else fun a => a)
                      (A2 n (tensor_add n
                               (tensor_add n (tensor_add n (take m gt) (take m lt)) seas)
                               (zeros n m))))).
  { unfold combine. cbn [full_global_trend full_local_trend seasonality_component].
    rewrite !slice_from_0. rewrite Hfull, !slice_to_take by lia.
    assert (Lg : length (take m gt) = m) by (rewrite length_take; lia).
    assert (Ll : length (take m lt) = m) by (rewrite length_take; lia).
    assert (L1 : length (tensor_add n (take m gt) (take m lt)) = m)
      by (rewrite tensor_add_length; lia).
    assert (L2 : length (tensor_add n (tensor_add n (take m gt) (take m lt)) seas) = m)
      by (rewrite tensor_add_length; lia).
    rewrite badd_same by lia. cbn [obind].
    rewrite badd_same by lia. cbn [obind].
    rewrite badd_same by (rewrite zeros_length; lia).
    cbn [obind]. eexists. split; reflexivity. }
  destruct Hsum as (o & Hc & Hp).
  exists o, v, seas. rewrite <- Hfull. split; [|split; [exact Hsi | exact Hp]].
  unfold predict_from. fold tm.
  unfold bind at 1. unfold lift at 1. rewrite Hval.
  unfold bind at 1. unfold lift at 1. rewrite Hhz.
  unfold bind at 1. unfold lift at 1. rewrite Hrc.
  unfold bind at 1. unfold lift at 1. rewrite Hsi. cbn [fst snd].
  unfold trend_component.
  rewrite (proj2 (Z.leb_le (full_len hz) (Z.of_nat (tm_df_length tm)))) by lia.
  rewrite Hl, Hg. cbn [cols_of]. unfold bind, lift, ret. cbn [fst snd].
  rewrite Hst. fold n. rewrite Hc. reflexivity.
Qed.
End Reconstruction.

Lemma in_sample_reconstruction_witness :
  (1 < seasonality (Example.dlt 3) ->
   exists stored,
     seasonality_levels (attrs prepared_head3)
     = Some (A2 (num_sample (attrs prepared_head3)) stored))
  /\ prediction_df_meta (frame prepared_head3) = Returns (prediction_df prepared_head3)
  /\ validate (training_df_meta (Example.dlt 3)) (prediction_df prepared_head3) = Returns tt
  /\ NoDup (df_dates (frame prepared_head3))
  /\ NoDup (tm_date_array (training_df_meta (Example.dlt 3)))
  /\ date_set (df_dates (frame prepared_head3))
       ⊆ date_set (tm_date_array (training_df_meta (Example.dlt 3)))
  /\ resolve_horizon (training_df_meta (Example.dlt 3)) (prediction_df prepared_head3)
     = Returns {| n_forecast_steps := -7; start := LInt 0; full_len := 3 |}
  /\ (let m := length (df_dates (frame prepared_head3)) in
      let n := num_sample (attrs prepared_head3) in
      exists o v seas,
        predict_from (Example.dlt 3) true false prepared_head3 Example.w0
        = (Returns o, Example.w0)
        /\ seasonality_init (Example.dlt 3) (attrs prepared_head3) (Z.of_nat m)
           = Returns (v, n, seas)
        /\ prediction o
           = (if auto_scale (Example.dlt 3) then amap inverse_transform else fun a => a)
               ((if is_multiplicative (Example.dlt 3) then amap fexp else fun a => a)
                  (A2 n (tensor_add n
                           (tensor_add n
                              (tensor_add n (take m (as2d (Example.hist 200 10)).2)
                                          (take m (as2d (Example.hist 100 10)).2))
                              seas)
                           (zeros n m))))).
Proof.
  assert (Hlev : 1 < seasonality (Example.dlt 3) ->
                 exists stored,
                   seasonality_levels (attrs prepared_head3)
                   = Some (A2 (num_sample (attrs prepared_head3)) stored))
    by (intros _; eexists; reflexivity).
  assert (Hnd : NoDup (df_dates (frame prepared_head3)))
    by (apply (bool_decide_unpack _); vm_compute; exact I).
  assert (Hndt : NoDup (tm_date_array (training_df_meta (Example.dlt 3))))
    by (apply (bool_decide_unpack _); vm_compute; exact I).
  assert (Hsub : date_set (df_dates (frame prepared_head3))
                   ⊆ date_set (tm_date_array (training_df_meta (Example.dlt 3))))
    by (apply (bool_decide_unpack _); vm_compute; exact I).
  assert (Hhz : resolve_horizon (training_df_meta (Example.dlt 3))
                                (prediction_df prepared_head3)
                = Returns {| n_forecast_steps := -7; start := LInt 0; full_len := 3 |})
    by (vm_compute; reflexivity).
  split; [exact Hlev|]. split; [reflexivity|]. split; [reflexivity|].
  split; [exact Hnd|]. split; [exact Hndt|]. split; [exact Hsub|]. split; [exact Hhz|].
  apply (in_sample_reconstruction (Example.dlt 3) true false prepared_head3
           {| n_forecast_steps := -7; start := LInt 0; full_len := 3 |}
           (as2d (Example.hist 100 10)).2 (as2d (Example.hist 200 10)).2
           [19; 1] [10; -8] Example.w0 example_covers Hlev (or_introl eq_refl)
           eq_refl eq_refl Hnd Hndt eq_refl);
    [vm_compute; discriminate | exact Hsub | exact Hhz | reflexivity].
Defined.

(** ** The components of a forecast *)

Section Components.
Context {F : Type} `{Scalar F} `{Collaborators F}.

Lemma combine_decompose (self : DLT F) (st : locator) (nl ng ns : nat)
    (ls : loop_state) (reg : ndarray F) :
  orel (fun o1 o2 =>
          prediction o1 = prediction o2
          /\ components o2 = None
          /\ exists t s r, components o1 = Some (t, s, r)
               /\ (is_multiplicative self = false -> auto_scale self = false ->
                   obind (badd t s) (fun x => badd x r) = Returns (prediction o1)))
       (combine self true st nl ng ns ls reg)
       (combine self false st nl ng ns ls reg).
Proof.
  unfold combine. destruct st as [s|]; [|reflexivity].
  destruct (badd (A2 ng _) (A2 nl _)) as [trend|e] eqn:Ht; [|reflexivity]. cbn [obind].
  destruct (badd trend _) as [sum|e] eqn:Hs; [|reflexivity]. cbn [obind].
  destruct (badd sum reg) as [pred|e] eqn:Hp; [|reflexivity]. cbn [obind orel].
  split; [reflexivity|]. split; [reflexivity|].
  do 3 eexists. split; [reflexivity|].
  intros -> ->. rewrite Hs. cbn [obind]. rewrite Hp. reflexivity.
Qed.

(** X17 (lines 422-462).  Asking for the decomposition changes neither the
    prediction nor what the call does to the store and to the generator: the
    call returns the three components beside the same prediction, or raises
    the same exception.  For an additive model without scaling the components
    add up to the prediction: [(trend + seasonality) + regression]. *)
Theorem decomposition_adds_up (self : DLT F) (include_error : bool) (p : prepared)
    (w : world F) :
  let r1 := predict_from self include_error true p w in
  let r2 := predict_from self include_error false p w in
  r1.2 = r2.2
  /\ orel (fun o1 o2 =>
             prediction o1 = prediction o2
             /\ components o2 = None
             /\ exists t s r, components o1 = Some (t, s, r)
                  /\ (is_multiplicative self = false -> auto_scale self = false ->
                      obind (badd t s) (fun x => badd x r) = Returns (prediction o1)))
          r1.1 r2.1.
Proof.
  cbv zeta. unfold predict_from, bind, lift.
  destruct (validate _ _) as [[]|e]; [|split; reflexivity].
  destruct (resolve_horizon _ _) as [hz|e]; [|split; reflexivity].
  destruct (regression_component _ _ _ _) as [reg|e]; [|split; reflexivity].
  destruct (seasonality_init _ _ _) as [[[v n] cols]|e]; [|split; reflexivity].
  cbn [fst snd].
  destruct (trend_component _ _ _ _ _ _ _ w) as [[tr|e] wf]; [|split; reflexivity].
  cbn [fst snd]. split; [reflexivity|]. apply combine_decompose.
Qed.

(** X18 (lines 240-244, 368-372).  When the fixed damped factor is not
    positive and the posterior has no damped factor, a forecast beyond the
    training dates raises [AttributeError] in its first pass, at
    [damped_factor.flatten()], and leaves the store and the generator as they
    were. *)
Theorem missing_damped_factor (self : DLT F) (model : list (param * ndarray F))
    (at_ : attributes) (include_error : bool) (trained_len : nat) (full_len : Z)
    (view : option loc) (seas : list (vec F)) (lt gt : list (vec F))
    (level slope : vec F) (w : world F) :
  fpos (damped_factor_fixed self) = false ->
  dict_get DAMPED_FACTOR model = None ->
  model_attributes self model = Returns at_ ->
  covers at_ trained_len lt gt level slope ->
  Z.of_nat trained_len < full_len ->
  trend_component self at_ include_error trained_len full_len view seas w
  = (Raises AttributeError, w).
Proof.
  intros Hfix Hmiss Hma (Hlt & Hll & Hgt & Hgl & (nl & levels & Hlev & Hlast)
                         & (ns & slopes & Hsl & Hslast)) Hlen.
  assert (Hd : damped_factor at_ = None).
  { unfold model_attributes in Hma.
    destruct (head model) as [first|]; [|discriminate]. cbn [unwrap obind] in Hma.
    destruct (combine_beta _ _) as [beta|e]; [|discriminate]. cbn [obind] in Hma.
    injection Hma as <-. cbn [damped_factor]. rewrite Hfix. exact Hmiss. }
  unfold trend_component. rewrite (proj2 (Z.leb_gt _ _) Hlen).
  rewrite Hlt, Hgt, Hlev, Hsl. cbn [cols_of].
  unfold bind at 1. unfold lift at 1. cbn [fst snd].
  unfold bind at 1. unfold lift at 1.
  rewrite (slice_to_all full_len lt) by lia. rewrite cat1_same.
  unfold bind at 1. unfold lift at 1. cbn [fst snd].
  unfold bind at 1. unfold lift at 1.
  rewrite (slice_to_all full_len gt) by lia. rewrite cat1_same.
  unfold bind at 1. unfold lift at 1. cbn [fst snd].
  unfold bind at 1. unfold lift at 1. rewrite Hlast. cbn [unwrap].
  unfold bind at 1. unfold lift at 1. cbn [fst snd].
  unfold bind at 1. unfold lift at 1. rewrite Hslast. cbn [unwrap].
  unfold forecast_range.
  destruct (Z.to_nat (full_len - Z.of_nat trained_len)) as [|k] eqn:Hk; [lia|].
  cbn [seq for_each]. unfold bind at 1. unfold bind at 1.
  unfold loop_body. unfold bind at 1. unfold lift at 1. rewrite Hd. reflexivity.
Qed.
End Components.

Lemma missing_damped_factor_witness :
  fpos (damped_factor_fixed dlt_undamped) = false
  /\ dict_get DAMPED_FACTOR model3 = None
  /\ model_attributes dlt_undamped model3 = Returns attrs_undamped
  /\ Z.of_nat 10 < 14
  /\ trend_component dlt_undamped attrs_undamped true 10 14 None
                     (seasonality_component Example.start14) Example.w0
     = (Raises AttributeError, Example.w0).
Proof.
  split; [reflexivity|]. split; [reflexivity|]. split; [reflexivity|]. split; [lia|].
  apply (missing_damped_factor dlt_undamped model3 attrs_undamped true 10 14 None
           (seasonality_component Example.start14)
           (as2d (Example.hist 100 10)).2 (as2d (Example.hist 200 10)).2
           [19; 1] [10; -8] Example.w0); try reflexivity.
  repeat split; try reflexivity.
  - exists 2%nat, (as2d (Example.hist 10 10)).2. split; reflexivity.
  - exists 2%nat, (as2d (Example.hist 1 10)).2. split; reflexivity.
Defined.

(** ** A factor of rank two *)

(** A level smoothing factor of shape [(2, 1)] makes the new level and the new
    slope square tensors.  A forecast of one step does not assign them to a
    column and returns, with the prediction of the vector factor; in a
    forecast of two steps the second pass cannot assign the square local
    trend to its column. *)
Example rank_two_factor :
  (_predict (Example.dlt 3) (Some 17%nat) false false w_rank_two).1
  = Returns {| prediction := A2 2 [[1198; 2142]]; components := None |}
  /\ (_predict (Example.dlt 3) (Some 18%nat) false false w_rank_two).1
     = Raises RuntimeError.
Proof. split; vm_compute; reflexivity. Qed.

(** ** The recursion over the forecast dates *)

Section Recursion.
Context {F : Type} `{Scalar F} `{Collaborators F}.
Variables (self : DLT F) (at_ : @attributes F) (include_error : bool)
  (trained_len : nat) (full_len : Z) (view : option loc) (seas : list (vec F))
  (fs : @factors F) (lt gt : list (vec F)) (level slope : vec F).
Hypothesis Hfs : has_factors self at_ include_error fs.
Hypothesis Hcov : covers at_ trained_len lt gt level slope.
Hypothesis Hlen : Z.of_nat trained_len < full_len.
Hypothesis Hseas : length seas = Z.to_nat full_len.





End Recursion.




(** The forecast of the example without noise: the local and the global
    trend at the four forecast dates, the level and the slope it ends with,
    and the seasonality the pass at the first forecast date reads and writes
    three dates ahead. *)
Example example_forecast :
  exists st wf,
    trend_component (Example.dlt 3) Example.attrs3 false 10 14 None
                    (seasonality_component Example.start14) Example.w0
    = (Returns (2%nat, 2%nat, st), wf)
    /\ drop 10 (full_local_trend st) = [[39; -15]; [79; -47]; [159; -111]; [319; -239]]
    /\ drop 10 (full_global_trend st)
       = [[1099; 2117]; [1110; 2130]; [1121; 2143]; [1132; 2156]]
    /\ last_local_trend_level st = A1 [319; -239]
    /\ last_local_trend_slope st = A1 [160; -128]
    /\ seasonality_component st !! 10%nat = Some [60; 40]
    /\ seasonality_component st !! 13%nat = Some [60; 40].
Proof. do 2 eexists. vm_compute. repeat split; reflexivity. Qed.

(** ** Windows inside the training dates that start late, on the example *)

(** C3 (lines 309-316, 356-358, 422-427).  The routine on two windows inside
    the ten training dates, without noise.  For the dates 3, 4, 5 the horizon
    is minus seven, the combined length three and the start three: the trend
    and the seasonality are cut to the columns 0, 1, 2, nothing is left of
    them from column 3 on, and the sum with the three columns of the
    regression raises.  For the dates 1, 2 the horizon is minus eight, the
    combined length two and the start one: the one column left is the history
    of date 1, and the forecast holds it for both dates, where the stored
    history of the dates 1 and 2 is another. *)
Theorem inside_window_diverges :
  resolve_horizon Example.tm10
    {| pm_date_array := [3; 4; 5]; pm_df_length := 3;
       prediction_start := 3; prediction_end := 5 |}
  = Returns {| n_forecast_steps := -7; start := LInt 3; full_len := 3 |}
  /\ (_predict (Example.dlt 3) (Some 13%nat) false false Example.w0).1
     = Raises RuntimeError
  /\ resolve_horizon Example.tm10
       {| pm_date_array := [1; 2]; pm_df_length := 2;
          prediction_start := 1; prediction_end := 2 |}
     = Returns {| n_forecast_steps := -8; start := LInt 1; full_len := 2 |}
  /\ (_predict (Example.dlt 3) (Some 17%nat) false false w_late2).1
     = Returns {| prediction := A2 2 [[353; 347]; [353; 347]]; components := None |}
  /\ tensor_add 2
       (tensor_add 2 (take 2 (drop 1 (as2d (Example.hist 200 10)).2))
                     (take 2 (drop 1 (as2d (Example.hist 100 10)).2)))
       (take 2 (drop 1 (as2d (Example.hist 50 13)).2))
     = [[353; 347]; [356; 344]].
Proof. repeat split; vm_compute; reflexivity. Qed.

(** ** Coefficients of positive sign only, on the example *)

(** C6 (lines 254-261, 322-331).  A model whose one regressor has a positive
    sign, on a posterior of one draw with the coefficient 2, for a frame with
    the regressor values 3 and 5: the routine returns a regression component
    of zeros, where the product of the values with the coefficient is 6 and
    10, and where the same regressor declared regular gives 6 and 10.  With
    two draws of two such coefficients the routine raises at the truth value
    of the coefficient tensor. *)
Theorem positive_regressors_dropped :
  (_predict dlt_positive1 (Some 13%nat) false true w_one_draw).1
  = Returns {| prediction := A2 1 [[350]; [353]];
               components := Some (A2 1 [[300]; [302]], A2 1 [[50]; [51]],
                                   A2 1 [[0]; [0]]) |}
  /\ matmul_t [[3]; [5]] (A2 1 [[2]]) = Returns (A2 1 [[6]; [10]])
  /\ (_predict dlt_regular1 (Some 13%nat) false true w_one_draw).1
     = Returns {| prediction := A2 1 [[356]; [363]];
                  components := Some (A2 1 [[300]; [302]], A2 1 [[50]; [51]],
                                      A2 1 [[6]; [10]]) |}
  /\ (_predict dlt_positive (Some 18%nat) false true w_positive_x).1
     = Raises RuntimeError
  /\ matmul_t (df_regressors future2_x) (A2 2 [[1; 2]; [3; 4]])
     = Returns (A2 2 [[56; 80]; [224; 320]]).
Proof. repeat split; vm_compute; reflexivity. Qed.
